(** * Invoice processing agents: a shallow embedding of the four store stages

    The development follows the Python sources
    [agents/logger_agent.py] (block segmentation and ingestion),
    [agents/mapper_agent.py] (catalog matching),
    [agents/gst_fetcher_agent.py] (tiered rate resolution) and
    [agents/reviewer_agent.py] (reconciliation).

    Conventions of the embedding.
    - A Python [str] is the list of its code points ([pystr]).
    - A worksheet is the list of its data rows (row 2 onwards, what
      [iter_rows(min_row=2, values_only=True)] yields); a row is a list of
      cell values.  Saving and loading a workbook is the identity on rows.
    - A Python [float] is a primitive binary64 float, so that the arithmetic
      of the sources is evaluated bit for bit.
    - Code that may raise returns a [result]; [try/except Exception] is a
      match on it.
    - The builtins whose tables are not part of the repository (Unicode case
      mapping and decimal digits beyond ASCII, [repr] and parsing of floats)
      are the members of the class [Builtins].
    - The libraries behind the agents are parameters of the sections that
      use them: the regular-expression engine, the JSON decoder and the
      line item parser of [_parse_invoice], and the lookup service of the
      rate resolver.  The statements hold for all of them.
    - The line item parser is also given as the source has it
      ([LoggerAgent.parse_line_items]), with its two regular expressions
      written out; so are step 5 of the reconciliation
      ([ReviewerAgent.add_item_category]) and the flag lines of
      [validation_agent.py] that the segmentation reads
      ([ValidationAgent]). *)

From Stdlib Require Import ZArith NArith String Ascii.
From Stdlib Require Import Floats.PrimFloat Floats.SpecFloat Floats.FloatOps.
From stdpp Require Import gmap strings list.

Set Warnings "-inexact-float".

(** ** Python data *)

Module Py.

(** *** Exceptions *)

Inductive exn :=
| TypeError | ValueError | IndexError | KeyError | OverflowError | AttributeError.

Inductive result (A : Type) :=
| Ok (a : A)
| Raise (e : exn).
Arguments Ok {A} a.
Arguments Raise {A} e.

Definition bind {A B} (r : result A) (k : A → result B) : result B :=
  match r with
  | Ok a => k a
  | Raise e => Raise e
  end.

(** [try: r  except Exception: h] *)
Definition try_except {A} (r : result A) (h : A) : A :=
  match r with
  | Ok a => a
  | Raise _ => h
  end.

(** *** Strings *)

Definition pystr := list N.

Definition lit (s : string) : pystr :=
  (λ a, N_of_ascii a) <$> list_ascii_of_string s.

Definition str_eqb (a b : pystr) : bool := bool_decide (a = b).

(** [str.isspace] on one character, which is also the class [\s] of [re] on
    [str] patterns and what [str.strip()] removes. *)
Definition is_space (c : N) : bool :=
  ((9 <=? c) && (c <=? 13) || (28 <=? c) && (c <=? 31) || (c =? 32)
   || (c =? 133) || (c =? 160) || (c =? 5760)
   || (8192 <=? c) && (c <=? 8202) || (c =? 8232) || (c =? 8233)
   || (c =? 8239) || (c =? 8287) || (c =? 12288))%N.

(** The line boundaries of [str.splitlines]. *)
Definition is_linebreak (c : N) : bool :=
  ((10 <=? c) && (c <=? 13) || (28 <=? c) && (c <=? 30) || (c =? 133)
   || (c =? 8232) || (c =? 8233))%N.

Fixpoint lstrip (s : pystr) : pystr :=
  match s with
  | c :: t => if is_space c then lstrip t else s
  | [] => []
  end.

Definition rstrip (s : pystr) : pystr := reverse (lstrip (reverse s)).

Definition strip (s : pystr) : pystr := rstrip (lstrip s).

Fixpoint startswith (p s : pystr) : bool :=
  match p, s with
  | [], _ => true
  | a :: p', b :: s' => (a =? b)%N && startswith p' s'
  | _ :: _, [] => false
  end.

(** [sub in s] *)
Fixpoint contains (sub s : pystr) : bool :=
  startswith sub s ||
  match s with
  | [] => false
  | _ :: t => contains sub t
  end.

(** [str.splitlines()]: [cur] is the line being read, reversed; [after_cr]
    tells that the previous character was a carriage return, so that a line
    feed right after it belongs to the same boundary. *)
Fixpoint splitlines_from (cur : pystr) (after_cr : bool) (s : pystr) : list pystr :=
  match s with
  | [] => match cur with [] => [] | _ => [reverse cur] end
  | c :: t =>
      if after_cr && (c =? 10)%N then splitlines_from cur false t
      else if is_linebreak c then reverse cur :: splitlines_from [] (c =? 13)%N t
      else splitlines_from (c :: cur) false t
  end.

Definition splitlines (s : pystr) : list pystr := splitlines_from [] false s.

(** [sep.join(parts)] *)
Fixpoint join (sep : pystr) (parts : list pystr) : pystr :=
  match parts with
  | [] => []
  | [p] => p
  | p :: rest => p ++ sep ++ join sep rest
  end.

(** [s.replace(old, new)] for a non-empty [old]: occurrences are replaced
    from the left and do not overlap.  [skip] counts the characters of an
    occurrence still to be dropped. *)
Fixpoint replace_from (old new : pystr) (skip : nat) (s : pystr) : pystr :=
  match s with
  | [] => []
  | c :: t =>
      match skip with
      | S k => replace_from old new k t
      | O =>
          if startswith old s
          then new ++ replace_from old new (Nat.pred (length old)) t
          else c :: replace_from old new O t
      end
  end.

Definition replace (old new s : pystr) : pystr := replace_from old new O s.

(** [s.split()[0]], the first whitespace-separated word; [IndexError]
    when there is none. *)
Fixpoint take_word (s : pystr) : pystr :=
  match s with
  | c :: t => if is_space c then [] else c :: take_word t
  | [] => []
  end.

Definition first_word (s : pystr) : result pystr :=
  match lstrip s with
  | [] => Raise IndexError
  | w => Ok (take_word w)
  end.

Definition is_ascii (c : N) : bool := (c <? 128)%N.

Definition ascii_upper (c : N) : N :=
  if ((97 <=? c) && (c <=? 122))%N then (c - 32)%N else c.

Definition ascii_lower (c : N) : N :=
  if ((65 <=? c) && (c <=? 90))%N then (c + 32)%N else c.

(** Decimal rendering of an integer, as [str(int)] gives it. *)
Fixpoint digits_of_pos (fuel : nat) (n : N) (acc : pystr) : pystr :=
  match fuel with
  | O => acc
  | S f =>
      let acc' := (48 + n mod 10)%N :: acc in
      if (n <? 10)%N then acc' else digits_of_pos f (n / 10)%N acc'
  end.

Definition str_of_Z (z : Z) : pystr :=
  let n := Z.to_N (Z.abs z) in
  let ds := digits_of_pos (S (N.to_nat (N.log2 n))) n [] in
  if (z <? 0)%Z then 45%N :: ds else ds.

(** *** Floats *)

(** The binary64 float nearest to [a / b], ties to even.  The quotient is
    taken with at least 64 significant bits and a sticky bit for a non-zero
    remainder, which [binary_normalize] then rounds once. *)
Definition ratio_to_float (a : Z) (b : positive) : float :=
  match a with
  | Z0 => zero
  | _ =>
      let n := Z.abs a in
      let k := Z.max 0 (Z.log2 (Zpos b) + 66 - Z.log2 n) in
      let q := (n * 2 ^ k) / Zpos b in
      let r := (n * 2 ^ k) mod Zpos b in
      let m := 2 * q + (if r =? 0 then 0 else 1) in
      SF2Prim (binary_normalize prec emax (if a <? 0 then - m else m) (- (k + 1)) false)
  end%Z.

(** [float(z)] on an [int] *)
Definition float_of_Z (z : Z) : result float :=
  let f := SF2Prim (binary_normalize prec emax z 0 false) in
  if is_infinity f then Raise OverflowError else Ok f.

(** [n / d] rounded to the nearest integer, ties to even ([0 <= n], [0 < d]). *)
Definition round_half_even (n d : Z) : Z :=
  let q := (n / d)%Z in
  let r := (n mod d)%Z in
  if (2 * r <? d)%Z then q
  else if (2 * r =? d)%Z then (if Z.even q then q else q + 1)%Z
  else (q + 1)%Z.

(** [round(x, 2)]: the exact binary value is rounded to two decimals, ties to
    even, and the decimal is read back as the nearest float.  Zeros,
    infinities and nan round to themselves. *)
Definition round2 (x : float) : float :=
  match Prim2SF x with
  | S754_finite s m e =>
      if (0 <=? e)%Z then x
      else
        let h := round_half_even (Zpos m * 100) (2 ^ (- e)) in
        if (h =? 0)%Z then (if s then neg_zero else zero)
        else
          let f := ratio_to_float h 100 in
          if s then (- f)%float else f
  | _ => x
  end.

(** [z == f] for an [int] and a [float]: the comparison is exact. *)
Definition Z_eqb_float (z : Z) (f : float) : bool :=
  match Prim2SF f with
  | S754_zero _ => (z =? 0)%Z
  | S754_finite s m e =>
      let v := if s then Zneg m else Zpos m in
      if (0 <=? e)%Z then (z =? v * 2 ^ e)%Z
      else ((v mod 2 ^ (- e) =? 0) && (z =? v / 2 ^ (- e)))%Z
  | _ => false
  end.

(** *** Cell values *)

(** What a worksheet cell, a member of the decoded payload or an entry of the
    rate cache holds: [None], a [bool], an [int], a [float] or a [str]. *)
Inductive value :=
| VNone
| VBool (b : bool)
| VInt (z : Z)
| VFloat (f : float)
| VStr (s : pystr).

Definition Z_of_bool (b : bool) : Z := if b then 1%Z else 0%Z.

(** Truth value of [v] in [if v:] and [not v]. *)
Definition truthy (v : value) : bool :=
  match v with
  | VNone => false
  | VBool b => b
  | VInt z => negb (z =? 0)%Z
  | VFloat f => negb (PrimFloat.eqb f zero)
  | VStr s => match s with [] => false | _ => true end
  end.

(** [a == b], which is also the equality of dictionary keys. *)
Definition py_eqb (a b : value) : bool :=
  match a, b with
  | VNone, VNone => true
  | VStr s, VStr t => str_eqb s t
  | VFloat f, VFloat g => PrimFloat.eqb f g
  | VFloat f, VInt z | VInt z, VFloat f => Z_eqb_float z f
  | VFloat f, VBool c | VBool c, VFloat f => Z_eqb_float (Z_of_bool c) f
  | VInt z, VInt y => (z =? y)%Z
  | VInt z, VBool c | VBool c, VInt z => (z =? Z_of_bool c)%Z
  | VBool c, VBool d => (Z_of_bool c =? Z_of_bool d)%Z
  | _, _ => false
  end.

Definition is_none (v : value) : bool :=
  match v with VNone => true | _ => false end.

(** *** Builtins taken as parameters *)

Class Builtins := {
  (** [str.upper] and [str.lower] on a string that has a non-ASCII character *)
  unicode_upper : pystr → pystr;
  unicode_lower : pystr → pystr;
  (** the value of a non-ASCII decimal digit (category Nd), [None] for the
      other non-ASCII characters *)
  unicode_digit : N → option N;
  unicode_digit_range : ∀ c d, unicode_digit c = Some d → (d < 10)%N;
  (** [repr] of a float, which is what [str] and an f-string show *)
  float_repr : float → pystr;
  (** [float(s)] on a string, [None] where Python raises [ValueError] *)
  float_of_str : pystr → option float;
}.

Section with_builtins.
Context `{Builtins}.

Definition upper (s : pystr) : pystr :=
  if forallb is_ascii s then ascii_upper <$> s else unicode_upper s.

Definition lower (s : pystr) : pystr :=
  if forallb is_ascii s then ascii_lower <$> s else unicode_lower s.

(** The value of a decimal digit; the class [\d] of [re] is its domain. *)
Definition digit_value (c : N) : option N :=
  if ((48 <=? c) && (c <=? 57))%N then Some (c - 48)%N
  else if is_ascii c then None
  else unicode_digit c.

Definition is_digit (c : N) : bool :=
  match digit_value c with Some _ => true | None => false end.

(** [str(v)], also the text of [v] inside an f-string *)
Definition py_str (v : value) : pystr :=
  match v with
  | VNone => lit "None"
  | VBool true => lit "True"
  | VBool false => lit "False"
  | VInt z => str_of_Z z
  | VFloat f => float_repr f
  | VStr s => s
  end.

(** [float(v)] *)
Definition py_float (v : value) : result float :=
  match v with
  | VNone => Raise TypeError
  | VBool b => Ok (if b then one else zero)
  | VInt z => float_of_Z z
  | VFloat f => Ok f
  | VStr s =>
      match float_of_str s with
      | Some f => Ok f
      | None => Raise ValueError
      end
  end.

End with_builtins.

(** *** Dictionaries keyed by cell values

    Insertion-ordered, as Python's [dict]; keys are compared with [==]. *)

Definition dict (V : Type) := list (value * V).

Fixpoint dict_get {V} (d : dict V) (k : value) : option V :=
  match d with
  | [] => None
  | (k', v) :: d' => if py_eqb k' k then Some v else dict_get d' k
  end.

(** [d[k] = v]: an existing key keeps its place. *)
Fixpoint dict_set {V} (d : dict V) (k : value) (v : V) : dict V :=
  match d with
  | [] => [(k, v)]
  | (k', v') :: d' =>
      if py_eqb k' k then (k', v) :: d' else (k', v') :: dict_set d' k v
  end.

End Py.

(** ** agents/logger_agent.py *)

Module LoggerAgent.
Import Py.
Local Open Scope string_scope.
Local Open Scope list_scope.

Definition row := list value.

(** The three sheets that [_init_excel] creates. *)
Record workbook := {
  Invoice_Summary : list row;
  Line_Items : list row;
  QR_Meta : list row;
}.

(** The header row that [_init_excel] gives [Invoice_Summary] *)
Definition Invoice_Summary_header : list value :=
  (λ h, VStr (lit h)) <$>
  [ "DocNo"; "DocDt"; "SellerGstin"; "BuyerGstin"; "IRN"; "AckNo";
    "EWayBill"; "PlaceOfSupply"; "Transport"; "VehicleNo";
    "ItemCnt(QR)"; "TotInvVal(QR)"; "TaxableAmount";
    "CGST_Amount"; "SGST_Amount"; "TotalTax"; "VendorName"; "ValidationFlag" ].

(** A [dict] with literal keys; [get d k] is [d.get(k)]. *)
Definition get (d : gmap string value) (k : string) : value :=
  default VNone (d !! k).

(** [row[i]] *)
Definition index (r : row) (i : nat) : result value :=
  match r !! i with
  | Some v => Ok v
  | None => Raise IndexError
  end.

Definition is_validation_line (line : pystr) : bool :=
  startswith (lit "VALIDATION:") (strip line).

(** The loop of [_split_invoices]; [current] is kept in reading order. *)
Fixpoint split_lines (current : list pystr) (lines : list pystr) : list pystr :=
  match lines with
  | [] => []
  | line :: rest =>
      let current := current ++ [line] in
      if is_validation_line line
      then join [10%N] current :: split_lines [] rest
      else split_lines current rest
  end.

Definition _split_invoices (text : pystr) : list pystr :=
  split_lines [] (splitlines text).

Section parse.
Context `{Builtins}.

(** [re.search(pattern, text, flags)]: the groups 1, 2, ... of the first
    match, [None] for a group that took no part; the flag is [re.S]. *)
Variable re_search : pystr → bool → pystr → option (list (option pystr)).
(** [json.loads(s).get("data", {})] with its members as cell values; it
    raises when the text is not JSON or the result has no members to get.
    (A member that is a list or an object cannot be written to a cell; such
    payloads are left out.) *)
Variable qr_data : pystr → result (gmap string value).
Variable json_dumps : gmap string value → pystr.
(** The multi-line line item parser at the end of [_parse_invoice]; a
    candidate that raises is dropped there, so that it always returns. *)
Variable line_items : pystr → list (gmap string value).

Definition group (gs : list (option pystr)) (i : nat) : value :=
  match gs !! (i - 1)%nat with
  | Some (Some g) => VStr g
  | _ => VNone
  end.

Definition safe_search (pattern text : pystr) : result value :=
  match re_search pattern true text with
  | Some gs =>
      match group gs 1 with
      | VStr g => Ok (VStr (strip g))
      | _ => Raise AttributeError
      end
  | None => Ok VNone
  end.

Definition clean_num (val : value) : result value :=
  match val with
  | VStr ((_ :: _) as s) =>
      bind (py_float (VStr (replace (lit ",") [] s))) (λ f, Ok (VFloat f))
  | _ => Ok VNone
  end.

(** [v or 0] *)
Definition or_zero (v : value) : value := if truthy v then v else VInt 0.

(** [a + b] on the numbers that reach it here *)
Definition add (a b : value) : result value :=
  match a, b with
  | VInt x, VInt y => Ok (VInt (x + y))
  | VFloat f, VFloat g => Ok (VFloat (f + g))
  | VFloat f, VInt y | VInt y, VFloat f =>
      bind (float_of_Z y) (λ g, Ok (VFloat (f + g)))
  | _, _ => Raise TypeError
  end.

(** The payload pass: [qr_meta], empty when there is no payload or when
    decoding it raised. *)
Definition payload_pass (block : pystr) : gmap string value :=
  match re_search (lit "\[--- Decoded QR Payload\(s\) ---\]\s*(\{.*?\})\s*\[") true block with
  | Some gs =>
      match group gs 1 with
      | VStr g =>
          match qr_data g with
          | Ok data =>
              {[ "DocNo" := get data "DocNo";
                 "SellerGstin" := get data "SellerGstin";
                 "BuyerGstin" := get data "BuyerGstin";
                 "DocTyp" := get data "DocTyp";
                 "DocDt" := get data "DocDt";
                 "TotInvVal" := get data "TotInvVal";
                 "ItemCnt" := get data "ItemCnt";
                 "MainHsnCode" := get data "MainHsnCode";
                 "IRN" := get data "Irn";
                 "IrnDt" := get data "IrnDt";
                 "RawPayload" := VStr (json_dumps data) ]}
          | Raise _ => ∅
          end
      | _ => ∅
      end
  | None => ∅
  end.

Definition header_pass (block : pystr) : result (gmap string value) :=
  bind (safe_search (lit "Ack\.No\.\s*:\s*(\d+)") block) (λ ack,
  bind (safe_search (lit "E-Way Bill No\.\s*:\s*(\S+)") block) (λ eway,
  bind (safe_search (lit "Place of Supply\s*:\s*(.*)") block) (λ place,
  bind (safe_search (lit "Vehicle No\.\s*:\s*(\S+)") block) (λ vehicle,
  bind (safe_search (lit "Transport\s*:\s*(\S+)") block) (λ transport,
  bind (safe_search (lit "(VALIDATION:.*)") block) (λ flag,
  Ok ({[ "AckNo" := ack; "EWayBill" := eway; "PlaceOfSupply" := place;
         "VehicleNo" := vehicle; "Transport" := transport;
         "ValidationFlag" := flag ]} : gmap string value))))))).

Fixpoint first_nonblank (lines : list pystr) : value :=
  match lines with
  | [] => VNone
  | l :: rest =>
      match strip l with
      | [] => first_nonblank rest
      | candidate => VStr candidate
      end
  end.

Fixpoint vendor_name (lines : list pystr) : value :=
  match lines with
  | [] => VNone
  | line :: rest =>
      if contains (lit "TAX INVOICE") (upper line) then first_nonblank rest
      else vendor_name rest
  end.

Definition tax_pass (block : pystr) (summary : gmap string value)
  : result (gmap string value) :=
  match re_search (lit "(\d{8})\s+\d+%?\s+([\d,]+\.\d{2})\s+([\d,]+\.\d{2})\s+([\d,]+\.\d{2})(?:\s+([\d,]+\.\d{2}))?") false block with
  | Some gs =>
      bind (clean_num (group gs 2)) (λ taxable,
      let summary := <["TaxableAmount" := taxable]> summary in
      bind (clean_num (group gs 3)) (λ cgst,
      let summary := <["CGST_Amount" := cgst]> summary in
      bind (clean_num (group gs 4)) (λ sgst,
      let summary := <["SGST_Amount" := sgst]> summary in
      bind (clean_num (group gs 5)) (λ total,
      bind (if truthy total then Ok total
            else add (or_zero (get summary "CGST_Amount"))
                     (or_zero (get summary "SGST_Amount"))) (λ total_tax,
      Ok (<["TotalTax" := total_tax]> summary))))))
  | None => Ok summary
  end.

(** [_parse_invoice]: [(summary, line_items, qr_meta)] *)
Definition _parse_invoice (block : pystr)
  : result (gmap string value * list (gmap string value) * gmap string value) :=
  let qr_meta := payload_pass block in
  let summary := qr_meta ∪ (∅ : gmap string value) in
  bind (header_pass block) (λ header,
  let summary := header ∪ summary in
  let summary := <["VendorName" := vendor_name (splitlines block)]> summary in
  bind (tax_pass block summary) (λ summary,
  Ok (summary, line_items block, qr_meta))).

(** The composite key [f"{SellerGstin}_{DocNo}"] *)
Definition comp_key (seller docno : value) : pystr :=
  py_str seller ++ lit "_" ++ py_str docno.

Definition row_key (r : row) : result pystr :=
  bind (index r 2) (λ seller, bind (index r 0) (λ docno, Ok (comp_key seller docno))).

Fixpoint row_keys (rows : list row) : result (list pystr) :=
  match rows with
  | [] => Ok []
  | r :: rest =>
      bind (row_key r) (λ k, bind (row_keys rest) (λ ks, Ok (k :: ks)))
  end.

Definition existing_keys (wb : workbook) : result (gset pystr) :=
  bind (row_keys (Invoice_Summary wb)) (λ ks, Ok (list_to_set ks)).

Definition summary_row (summary : gmap string value) : row :=
  [ get summary "DocNo"; get summary "DocDt"; get summary "SellerGstin";
    get summary "BuyerGstin"; get summary "IRN"; get summary "AckNo";
    get summary "EWayBill"; get summary "PlaceOfSupply"; get summary "Transport";
    get summary "VehicleNo"; get summary "ItemCnt"; get summary "TotInvVal";
    get summary "TaxableAmount"; get summary "CGST_Amount";
    get summary "SGST_Amount"; get summary "TotalTax";
    get summary "VendorName"; get summary "ValidationFlag" ].

Definition item_row (summary item : gmap string value) : row :=
  [ get summary "DocNo"; get item "S.No"; get item "Description";
    get item "HSN/SAC"; get item "Quantity"; get item "Unit";
    get item "Rate"; get item "Amount" ].

Definition qr_row (qr_meta : gmap string value) : row :=
  [ get qr_meta "DocNo"; get qr_meta "SellerGstin"; get qr_meta "BuyerGstin";
    get qr_meta "DocTyp"; get qr_meta "DocDt"; get qr_meta "TotInvVal";
    get qr_meta "ItemCnt"; get qr_meta "MainHsnCode"; get qr_meta "IRN";
    get qr_meta "IrnDt"; get qr_meta "RawPayload" ].

(** [if qr_meta:] *)
Definition nonempty (d : gmap string value) : bool :=
  negb (Nat.eqb (size d) 0).

(** What one block appends to the three sheets once it passed both guards. *)
Definition log_invoice (summary : gmap string value)
    (items : list (gmap string value)) (qr_meta : gmap string value)
    (wb : workbook) : workbook :=
  {| Invoice_Summary := Invoice_Summary wb ++ [summary_row summary];
     Line_Items := Line_Items wb ++ (item_row summary <$> items);
     QR_Meta := QR_Meta wb ++ (if nonempty qr_meta then [qr_row qr_meta] else []) |}.

(** The loop over the blocks in [process] *)
Fixpoint ingest (blocks : list pystr) (wb : workbook) (existing : gset pystr)
  : result workbook :=
  match blocks with
  | [] => Ok wb
  | block :: rest =>
      bind (_parse_invoice block) (λ '(summary, items, qr_meta),
      if negb (truthy (get summary "DocNo")) || negb (truthy (get summary "SellerGstin"))
      then ingest rest wb existing
      else
        let key := comp_key (get summary "SellerGstin") (get summary "DocNo") in
        if bool_decide (key ∈ existing)
        then ingest rest wb existing
        else ingest rest (log_invoice summary items qr_meta wb) ({[ key ]} ∪ existing))
  end.

(** [process] on the text of [extracted_content.txt] and the workbook on
    disk.  The workbook is saved at the end only: a run that raises leaves
    the file as it was. *)
Definition process (text : pystr) (wb : workbook) : result workbook :=
  bind (existing_keys wb) (λ existing, ingest (_split_invoices text) wb existing).

(** *** Notions used in the statements about [process] *)

(** What [_parse_invoice] returns: summary, line items, payload metadata. *)
Definition parsed : Type :=
  gmap string value * list (gmap string value) * gmap string value.

Definition key_of (p : parsed) : pystr :=
  comp_key (get p.1.1 "SellerGstin") (get p.1.1 "DocNo").

(** The first guard of the loop body lets the block through. *)
Definition accepted (p : parsed) : Prop :=
  truthy (get p.1.1 "DocNo") = true ∧ truthy (get p.1.1 "SellerGstin") = true.

(** A block that the loop passes over without writing: it parses, and if
    it passes the first guard its key is among the existing ones. *)
Definition skipped (existing : gset pystr) (block : pystr) : Prop :=
  ∃ p, _parse_invoice block = Ok p ∧ (accepted p → key_of p ∈ existing).

(** The workbook after the blocks with parses [ps] were logged in turn. *)
Definition log_all (ps : list parsed) (wb : workbook) : workbook :=
  foldl (λ w p, log_invoice p.1.1 p.1.2 p.2 w) wb ps.

(** The identity [(SellerGstin, DocNo)] of a row of [Invoice_Summary] *)
Definition doc_identity (r : row) : option value * option value :=
  (r !! 2%nat, r !! 0%nat).

(** An identity whose two parts are texts and whose seller id holds no
    underscore (U+005F), the separator of the composite key *)
Definition plain_identity (id : option value * option value) : Prop :=
  ∃ seller docno, id = (Some (VStr seller), Some (VStr docno)) ∧ 95%N ∉ seller.

(** A block that ends with a validation-flag line. *)
Definition terminated (block : pystr) : Prop :=
  ∃ body line, block = join [10%N] (body ++ [line]) ∧ is_validation_line line = true.

End parse.

(** *** The line item parser of [_parse_invoice]

    The last part of [_parse_invoice], with its four regular expressions
    written out.  Each of them is a sequence of literals and of runs of one
    character class, for which the backtracking search of [re] finds the
    first occurrence and the longest runs. *)

Section items.
Context `{Builtins}.

(** The longest prefix of [s] whose characters satisfy [p], and the rest *)
Fixpoint span (p : N → bool) (s : pystr) : pystr * pystr :=
  match s with
  | c :: t => if p c then let '(a, b) := span p t in (c :: a, b) else ([], s)
  | [] => ([], [])
  end.

(** The text after the first occurrence of the literal [p] in [s] *)
Fixpoint after_first (p s : pystr) : option pystr :=
  if startswith p s then Some (drop (length p) s)
  else match s with
       | [] => None
       | _ :: t => after_first p t
       end.

(** The index of the last line feed of [s] *)
Fixpoint last_newline (s : pystr) : option nat :=
  match s with
  | [] => None
  | c :: t =>
      match last_newline t with
      | Some j => Some (S j)
      | None => if (c =? 10)%N then Some O else None
      end
  end.

(** A match of [Amount\(`\s*\)\s*\n] at the head of [s]: the text after it.
    The second [\s*] is greedy and gives back up to the last line feed of
    the whitespace it ran over. *)
Definition header_at (s : pystr) : option pystr :=
  if startswith (lit "Amount(`") s then
    match lstrip (drop 8 s) with
    | 41%N :: s2 =>
        match last_newline (span is_space s2).1 with
        | Some j => Some (drop (S j) s2)
        | None => None
        end
    | _ => None
    end
  else None.

Fixpoint first_header (s : pystr) : option pystr :=
  match header_at s with
  | Some g => Some g
  | None => match s with
            | [] => None
            | _ :: t => first_header t
            end
  end.

(** A match of [(?:Add\s*: CGST|HSN/SAC\s+Tax Rate|VALIDATION:)] at the head
    of [s] *)
Definition terminator_at (s : pystr) : bool :=
  startswith (lit "Add") s && startswith (lit ": CGST") (lstrip (drop 3 s))
  || startswith (lit "HSN/SAC") s
     && match drop 7 s with c :: _ => is_space c | [] => false end
     && startswith (lit "Tax Rate") (lstrip (drop 7 s))
  || startswith (lit "VALIDATION:") s.

(** The text up to the first terminator, [None] without one *)
Fixpoint until_terminator (s : pystr) : option pystr :=
  if terminator_at s then Some []
  else match s with
       | [] => None
       | c :: t => cons c <$> until_terminator t
       end.

(** Group 1 of
    [re.search(r"S\.N.*?Amount\(`\s*\)\s*\n(.*?)(?:Add\s*: CGST|HSN/SAC\s+Tax Rate|VALIDATION:)", block, re.S)]:
    the search starts at the first [S.N], the lazy [.*?] stops at the first
    table header after it, and the group runs up to the first terminator. *)
Definition items_block (block : pystr) : option pystr :=
  match after_first (lit "S.N") block with
  | Some rest =>
      match first_header rest with
      | Some body => until_terminator body
      | None => None
      end
  | None => None
  end.

(** [[l.strip() for l in text.splitlines() if l.strip()]] *)
Definition item_lines (text : pystr) : list pystr :=
  filter (λ l : pystr, l ≠ []) (strip <$> splitlines text).

(** [l[i]] for an index that may be negative *)
Definition py_index {A} (l : list A) (i : Z) : result A :=
  let j := if (i <? 0)%Z then (Z.of_nat (length l) + i)%Z else i in
  if (j <? 0)%Z then Raise IndexError
  else match l !! Z.to_nat j with
       | Some a => Ok a
       | None => Raise IndexError
       end.

(** The class [[\d,\.]] *)
Definition is_qty_char (c : N) : bool := is_digit c || (c =? 44)%N || (c =? 46)%N.

Definition is_unit_word (s : pystr) : bool :=
  startswith (lit "SET") s || startswith (lit "Pcs.") s
  || startswith (lit "KG") s || startswith (lit "Unit") s.

(** [re.match(r"[\d,\.]+\s+(SET|Pcs\.|KG|Units?)", line)] *)
Definition is_qty_line (line : pystr) : bool :=
  let '(qty, rest) := span is_qty_char line in
  let '(gap, rest) := span is_space rest in
  match qty, gap with
  | _ :: _, _ :: _ => is_unit_word rest
  | _, _ => false
  end.

(** [re.match(r"([\d,\.]+)\s+(\S+)", line).groups()]; [AttributeError]
    without a match *)
Definition qty_and_unit (line : pystr) : result (pystr * pystr) :=
  let '(qty, rest) := span is_qty_char line in
  let '(gap, rest) := span is_space rest in
  let '(unit, _) := span (λ c, negb (is_space c)) rest in
  match qty, gap, unit with
  | _ :: _, _ :: _, _ :: _ => Ok (qty, unit)
  | _, _, _ => Raise AttributeError
  end.

(** [re.fullmatch(r"\d{8}", line)] *)
Definition is_hsn8 (line : pystr) : bool :=
  (length line =? 8)%nat && forallb is_digit line.

(** [int(s)] on a run of decimal digits; beyond 4300 digits CPython raises
    [ValueError]. *)
Definition int_of_digits (s : pystr) : result Z :=
  if (4300 <? length s)%nat then Raise ValueError
  else
    foldl (λ acc c,
             bind acc (λ n,
             match digit_value c with
             | Some d => Ok (10 * n + Z.of_N d)%Z
             | None => Raise ValueError
             end)) (Ok 0%Z) s.

(** [s_no]: [int(line.split(".")[0])] when [re.match(r"^\d+\.", line)],
    else [None] *)
Definition sno_of (line : pystr) : result value :=
  let '(digits, rest) := span is_digit line in
  match digits, rest with
  | _ :: _, 46%N :: _ => bind (int_of_digits digits) (λ n, Ok (VInt n))
  | _, _ => Ok VNone
  end.

(** [clean_num] on the text of a line: [None] for the empty text, else
    [float(val.replace(",", ""))] *)
Definition clean_num_str (val : pystr) : result value :=
  match val with
  | [] => Ok VNone
  | _ => bind (py_float (VStr (replace (lit ",") [] val))) (λ f, Ok (VFloat f))
  end.

(** The body of the [try] for the quantity line at index [i]: the line
    item, or [None] where the body says [continue]. *)
Definition item_at (lines : list pystr) (i : Z) : result (option (gmap string value)) :=
  bind (py_index lines i) (λ qty_line,
  bind (py_index lines (i - 1)) (λ hsn_line,
  bind (py_index lines (i - 2)) (λ desc_line,
  bind (py_index lines (i + 1)) (λ rate_line,
  bind (py_index lines (i + 2)) (λ amt_line,
  if negb (is_hsn8 hsn_line) then Ok None
  else
    bind (py_index lines (i - 3)) (λ sno_line,
    bind (sno_of sno_line) (λ s_no,
    bind (qty_and_unit qty_line) (λ '(qty, unit),
    bind (int_of_digits hsn_line) (λ hsn,
    bind (clean_num_str qty) (λ quantity,
    bind (clean_num_str rate_line) (λ rate,
    bind (clean_num_str amt_line) (λ amount,
    Ok (Some ({[ "S.No" := s_no;
                 "Description" := VStr desc_line;
                 "HSN/SAC" := VInt hsn;
                 "Quantity" := quantity;
                 "Unit" := VStr unit;
                 "Rate" := rate;
                 "Amount" := amount ]} : gmap string value)))))))))))))).

(** One turn of the loop over the lines: a candidate that raises is
    dropped. *)
Definition item_of_line (lines : list pystr) (i : nat) : option (gmap string value) :=
  match lines !! i with
  | Some line =>
      if is_qty_line line then try_except (item_at lines (Z.of_nat i)) None else None
  | None => None
  end.

(** [line_items] at the end of [_parse_invoice] *)
Definition parse_line_items (block : pystr) : list (gmap string value) :=
  match items_block block with
  | Some text =>
      let lines := item_lines text in
      omap (item_of_line lines) (seq 0 (length lines))
  | None => []
  end.

(** *** Notions used in the statements about the parser *)

(** The fields of a line item as the parser returns it *)
Definition item_ok (item : gmap string value) : Prop :=
  ∃ (hsn : Z) (quantity rate amount : float) (unit description : pystr),
    get item "HSN/SAC" = VInt hsn ∧ (0 ≤ hsn < 10 ^ 8)%Z
    ∧ get item "Quantity" = VFloat quantity
    ∧ get item "Rate" = VFloat rate
    ∧ get item "Amount" = VFloat amount
    ∧ get item "Unit" = VStr unit ∧ is_unit_word unit = true
    ∧ Forall (λ c, is_space c = false) unit
    ∧ get item "Description" = VStr description ∧ description ≠ []
    ∧ (get item "S.No" = VNone ∨ ∃ n, get item "S.No" = VInt n ∧ (0 ≤ n)%Z).

(** A line that holds the heading of the invoice *)
Definition is_heading (line : pystr) : bool :=
  contains (lit "TAX INVOICE") (upper line).

End items.

(** A row of [Line_Items] with a document number and with numbers for its
    quantity, rate and amount *)
Definition parsed_row (r : row) : Prop :=
  ∃ docno sno (description : pystr) (hsn : Z) (quantity : float) (unit : pystr)
    (rate amount : float),
    r = [ docno; sno; VStr description; VInt hsn; VFloat quantity; VStr unit;
          VFloat rate; VFloat amount ]
    ∧ truthy docno = true.

(** The header rows that [_init_excel] gives [Line_Items] and [QR_Meta] *)
Definition Line_Items_header : list value :=
  (λ h, VStr (lit h)) <$>
  [ "DocNo"; "S.No"; "Description"; "HSN/SAC"; "Quantity"; "Unit"; "Rate"; "Amount" ].

Definition QR_Meta_header : list value :=
  (λ h, VStr (lit h)) <$>
  [ "DocNo"; "SellerGstin"; "BuyerGstin"; "DocTyp"; "DocDt"; "TotInvVal"; "ItemCnt";
    "MainHsnCode"; "IRN"; "IrnDt"; "RawPayload" ].

(** [_init_excel]: the workbook of the file when there is one, else a new
    workbook whose three sheets hold their header rows only. *)
Definition _init_excel (file : option workbook) : workbook :=
  default {| Invoice_Summary := []; Line_Items := []; QR_Meta := [] |} file.

End LoggerAgent.

(** ** agents/mapper_agent.py *)

Module MapperAgent.
Import Py.
Local Open Scope string_scope.
Local Open Scope list_scope.

Definition row := list value.

Definition check_mark : pystr := [9989%N].
Definition cross_mark : pystr := [10060%N].
Definition NOT_FOUND : value := VStr (lit "NOT FOUND").

Section normalize.
Context `{Builtins}.

Fixpoint digits_run (s : pystr) : nat :=
  match s with
  | c :: t => if is_digit c then S (digits_run t) else O
  | [] => O
  end.

(** The length of a match of [\(\d+\)] at the head of [s] *)
Definition paren_digits (s : pystr) : option nat :=
  match s with
  | 40%N :: t =>
      let n := digits_run t in
      match n, t !! n with
      | S _, Some 41%N => Some (n + 2)%nat
      | _, _ => None
      end
  | _ => None
  end.

(** [re.sub(r"\(\d+\)", "", s)]; [skip] counts the characters of a match
    still to be dropped. *)
Fixpoint remove_paren_digits (skip : nat) (s : pystr) : pystr :=
  match s with
  | [] => []
  | c :: t =>
      match skip with
      | S k => remove_paren_digits k t
      | O =>
          match paren_digits s with
          | Some n => remove_paren_digits (Nat.pred n) t
          | None => c :: remove_paren_digits O t
          end
      end
  end.

(** [re.sub(r"\s+", " ", s)]; [in_run] tells that the previous character
    was whitespace. *)
Fixpoint collapse_spaces (in_run : bool) (s : pystr) : pystr :=
  match s with
  | [] => []
  | c :: t =>
      if is_space c
      then (if in_run then collapse_spaces true t else 32%N :: collapse_spaces true t)
      else c :: collapse_spaces false t
  end.

Definition _normalize_model (text : pystr) : pystr :=
  match text with
  | [] => []
  | _ =>
      let text := upper text in
      let text := strip (replace (lit "MODEL NO") [] text) in
      let text := remove_paren_digits O text in
      strip (collapse_spaces false text)
  end.

Record catalog_entry := {
  ProductName : value;
  SKU : value;
  HSN : value;
  Rate : value;
}.

(** The first loop of [process]: the master sheet into [master_map]. *)
Fixpoint load_master (rows : list row) (master_map : gmap pystr catalog_entry)
  : result (gmap pystr catalog_entry) :=
  match rows with
  | [] => Ok master_map
  | [model_no; prod_name; sku; hsn; rate] :: rest =>
      let norm_model := _normalize_model (py_str model_no) in
      load_master rest
        (<[norm_model := {| ProductName := prod_name; SKU := sku; HSN := hsn; Rate := rate |}]>
           master_map)
  | _ :: _ => Raise ValueError
  end.

(** [list(row[:8])] padded with [None] up to eight cells *)
Definition first8 (r : row) : row :=
  let r := take 8 r in
  r ++ replicate (8 - length r) VNone.

(** One line item: the rows it adds to [Mapped_Items] and [Unmapped_Items]. *)
Definition map_item (master_map : gmap pystr catalog_entry) (r : row)
  : result (list row * list row) :=
  match first8 r with
  | [docno; sno; desc; hsn; qty; unit; rate; amount] =>
      let norm_model := _normalize_model (py_str desc) in
      match master_map !! norm_model with
      | Some mapped =>
          bind (py_float rate) (λ r1,
          bind (py_float (Rate mapped)) (λ r2,
          let rate_match := if PrimFloat.eqb r1 r2 then check_mark else cross_mark in
          Ok ([[docno; sno; desc; hsn; qty; unit; rate; amount;
                VStr norm_model; ProductName mapped; SKU mapped; HSN mapped;
                Rate mapped; VStr rate_match]], [])))
      | None =>
          Ok ([[docno; sno; desc; hsn; qty; unit; rate; amount;
                VStr norm_model; NOT_FOUND; NOT_FOUND; NOT_FOUND; NOT_FOUND;
                VStr cross_mark]],
              [[docno; sno; desc; hsn; qty; unit; rate; amount; VStr norm_model]])
      end
  | _ => Raise ValueError
  end.

Fixpoint map_items (master_map : gmap pystr catalog_entry) (items : list row)
  : result (list row * list row) :=
  match items with
  | [] => Ok ([], [])
  | r :: rest =>
      bind (map_item master_map r) (λ '(m, u),
      bind (map_items master_map rest) (λ '(ms, us),
      Ok (m ++ ms, u ++ us)))
  end.

(** [process] on the rows of the master sheet and of [Line_Items]: the rows
    of the regenerated [Mapped_Items] and [Unmapped_Items]. *)
Definition process (master : list row) (items : list row)
  : result (list row * list row) :=
  bind (load_master master ∅) (λ master_map, map_items master_map items).

(** *** Notions used in the statements about [process] *)

(** The normalized description of a line item *)
Definition normalized_key (r : row) : pystr :=
  _normalize_model (py_str (default VNone (first8 r !! 2%nat))).

(** The row of [Mapped_Items] for a line item that has no catalog entry *)
Definition not_found_row (r : row) : row :=
  first8 r ++ [VStr (normalized_key r); NOT_FOUND; NOT_FOUND; NOT_FOUND; NOT_FOUND;
               VStr cross_mark].

(** The row of [Unmapped_Items] for it *)
Definition unmapped_row (r : row) : row :=
  first8 r ++ [VStr (normalized_key r)].

(** The row of [Mapped_Items] for a line item with the catalog entry [e] *)
Definition found_row (r : row) (e : catalog_entry) (rate_match : bool) : row :=
  first8 r ++ [VStr (normalized_key r); ProductName e; SKU e; HSN e; Rate e;
               VStr (if rate_match then check_mark else cross_mark)].

(** The rate cell of a line item *)
Definition invoice_rate (r : row) : value := default VNone (first8 r !! 6%nat).

(** [m] is the row of [Mapped_Items] for the line item [r]. *)
Definition item_mapped (master_map : gmap pystr catalog_entry) (r m : row) : Prop :=
  match master_map !! normalized_key r with
  | Some e =>
      ∃ r1 r2, py_float (invoice_rate r) = Ok r1 ∧ py_float (Rate e) = Ok r2
               ∧ m = found_row r e (PrimFloat.eqb r1 r2)
  | None => m = not_found_row r
  end.

(** The key and the entry that a row of the master sheet gives [master_map] *)
Definition catalog_key (r : row) : pystr :=
  _normalize_model (py_str (default VNone (r !! 0%nat))).

Definition catalog_row_entry (r : row) : catalog_entry :=
  {| ProductName := default VNone (r !! 1%nat); SKU := default VNone (r !! 2%nat);
     HSN := default VNone (r !! 3%nat); Rate := default VNone (r !! 4%nat) |}.

(** Whitespace occurs in [s] only as single spaces; [after_space] tells
    that a space may not come first. *)
Fixpoint single_spaced (after_space : bool) (s : pystr) : bool :=
  match s with
  | [] => true
  | c :: t =>
      if is_space c then negb after_space && (c =? 32)%N && single_spaced true t
      else single_spaced false t
  end.

End normalize.

End MapperAgent.

(** ** agents/gst_fetcher_agent.py *)

Module GSTFetcherAgent.
Import Py.
Local Open Scope string_scope.
Local Open Scope list_scope.

Definition row := list value.

(** An entry of the rate cache: a JSON object with members [gst_rate] and
    [description]. *)
Definition entry := gmap string value.

Definition get (d : entry) (k : string) : value := default VNone (d !! k).

Definition mk_entry (gst_rate description : value) : entry :=
  {[ "gst_rate" := gst_rate; "description" := description ]}.

Definition HSN_FALLBACK : gmap pystr entry :=
  {[ lit "94035000" := mk_entry (VInt 18) (VStr (lit "Wooden furniture"));
     lit "94036000" := mk_entry (VInt 12) (VStr (lit "Metal furniture")) ]}.

(** What is found at [hsn_map_file]. *)
Inductive cache_file :=
| Absent
| Unreadable
| Stored (m : gmap pystr entry).

(** [{**HSN_FALLBACK, **json.load(f)}]: the stored entries win. *)
Definition _load_hsn_cache (file : cache_file) : gmap pystr entry :=
  match file with
  | Stored m => m ∪ HSN_FALLBACK
  | Absent | Unreadable => HSN_FALLBACK
  end.

Definition Local_Cache : pystr := lit "Local Cache".
Definition Fallback_Dictionary : pystr := lit "Fallback Dictionary".
Definition Not_Found : pystr := lit "Not Found".

Definition search_url (hsn : pystr) : pystr :=
  lit "https://vakilsearch.com/hsn-code/search/" ++ hsn.

(** The agent while it runs: its cache, and the URLs requested so far (the
    latter is not in the source; it records the calls of [requests.get]). *)
Record state := {
  hsn_cache : gmap pystr entry;
  requested : list pystr;
}.

Section fetch.
Context `{Builtins}.

(** The lookup service: for a URL, either an exception of the request or of
    the HTML parser, or the status code and, for every [tr] of the page, the
    stripped texts of its [td] cells. *)
Variable http_get : pystr → result (Z * list (list pystr)).

(** [int(re.search(r"(\d{1,2})", rate_text).group(1))], [None] without a
    match: the first digit of the text and the digit after it, if any. *)
Fixpoint rate_of_text (s : pystr) : value :=
  match s with
  | [] => VNone
  | c :: t =>
      match digit_value c with
      | Some d1 =>
          match t with
          | c2 :: _ =>
              match digit_value c2 with
              | Some d2 => VInt (Z.of_N (10 * d1 + d2))
              | None => VInt (Z.of_N d1)
              end
          | [] => VInt (Z.of_N d1)
          end
      | None => rate_of_text t
      end
  end.

(** The loop over the table rows: [(gst_rate, description)] at its end. *)
Fixpoint scan_rows (hsn : pystr) (rows : list (list pystr)) : value * value :=
  match rows with
  | [] => (VNone, VNone)
  | cols :: rest =>
      match cols with
      | hsn_code :: description :: rate_text :: _ =>
          if str_eqb hsn_code hsn
          then (match rate_text with
                | [] => VNone
                | _ => rate_of_text rate_text
                end, VStr description)
          else scan_rows hsn rest
      | _ => scan_rows hsn rest
      end
  end.

Definition _fetch_gst_details (hsn : pystr) (st : state)
  : (value * value * pystr) * state :=
  match hsn_cache st !! hsn with
  | Some data => ((get data "gst_rate", get data "description", Local_Cache), st)
  | None =>
      let url := search_url hsn in
      let st := {| hsn_cache := hsn_cache st; requested := requested st ++ [url] |} in
      let fallback :=
        match HSN_FALLBACK !! hsn with
        | Some data => (get data "gst_rate", get data "description", Fallback_Dictionary)
        | None => (VNone, VNone, Not_Found)
        end in
      match http_get url with
      | Ok (status_code, rows) =>
          if (status_code =? 200)%Z then
            let '(gst_rate, description) := scan_rows hsn rows in
            if truthy gst_rate
            then ((gst_rate, description, url),
                  {| hsn_cache := <[hsn := mk_entry gst_rate description]> (hsn_cache st);
                     requested := requested st |})
            else (fallback, st)
          else (fallback, st)
      | Raise _ => (fallback, st)
      end
  end.

(** [gst_rate / 2] *)
Definition halve (gst_rate : value) : result value :=
  match gst_rate with
  | VInt z =>
      let f := ratio_to_float z 2 in
      if is_infinity f then Raise OverflowError else Ok (VFloat f)
  | VBool b => Ok (VFloat (ratio_to_float (Z_of_bool b) 2))
  | VFloat f => Ok (VFloat (f / 2))
  | VNone | VStr _ => Raise TypeError
  end.

(** The CGST and SGST rates written for a resolved [gst_rate] *)
Definition split_rate (gst_rate : value) : result (value * value) :=
  if truthy gst_rate
  then bind (halve gst_rate) (λ cgst_rate,
       bind (halve gst_rate) (λ sgst_rate, Ok (cgst_rate, sgst_rate)))
  else Ok (VNone, VNone).

(** [(description[:80] + "...") if description and len(description) > 80
    else description] *)
Definition desc_display (description : value) : result value :=
  if truthy description then
    match description with
    | VStr s =>
        Ok (if (80 <? length s)%nat then VStr (take 80 s ++ lit "...") else description)
    | _ => Raise TypeError
    end
  else Ok description.

(** The first loop of [process]: DocNo to main HSN code, from [QR_Meta]. *)
Fixpoint hsn_lookup (qr : list row) (acc : dict pystr) : result (dict pystr) :=
  match qr with
  | [] => Ok acc
  | [docno; seller; buyer; doctype; docdt; totinv; itemcnt; mainhsn; irn; irndt; raw] :: rest =>
      hsn_lookup rest
        (if truthy docno && truthy mainhsn then dict_set acc docno (py_str mainhsn) else acc)
  | _ :: _ => Raise ValueError
  end.

(** The second loop of [process]: the rows of [GST_Fetch], and the agent's
    state after the lookups. *)
Fixpoint fetch_rows (lookup : dict pystr) (summary : list row) (st : state)
  : result (list row * state) :=
  match summary with
  | [] => Ok ([], st)
  | r :: rest =>
      match r with
      | docno :: docdt :: _ =>
          if negb (truthy docno) then fetch_rows lookup rest st
          else
            match dict_get lookup docno with
            | None | Some [] => fetch_rows lookup rest st
            | Some hsn =>
                let '((gst_rate, description, source), st) := _fetch_gst_details hsn st in
                bind (split_rate gst_rate) (λ '(cgst_rate, sgst_rate),
                bind (desc_display description) (λ display,
                bind (fetch_rows lookup rest st) (λ '(rows, st),
                Ok ([docno; docdt; VStr hsn; display; gst_rate; cgst_rate; sgst_rate;
                     VStr source] :: rows, st))))
            end
      | _ => Raise ValueError
      end
  end.

Definition process (st : state) (summary qr : list row) : result (list row * state) :=
  bind (hsn_lookup qr []) (λ lookup, fetch_rows lookup summary st).

(** A run of the agent: the cache is loaded when the agent is built and
    written back in full after [process]; a run that raises writes nothing. *)
Definition run (file : cache_file) (summary qr : list row)
  : result (list row * cache_file) :=
  bind (process {| hsn_cache := _load_hsn_cache file; requested := [] |} summary qr) (λ '(rows, st), Ok (rows, Stored (hsn_cache st))).

(** The request for [url] failed: it raised, or the status is not 200. *)
Definition request_failed (url : pystr) : Prop :=
  match http_get url with
  | Ok (status_code, _) => status_code ≠ 200%Z
  | Raise _ => True
  end.

End fetch.

(** *** Notions used in the statements about the agent *)

Section notions.
Context `{Builtins}.

(** A rate that is an integer percentage of one or two digits *)
Definition percentage (v : value) : Prop :=
  ∃ r : Z, v = VInt r ∧ (1 ≤ r ≤ 99)%Z.

(** A cache whose entries all hold such a rate and a text *)
Definition well_formed (cache : gmap pystr entry) : Prop :=
  ∀ hsn data, cache !! hsn = Some data →
    percentage (get data "gst_rate") ∧ ∃ s, get data "description" = VStr s.

(** The cache files that the agent itself leaves behind: there is no file
    before the first run, and every completed run writes one, whatever the
    workbook and the lookup service were. *)
Inductive reachable : cache_file → Prop :=
| reachable_absent : reachable Absent
| reachable_run http_get file summary qr rows file' :
    reachable file →
    run http_get file summary qr = Ok (rows, file') →
    reachable file'.

(** [f] is exactly the ratio [n / d]. *)
Definition exact_ratio (f : float) (n : Z) (d : positive) : bool :=
  match Prim2SF f with
  | S754_zero _ => (n =? 0)%Z
  | S754_finite s m e =>
      let v := if s then Zneg m else Zpos m in
      if (0 <=? e)%Z then (v * 2 ^ e * Zpos d =? n)%Z
      else (v * Zpos d =? n * 2 ^ (- e))%Z
  | _ => false
  end.

(** A row of [GST_Fetch] as the data model wants it: no rate and no CGST
    and SGST rates, or a percentage and both rates exactly half of it. *)
Definition rate_record_ok (r : row) : Prop :=
  ∃ docno docdt hsn display gst_rate cgst_rate sgst_rate source,
    r = [docno; docdt; hsn; display; gst_rate; cgst_rate; sgst_rate; source]
    ∧ ((gst_rate = VNone ∧ cgst_rate = VNone ∧ sgst_rate = VNone)
       ∨ ∃ (rate : Z) (half : float),
           gst_rate = VInt rate ∧ (1 ≤ rate ≤ 99)%Z
           ∧ cgst_rate = VFloat half ∧ sgst_rate = VFloat half
           ∧ exact_ratio half rate 2 = true).

(** What a lookup returns: nothing, or a percentage with a text *)
Definition resolved (res : value * value * pystr) : Prop :=
  (res.1.1 = VNone ∧ res.1.2 = VNone)
  ∨ (percentage res.1.1 ∧ ∃ s, res.1.2 = VStr s).

(** [halve] returns a float that is exactly half of the integer [r]. *)
Definition halved_exactly (r : Z) : bool :=
  match halve (VInt r) with
  | Ok (VFloat h) => exact_ratio h r 2
  | _ => false
  end.

(** The agent as it is built from the cache file, before any request *)
Definition initial (file : cache_file) : state :=
  {| hsn_cache := _load_hsn_cache file; requested := [] |}.

(** A cache that holds every code of the fallback table *)
Definition seeded (cache : gmap pystr entry) : Prop :=
  ∀ hsn, is_Some (HSN_FALLBACK !! hsn) → is_Some (cache !! hsn).

(** The sources other than the fallback table *)
Definition live_source (source : pystr) : Prop :=
  source = Local_Cache ∨ source = Not_Found ∨ ∃ hsn, source = search_url hsn.

(** The document of a row of [Invoice_Summary] has a main HSN code. *)
Definition has_hsn (lookup : dict pystr) (r : row) : bool :=
  match r with
  | docno :: _ =>
      truthy docno
      && match dict_get lookup docno with
         | Some (_ :: _) => true
         | _ => false
         end
  | [] => false
  end.

(** [r] is the row of [GST_Fetch] for the row [s] of [Invoice_Summary]. *)
Definition rate_row_of (lookup : dict pystr) (s r : row) : Prop :=
  ∃ docno docdt hsn display gst_rate cgst_rate sgst_rate source,
    s !! 0%nat = Some docno ∧ s !! 1%nat = Some docdt
    ∧ dict_get lookup docno = Some hsn
    ∧ r = [docno; docdt; VStr hsn; display; gst_rate; cgst_rate; sgst_rate; VStr source]
    ∧ ∀ d, display = VStr d → (length d ≤ 83)%nat.

End notions.

End GSTFetcherAgent.

(** ** agents/reviewer_agent.py *)

Module ReviewerAgent.
Import Py.
Local Open Scope string_scope.
Local Open Scope list_scope.

Definition row := list value.

Definition check_mark : pystr := [9989%N].
Definition cross_mark : pystr := [10060%N].

(** An entry of [gst_lookup] *)
Record gst_info := {
  HSN : value;
  Description : value;
  Source : value;
  GST : option float;
  CGST : option float;
  SGST : option float;
}.

Section review.
Context `{Builtins}.

Definition truthy_str (s : pystr) : bool :=
  match s with [] => false | _ => true end.

(** [str(h).strip().lower() if h else ""] *)
Definition header_norm (h : value) : pystr :=
  if truthy h then lower (strip (py_str h)) else [].

Definition strong_match (h : pystr) : bool :=
  contains (lit "totinv") h || contains (lit "tot inv") h
  || contains (lit "total") h && (contains (lit "inv") h || truthy_str (lit "invoice"))
  || contains (lit "invoice") h && contains (lit "total") h
  || contains (lit "total") h && contains (lit "value") h
  || contains (lit "totalinvoice") h || contains (lit "totinvval") h.

Fixpoint find_strong (i : nat) (hs : list pystr) : option nat :=
  match hs with
  | [] => None
  | h :: rest =>
      if negb (truthy_str h) then find_strong (S i) rest
      else if contains (lit "item") h || contains (lit "count") h || contains (lit "cnt") h
      then find_strong (S i) rest
      else if strong_match h then Some i
      else find_strong (S i) rest
  end.

Fixpoint find_loose (i : nat) (hs : list pystr) : option nat :=
  match hs with
  | [] => None
  | h :: rest =>
      if negb (truthy_str h) || contains (lit "item") h then find_loose (S i) rest
      else if contains (lit "total") h
                && (contains (lit "value") h || contains (lit "amount") h
                    || contains (lit "inv") h || truthy_str (lit "invoice"))
      then Some i
      else if contains (lit "qr") h && (contains (lit "total") h || contains (lit "tot") h)
      then Some i
      else find_loose (S i) rest
  end.

(** [_find_totinv_column] on the header row of [Invoice_Summary] *)
Definition _find_totinv_column (header : list value) : option nat :=
  let header_norm := header_norm <$> header in
  match find_strong 0 header_norm with
  | Some i => Some i
  | None =>
      match find_loose 0 header_norm with
      | Some i => Some i
      | None => if (12 <=? length header_norm)%nat then Some 11%nat else None
      end
  end.

Definition rupee : pystr := [8377%N].

(** [_to_float]: [None] is [None] here; the conversion of an [int] is
    outside the [try] and may raise. *)
Definition _to_float (val : value) : result (option float) :=
  match val with
  | VNone => Ok None
  | VBool _ | VInt _ | VFloat _ => bind (py_float val) (λ f, Ok (Some f))
  | VStr _ =>
      let s := replace (lit "INR") [] (replace rupee [] (replace (lit ",") [] (strip (py_str val)))) in
      match s with
      | [] => Ok None
      | _ =>
          match float_of_str s with
          | Some f => Ok (Some f)
          | None =>
              Ok (try_except
                    (bind (first_word s) (λ w, bind (py_float (VStr w)) (λ f, Ok (Some f))))
                    None)
          end
      end
  end.

(** [float(x)] under [try/except Exception], [None] when it raises *)
Definition try_float (v : value) : option float :=
  try_except (bind (py_float v) (λ f, Ok (Some f))) None.

(** [computed] of step 1: [float(qty) * float(rate)] under [try] *)
Definition computed_amount (qty rate : value) : option float :=
  match try_float qty, try_float rate with
  | Some q, Some r => Some (q * r)%float
  | _, _ => None
  end.

(** [amount_f] of step 1 *)
Definition stored_amount (amount : value) : option float :=
  if is_none amount then None else try_float amount.

(** The line item check: [true] for the check mark. *)
Definition match_flag (computed amount_f : option float) : bool :=
  match computed, amount_f with
  | Some c, Some a => PrimFloat.eqb (round2 c) (round2 a)
  | _, _ => false
  end.

Definition opt_float (o : option float) : value :=
  match o with Some f => VFloat f | None => VNone end.

Definition flag_str (ok : bool) : value :=
  VStr (if ok then check_mark else cross_mark).

(** [if docno not in line_totals: line_totals[docno] = 0.0], then
    [line_totals[docno] += x] when there is an [x] *)
Fixpoint add_total (line_totals : dict float) (docno : value) (x : option float)
  : dict float :=
  match line_totals with
  | [] => [(docno, match x with Some x => (0 + x)%float | None => 0%float end)]
  | (k, t) :: rest =>
      if py_eqb k docno
      then (k, match x with Some x => (t + x)%float | None => t end) :: rest
      else (k, t) :: add_total rest docno x
  end.

(** Step 1: the rows of [LineItem_Errors] and [line_totals]. *)
Fixpoint line_item_check (items : list row) (line_totals : dict float)
  : result (list row * dict float) :=
  match items with
  | [] => Ok ([], line_totals)
  | r :: rest =>
      match r with
      | docno :: sno :: desc :: hsn :: qty :: unit :: rate :: amount :: _ =>
          if negb (truthy docno) then line_item_check rest line_totals
          else
            let computed := computed_amount qty rate in
            let amount_f := stored_amount amount in
            let ok := match_flag computed amount_f in
            let errors :=
              if ok then []
              else [[docno; sno; desc; qty; rate; amount; opt_float computed; flag_str ok]] in
            let line_totals :=
              add_total line_totals docno
                (match amount_f with Some a => Some a | None => computed end) in
            bind (line_item_check rest line_totals) (λ '(errs, totals),
            Ok (errors ++ errs, totals))
      | _ => Raise ValueError
      end
  end.

(** [float(x) if x not in (None, "") else None] *)
Definition rate_cell (x : value) : result (option float) :=
  match x with
  | VNone | VStr [] => Ok None
  | _ => bind (py_float x) (λ f, Ok (Some f))
  end.

(** Step 2: [gst_lookup] from the rows of [GST_Fetch]. *)
Fixpoint gst_lookup (gst : list row) (acc : dict gst_info) : result (dict gst_info) :=
  match gst with
  | [] => Ok acc
  | r :: rest =>
      match r with
      | docno :: docdt :: hsn :: description :: gst_rate :: cgst_rate :: sgst_rate :: source :: _ =>
          if truthy docno then
            bind (rate_cell gst_rate) (λ g,
            bind (rate_cell cgst_rate) (λ c,
            bind (rate_cell sgst_rate) (λ s,
            gst_lookup rest
              (dict_set acc docno
                 {| HSN := hsn; Description := description; Source := source;
                    GST := g; CGST := c; SGST := s |}))))
          else gst_lookup rest acc
      | _ => gst_lookup rest acc
      end
  end.

(** Step 3: [summary_lookup] from the rows of [Invoice_Summary]. *)
Fixpoint summary_lookup (totinv_idx : option nat) (summary : list row)
    (acc : dict (option float)) : result (dict (option float)) :=
  match summary with
  | [] => Ok acc
  | r :: rest =>
      match r with
      | [] => Raise IndexError
      | docno :: _ =>
          if negb (truthy docno) then summary_lookup totinv_idx rest acc
          else
            bind (match totinv_idx with
                  | Some i =>
                      match r !! i with
                      | Some cell => _to_float cell
                      | None => Raise IndexError
                      end
                  | None => Ok None
                  end) (λ qr_total,
            summary_lookup totinv_idx rest (dict_set acc docno qr_total))
      end
  end.

(** The row of [Review_Report] for one document *)
Definition review_row (docno : value) (taxable : float) (gst : option float)
    (cgst sgst qr_total : float) : row :=
  let cgst_calc := (taxable * (cgst / 100))%float in
  let sgst_calc := (taxable * (sgst / 100))%float in
  let expected_total := (taxable + cgst_calc + sgst_calc)%float in
  let diff := round2 (expected_total - qr_total) in
  let status := PrimFloat.ltb (abs diff) 0.01 in
  [ docno; VFloat (round2 taxable); opt_float gst;
    VFloat (round2 cgst_calc); VFloat (round2 sgst_calc);
    VFloat (round2 expected_total); VFloat qr_total; VFloat diff; flag_str status ].

(** Step 4 for one entry of [line_totals]: its row, or nothing when the
    document is skipped. *)
Definition compare_one (gst_lookup : dict gst_info) (summary_lookup : dict (option float))
    (docno : value) (taxable : float) : list row :=
  match dict_get gst_lookup docno, mjoin (dict_get summary_lookup docno) with
  | Some info, Some qr_total =>
      match CGST info, SGST info with
      | Some cgst, Some sgst => [review_row docno taxable (GST info) cgst sgst qr_total]
      | _, _ => []
      end
  | _, _ => []
  end.

Fixpoint compare (gst_lookup : dict gst_info) (summary_lookup : dict (option float))
    (line_totals : dict float) : list row :=
  match line_totals with
  | [] => []
  | (docno, taxable) :: rest =>
      compare_one gst_lookup summary_lookup docno taxable
      ++ compare gst_lookup summary_lookup rest
  end.

(** [process], steps 1 to 4, on the rows of [Line_Items], the header and the
    rows of [Invoice_Summary] and the rows of [GST_Fetch]: the rows of
    [Review_Report] and of [LineItem_Errors].  Step 5 writes the category
    column of [Line_Items] only and is left out. *)
Definition process (items : list row) (summary_header : list value)
    (summary : list row) (gst : list row) : result (list row * list row) :=
  bind (line_item_check items []) (λ '(errors, line_totals),
  bind (gst_lookup gst []) (λ gst_lookup,
  bind (summary_lookup (_find_totinv_column summary_header) summary []) (λ summary_lookup,
  Ok (compare gst_lookup summary_lookup line_totals, errors)))).

End review.

(** *** Step 5: the category column of [Line_Items] *)

Definition Item_Category : value := VStr (lit "Item Category").

(** [headers.index(x)]: the first index whose cell equals [x]; [None] when
    [x not in headers]. *)
Fixpoint index_of (x : value) (headers : list value) : option nat :=
  match headers with
  | [] => None
  | h :: rest => if py_eqb h x then Some O else S <$> index_of x rest
  end.

(** [ws.cell(row, column, value)] on the cells of one row, the column
    counted from 0: openpyxl assigns the value only when it is not [None];
    a cell beyond the row's last one comes after empty cells. *)
Definition write_cell (r : row) (col : nat) (v : value) : row :=
  if is_none v then r
  else if (col <? length r)%nat then <[col := v]> r
  else r ++ replicate (col - length r) VNone ++ [v].

(** The loop of step 5 over the rows of [Line_Items] *)
Fixpoint fill_categories (gst_lookup : dict gst_info) (col : nat) (items : list row)
  : result (list row) :=
  match items with
  | [] => Ok []
  | r :: rest =>
      match r with
      | [] => Raise IndexError
      | docno :: _ =>
          let r' :=
            if truthy docno then
              match dict_get gst_lookup docno with
              | Some info => write_cell r col (Description info)
              | None => r
              end
            else r in
          bind (fill_categories gst_lookup col rest) (λ rest', Ok (r' :: rest'))
      end
  end.

(** Step 5 on the header row and the rows of [Line_Items]: both as they
    are saved. *)
Definition add_item_category (gst_lookup : dict gst_info) (headers : list value)
    (items : list row) : result (list value * list row) :=
  let '(headers', col) :=
    match index_of Item_Category headers with
    | Some i => (headers, i)
    | None => (headers ++ [Item_Category], length headers)
    end in
  bind (fill_categories gst_lookup col items) (λ items', Ok (headers', items')).

(** *** Notions used in the statements about the totals *)

Section totals.
Context `{Builtins}.

(** What a row of [Line_Items] adds to the total of its document: the
    stored amount when there is one, else the computed amount, if any *)
Definition contribution (r : row) : option float :=
  match r with
  | _ :: _ :: _ :: _ :: qty :: _ :: rate :: amount :: _ =>
      match stored_amount amount with
      | Some a => Some a
      | None => computed_amount qty rate
      end
  | _ => None
  end.

(** [r] is a row of the document whose number is the text [d]. *)
Definition is_doc (d : pystr) (r : row) : bool :=
  match r with
  | VStr s :: _ => truthy (VStr s) && str_eqb s d
  | _ => false
  end.

(** The total of a document after one more of its rows, which adds [x] *)
Definition add_amount (t : option float) (x : option float) : option float :=
  Some match x with
       | Some x => (default 0%float t + x)%float
       | None => default 0%float t
       end.

(** The total of document [d] over its rows, in order, from [start] *)
Fixpoint doc_total (d : pystr) (start : option float) (items : list row) : option float :=
  match items with
  | [] => start
  | r :: rest =>
      doc_total d (if is_doc d r then add_amount start (contribution r) else start) rest
  end.

End totals.

(** No two of the values are equal by [==], an earlier one compared with a
    later one. *)
Fixpoint distinct_keys (ks : list value) : Prop :=
  match ks with
  | [] => True
  | k :: rest => Forall (λ k', py_eqb k k' = false) rest ∧ distinct_keys rest
  end.

(** The declared total of a row of [Invoice_Summary] can be converted: it
    is not an integer beyond the range of [float]. *)
Definition total_readable (r : row) : Prop :=
  ∀ z, r !! 11%nat = Some (VInt z) → ∃ f, float_of_Z z = Ok f.

End ReviewerAgent.

(** ** agents/validation_agent.py

    The validation stage writes the flag lines that [_split_invoices]
    looks for.  What the language model answers is not modelled: the flags
    are given on the texts that the f-strings interpolate. *)

Module ValidationAgent.
Import Py.
Local Open Scope string_scope.
Local Open Scope list_scope.

(** [page_text.strip() + "\n\n" + flag + "\n"] *)
Definition insert_flag_to_page (page_text flag : pystr) : pystr :=
  strip page_text ++ [10%N; 10%N] ++ flag ++ [10%N].

(** The three flags of [append_validation] *)
Definition valid_flag (docno totinv : pystr) : pystr :=
  lit "VALIDATION: VALID " ++ [9989%N] ++ lit " (DocNo: " ++ docno
  ++ lit ", TotInvVal: " ++ totinv ++ lit ")".

Definition mismatch_flag (docno mismatch_info : pystr) : pystr :=
  lit "VALIDATION: NOT VALID " ++ [10060%N] ++ lit " (DocNo: " ++ docno
  ++ lit " - " ++ mismatch_info ++ lit ")".

Definition error_flag (message : pystr) : pystr :=
  lit "VALIDATION: ERROR " ++ [9888%N; 65039%N] ++ lit " (" ++ message ++ lit ")".

(** The lines of a stripped page before the two line feeds that
    [insert_flag_to_page] adds: an empty page gives one empty line. *)
Definition page_lines (page_text : pystr) : list pystr :=
  match strip page_text with
  | [] => [[]]
  | text => splitlines text
  end.

End ValidationAgent.

(** ** Stand-ins for the worked examples

    The general statements below hold for every instance of [Builtins],
    every regular-expression engine, JSON decoder and lookup service.  The
    worked examples need closed terms: they use the stand-ins of this
    module, which agree with Python on what the examples feed them (ASCII
    text, plain decimal numerals, one-line payloads). *)

Module Sample.
Import Py.
Local Open Scope string_scope.
Local Open Scope list_scope.

(** The digits of a plain decimal numeral as an integer *)
Fixpoint decimal_digits (s : pystr) (acc : Z) : option Z :=
  match s with
  | [] => Some acc
  | c :: t =>
      if ((48 <=? c) && (c <=? 57))%N
      then decimal_digits t (10 * acc + Z.of_N (c - 48))
      else None
  end.

Fixpoint split_at (sep : N) (s : pystr) : pystr * option pystr :=
  match s with
  | [] => ([], None)
  | c :: t =>
      if (c =? sep)%N then ([], Some t)
      else let '(a, b) := split_at sep t in (c :: a, b)
  end.

(** [float(s)] on [digits] and [digits.digits]: the nearest float to the
    decimal; [None] on any other text. *)
Definition decimal_float (s : pystr) : option float :=
  match s with
  | [] => None
  | _ =>
      match split_at 46 s with
      | (whole, None) =>
          n ← decimal_digits whole 0; Some (ratio_to_float n 1)
      | (whole, Some frac) =>
          match whole ++ frac with
          | [] => None
          | ds => n ← decimal_digits ds 0;
                  Some (ratio_to_float n (Z.to_pos (10 ^ Z.of_nat (length frac))))
          end
      end
  end.

(** [repr] of a float with an integral value below [10^16]; the empty text
    elsewhere, where no example looks. *)
Definition integral_repr (f : float) : pystr :=
  match Prim2SF f with
  | S754_zero s => if s then lit "-0.0" else lit "0.0"
  | S754_finite s m e =>
      let v := if (0 <=? e)%Z then (Zpos m * 2 ^ e)%Z else (Zpos m / 2 ^ (- e))%Z in
      if Z_eqb_float v (abs f) && (v <? 10 ^ 16)%Z
      then (if s then [45%N] else []) ++ str_of_Z v ++ lit ".0"
      else []
  | _ => []
  end.

Definition builtins : Builtins :=
  {| unicode_upper := fmap ascii_upper;
     unicode_lower := fmap ascii_lower;
     unicode_digit := λ _, None;
     unicode_digit_range := ltac:(discriminate);
     float_repr := integral_repr;
     float_of_str := decimal_float |}.

(** A one-line payload [{DocNo,SellerGstin}] stands for the decoded QR
    payload; the engine finds it on the first line that opens a brace and
    matches no other pattern. *)
Definition re_search (pattern : pystr) (dotall : bool) (text : pystr)
  : option (list (option pystr)) :=
  if str_eqb pattern (lit "\[--- Decoded QR Payload\(s\) ---\]\s*(\{.*?\})\s*\[")
  then
    match filter (λ l, startswith (lit "{") l = true) (splitlines text) with
    | l :: _ => Some [Some l]
    | [] => None
    end
  else None.

Definition qr_data (payload : pystr) : result (gmap string value) :=
  match payload with
  | 123%N :: inner =>
      match split_at 44 inner with
      | (docno, Some rest) =>
          Ok {[ "DocNo" := VStr docno; "SellerGstin" := VStr (fst (split_at 125 rest)) ]}
      | (_, None) => Raise ValueError
      end
  | _ => Raise ValueError
  end.

Definition json_dumps (data : gmap string value) : pystr :=
  lit "{" ++ @py_str builtins (default VNone (data !! "DocNo")) ++ lit ","
  ++ @py_str builtins (default VNone (data !! "SellerGstin")) ++ lit "}".

(** One line item for every line of the block that reads [item <text>]. *)
Definition line_items (block : pystr) : list (gmap string value) :=
  (λ l, {[ "Description" := VStr (drop 5 l) ]})
    <$> filter (λ l, startswith (lit "item ") l = true) (splitlines block).

Definition lines (ls : list string) : pystr := join [10%N] (lit <$> ls).

(** Three blocks and an unterminated tail: the second block repeats the
    first, the third has an empty document number. *)
Definition text : pystr :=
  lines [ "{INV-1,GSTIN-A}"; "item chair"; "item table"; "VALIDATION: ok";
          "{INV-1,GSTIN-A}"; "VALIDATION: ok";
          "{,GSTIN-B}"; "VALIDATION: check";
          "{INV-9,GSTIN-C}"; "item lamp" ].

Definition terminated_text : pystr :=
  lines [ "{INV-1,GSTIN-A}"; "item chair"; "item table"; "VALIDATION: ok";
          "{INV-1,GSTIN-A}"; "VALIDATION: ok";
          "{,GSTIN-B}"; "VALIDATION: check" ].

Definition empty_workbook : LoggerAgent.workbook :=
  {| LoggerAgent.Invoice_Summary := []; LoggerAgent.Line_Items := [];
     LoggerAgent.QR_Meta := [] |}.

Definition ingest_text (text : pystr) (wb : LoggerAgent.workbook)
  : result LoggerAgent.workbook :=
  @LoggerAgent.process builtins re_search qr_data json_dumps line_items text wb.

(** Four blocks: one document number under two sellers, the first document
    again, and a second document of the first seller. *)
Definition two_sellers_text : pystr :=
  lines [ "{INV-1,GSTIN-A}"; "item chair"; "VALIDATION: ok";
          "{INV-1,GSTIN-B}"; "VALIDATION: ok";
          "{INV-1,GSTIN-A}"; "item chair"; "VALIDATION: ok";
          "{INV-2,GSTIN-A}"; "VALIDATION: ok" ].

Definition ingested_two_sellers : LoggerAgent.workbook :=
  Eval vm_compute in try_except (ingest_text two_sellers_text empty_workbook) empty_workbook.

(** Two blocks whose identities differ and whose keys are both [A_B_C]:
    document [C] of seller [A_B], and document [B_C] of seller [A]. *)
Definition colliding_text : pystr :=
  lines [ "{C,A_B}"; "VALIDATION: ok"; "{B_C,A}"; "VALIDATION: ok" ].

Definition ingested_colliding : LoggerAgent.workbook :=
  Eval vm_compute in try_except (ingest_text colliding_text empty_workbook) empty_workbook.

(** The seller id and the document number that [_parse_invoice] gives the
    summary of a block *)
Definition parsed_identity (block : pystr) : option (value * value) :=
  match @LoggerAgent._parse_invoice builtins re_search qr_data json_dumps line_items block with
  | Ok p => Some (LoggerAgent.get p.1.1 "SellerGstin", LoggerAgent.get p.1.1 "DocNo")
  | Raise _ => None
  end.

(** The workbook after [text] was ingested into the empty one: one
    document, its two line items and its payload metadata. *)
Definition ingested : LoggerAgent.workbook :=
  Eval vm_compute in try_except (ingest_text text empty_workbook) empty_workbook.

(** *** A workbook for the later stages *)

Definition str (s : string) : value := VStr (lit s).

(** A row of [Invoice_Summary] with its document number, date, seller id
    and declared total, the other cells empty *)
Definition summary_of (docno docdt seller : string) (total : value) : list value :=
  [ str docno; str docdt; str seller; VNone; VNone; VNone; VNone; VNone; VNone;
    VNone; VNone; total; VNone; VNone; VNone; VNone; VNone; VNone ].

Definition qr_of (docno seller : string) (mainhsn : value) : list value :=
  [ str docno; str seller; VNone; VNone; VNone; VNone; VNone; mainhsn; VNone;
    VNone; str "{}" ].

Definition item_of (docno : string) (sno : Z) (desc : string) (hsn : Z)
    (qty rate amount : value) : list value :=
  [ str docno; VInt sno; str desc; VInt hsn; qty; str "Pcs."; rate; amount ].

Definition summary_sheet : list (list value) :=
  [ summary_of "INV-1" "01/04/2024" "GSTIN-A" (VFloat 1180);
    summary_of "INV-2" "02/04/2024" "GSTIN-A" (str "336.00");
    summary_of "INV-3" "03/04/2024" "GSTIN-B" (VFloat 100);
    summary_of "INV-4" "04/04/2024" "GSTIN-B" (VFloat 1175) ].

Definition qr_sheet : list (list value) :=
  [ qr_of "INV-1" "GSTIN-A" (str "94035000");
    qr_of "INV-2" "GSTIN-A" (VInt 73239920);
    qr_of "INV-3" "GSTIN-B" (str "99999999");
    qr_of "INV-4" "GSTIN-B" (str "94035000") ].

Definition items_sheet : list (list value) :=
  [ item_of "INV-1" 1 "Model No ABC-100 (73239920)" 94035000 (VFloat 2) (VFloat 500) (VFloat 1000);
    item_of "INV-2" 1 "Steel bowl" 73239920 (VFloat 2) (VFloat 150) (VFloat 299.5);
    item_of "INV-3" 1 "Salt" 99999999 (VFloat 1) (VFloat 100) VNone;
    item_of "INV-4" 1 "Wooden desk" 94035000 (VFloat 4) (VFloat 250) (VFloat 1000) ].

(** The page of the lookup service: the same table for every request. *)
Definition http_get (url : pystr) : result (Z * list (list pystr)) :=
  Ok (200%Z,
      [ [lit "HSN Code"; lit "Description"];
        [lit "73239920"; lit "Steel utensils"; lit "GST 12%"];
        [lit "99999999"; lit "Exempt goods"; lit "0%"] ]).

(** The rows of [GST_Fetch] after a first run, without a cache file *)
Definition gst_sheet : list (list value) :=
  Eval vm_compute in
    match @GSTFetcherAgent.run builtins http_get GSTFetcherAgent.Absent summary_sheet qr_sheet with
    | Ok (rows, _) => rows
    | Raise _ => []
    end.

Definition review (items : list (list value)) : result (list (list value) * list (list value)) :=
  @ReviewerAgent.process builtins items LoggerAgent.Invoice_Summary_header
    summary_sheet gst_sheet.

(** The rows of [Review_Report] and [LineItem_Errors] for the sample *)
Definition review_sheet : list (list value) :=
  Eval vm_compute in
    match review items_sheet with Ok (rows, _) => rows | Raise _ => [] end.

Definition error_sheet : list (list value) :=
  Eval vm_compute in
    match review items_sheet with Ok (_, rows) => rows | Raise _ => [] end.

(** A cache file that holds a rate of 0 for a code *)
Definition zero_rate_file : GSTFetcherAgent.cache_file :=
  GSTFetcherAgent.Stored
    {[ lit "99999999" := GSTFetcherAgent.mk_entry (VInt 0) (str "Exempt goods") ]}.

(** *** An invoice with a table of line items *)

(** Two line items: the first has an amount that differs from quantity
    times rate. *)
Definition invoice_text : pystr :=
  lines [ "{INV-7,GSTIN-A}"; "TAX INVOICE"; ""; "  Acme Traders  ";
          "S.N Description HSN/SAC Quantity Rate Amount(` )";
          "1."; "Steel bowl"; "73239920"; "2 Pcs."; "150.00"; "299.50";
          "2."; "Model No ABC-100 (73239920)"; "94035000"; "1,000 Units"; "1,250.50";
          "12,50,500.00";
          "Add : CGST 9%"; "VALIDATION: ok" ].

Definition ingest_parsed (text : pystr) (wb : LoggerAgent.workbook)
  : result LoggerAgent.workbook :=
  @LoggerAgent.process builtins re_search qr_data json_dumps
    (@LoggerAgent.parse_line_items builtins) text wb.

Definition ingested_invoice : LoggerAgent.workbook :=
  Eval vm_compute in
    try_except (ingest_parsed invoice_text (LoggerAgent._init_excel None)) empty_workbook.

(** A table whose first line is a quantity line *)
Definition wrapped_table : pystr :=
  lines [ "S.N Description Amount(` )"; "2 SET"; "10.00"; "20.00"; "Widget"; "12345678";
          "VALIDATION: ok" ].

Definition wrapped_table_body : pystr :=
  lines [ "2 SET"; "10.00"; "20.00"; "Widget"; "12345678" ] ++ [10%N].

(** *** Master sheets *)

(** Two rows for one model: their model numbers normalize to the same key. *)
Definition master_sheet : list (list value) :=
  [ [str "abc-100"; str "Chair"; str "SKU-1"; VInt 94035000; VFloat 450];
    [str "Model No ABC-100"; str "Chair, new"; str "SKU-2"; VInt 94035000; VFloat 500] ].

Definition master_without_rate : list (list value) :=
  [ [str "ABC-100"; str "Chair"; str "SKU-1"; VInt 94035000; VNone] ].

(** *** A lookup service that answers every request with status 404 *)
Definition http_down (url : pystr) : result (Z * list (list pystr)) :=
  Ok (404%Z, []).

End Sample.

(** * Properties *)

Import Py.

Lemma bind_Ok {A B} (r : result A) (k : A → result B) b :
  bind r k = Ok b → ∃ a, r = Ok a ∧ k a = Ok b.
Proof. destruct r as [a|e]; simpl; [eauto | discriminate]. Qed.

Lemma truthy_not_none v : truthy v = true → v ≠ VNone.
Proof. by destruct v. Qed.

(** ** BlockExtractor ([LoggerAgent]) *)

Section logger_facts.
Import LoggerAgent.
Local Open Scope string_scope.
Local Open Scope list_scope.
Context `{Builtins}.
Variable re_search : pystr → bool → pystr → option (list (option pystr)).
Variable qr_data : pystr → result (gmap string value).
Variable json_dumps : gmap string value → pystr.
Variable line_items : pystr → list (gmap string value).

Abbreviation _parse_invoice :=
  (LoggerAgent._parse_invoice re_search qr_data json_dumps line_items).
Abbreviation ingest := (LoggerAgent.ingest re_search qr_data json_dumps line_items).
Abbreviation process := (LoggerAgent.process re_search qr_data json_dumps line_items).
Abbreviation skipped := (LoggerAgent.skipped re_search qr_data json_dumps line_items).

(** *** Segmentation *)

Lemma split_lines_unterminated tail :
  Forall (λ l, is_validation_line l = false) tail →
  ∀ current, split_lines current tail = [].
Proof.
  induction 1 as [|l tail Hl _ IH]; intros current; simpl; [done|].
  by rewrite Hl.
Qed.

Lemma split_lines_app tail :
  Forall (λ l, is_validation_line l = false) tail →
  ∀ lines current, split_lines current (lines ++ tail) = split_lines current lines.
Proof.
  intros Htail lines. induction lines as [|l lines IH]; intros current; simpl.
  - by apply split_lines_unterminated.
  - destruct (is_validation_line l); by rewrite IH.
Qed.

Lemma split_lines_terminated lines :
  ∀ current, Forall terminated (split_lines current lines).
Proof.
  induction lines as [|l lines IH]; intros current; simpl; [constructor|].
  destruct (is_validation_line l) eqn:Hl; [|apply IH].
  constructor; [|apply IH]. by exists current, l.
Qed.

(** C6.  Lines after the last validation-flag line form no block: a text
    whose lines are those of [text'] followed by lines none of which is a
    validation-flag line splits into the blocks of [text'], and [process]
    leaves the workbook it leaves on [text'].  Every block ends with a
    validation-flag line; a text without one leaves the three sheets as they
    were.  (A validation-flag line is what [_split_invoices] tests: a line
    that starts with [VALIDATION:] once stripped.) *)
Theorem trailing_content_forms_no_block text text' tail wb :
  splitlines text = splitlines text' ++ tail →
  Forall (λ l, is_validation_line l = false) tail →
  _split_invoices text = _split_invoices text'
  ∧ process text wb = process text' wb
  ∧ Forall terminated (_split_invoices text)
  ∧ (splitlines text' = [] → ∀ wb', process text wb = Ok wb' → wb' = wb).
Proof.
  intros Hsplit Htail.
  assert (_split_invoices text = _split_invoices text') as Heq.
  { unfold _split_invoices. rewrite Hsplit. by apply split_lines_app. }
  split; [done|]. split; [|split].
  - unfold LoggerAgent.process. by rewrite Heq.
  - apply split_lines_terminated.
  - intros Hnil wb'. unfold LoggerAgent.process. rewrite Heq.
    unfold _split_invoices. rewrite Hnil. simpl.
    intros [ks [_ Hk]]%bind_Ok. by injection Hk.
Qed.

(** *** The loop over the blocks *)

Lemma accepted_dec p :
  (negb (truthy (get p.1.1 "DocNo")) || negb (truthy (get p.1.1 "SellerGstin"))) = false
  ↔ accepted p.
Proof.
  unfold accepted.
  destruct (truthy (get p.1.1 "DocNo")), (truthy (get p.1.1 "SellerGstin"));
    simpl; intuition congruence.
Qed.

Lemma ingest_skipped blocks wb existing :
  Forall (skipped existing) blocks → ingest blocks wb existing = Ok wb.
Proof.
  induction 1 as [|block blocks [[[summary items] qr_meta] [Hp Hk]] _ IH]; simpl; [done|].
  rewrite Hp. simpl.
  destruct (negb _ || negb _) eqn:Hg; [done|].
  apply (accepted_dec (summary, items, qr_meta)) in Hg.
  rewrite bool_decide_eq_true_2; [done|]. by apply Hk.
Qed.

(** A run of the loop logs the parses of some blocks, in order: they passed
    the first guard, their keys were new and differ from one another, and
    with these keys added every block would now be passed over. *)
Lemma ingest_logged blocks :
  ∀ wb existing wb',
    ingest blocks wb existing = Ok wb' →
    ∃ ps, wb' = log_all ps wb
          ∧ NoDup (key_of <$> ps)
          ∧ Forall (λ p, accepted p ∧ (key_of p ∉ existing)
                         ∧ ∃ b, b ∈ blocks ∧ _parse_invoice b = Ok p) ps
          ∧ Forall (skipped (list_to_set (key_of <$> ps) ∪ existing)) blocks.
Proof.
  induction blocks as [|block blocks IH]; intros wb existing wb'; simpl.
  - intros [= <-]. exists []. split; [done|]. split; [constructor|]. split; constructor.
  - intros [[[summary items] qr_meta] [Hp Hrest]]%bind_Ok.
    set (p := (summary, items, qr_meta)) in *.
    assert (∀ ps, Forall (λ q, accepted q ∧ (key_of q ∉ existing)
                     ∧ ∃ b, b ∈ blocks ∧ _parse_invoice b = Ok q) ps →
                  Forall (λ q, accepted q ∧ (key_of q ∉ existing)
                     ∧ ∃ b, b ∈ block :: blocks ∧ _parse_invoice b = Ok q) ps) as Hweak.
    { intros ps Hps. eapply Forall_impl; [exact Hps|]. intros q (? & ? & b & ? & ?).
      split; [done|]. split; [done|]. exists b. split; [by right|done]. }
    destruct (negb _ || negb _) eqn:Hg.
    { destruct (IH _ _ _ Hrest) as (ps & -> & Hnd & Hps & Hsk).
      exists ps. split; [done|]. split; [done|]. split; [by apply Hweak|].
      constructor; [|done]. exists p. split; [done|].
      intros Hacc. apply (accepted_dec p) in Hacc. subst p. simpl in Hacc. congruence. }
    case_bool_decide as Hin.
    { destruct (IH _ _ _ Hrest) as (ps & -> & Hnd & Hps & Hsk).
      exists ps. split; [done|]. split; [done|]. split; [by apply Hweak|].
      constructor; [|done]. exists p. split; [done|]. intros _.
      apply elem_of_union_r. exact Hin. }
    destruct (IH _ _ _ Hrest) as (ps & -> & Hnd & Hps & Hsk).
    exists (p :: ps). split; [done|]. split; [|split].
    + simpl. constructor; [|done].
      intros (q & Hq & Hqin)%list_elem_of_fmap.
      rewrite Forall_forall in Hps. destruct (Hps q Hqin) as (_ & Hnotin & _).
      apply Hnotin. rewrite <- Hq. apply elem_of_union_l. by apply elem_of_singleton.
    + constructor.
      * split; [by apply (accepted_dec p)|]. split; [done|].
        exists block. split; [by left|done].
      * eapply Forall_impl; [exact Hps|]. intros q (? & Hn & b & ? & ?).
        split; [done|]. split; [|exists b; split; [by right|done]].
        intros Hq. apply Hn. by apply elem_of_union_r.
    + constructor.
      * exists p. split; [done|]. intros _. simpl.
        apply elem_of_union_l, elem_of_union_l. by apply elem_of_singleton.
      * eapply Forall_impl; [exact Hsk|]. intros b (q & ? & Hq).
        exists q. split; [done|]. intros Hacc. specialize (Hq Hacc). simpl.
        rewrite !elem_of_union in Hq. rewrite !elem_of_union.
        destruct Hq as [?|[?|?]]; auto.
Qed.

Lemma log_all_snoc ps p wb :
  log_all (ps ++ [p]) wb = log_invoice p.1.1 p.1.2 p.2 (log_all ps wb).
Proof. unfold log_all. by rewrite foldl_app. Qed.

Lemma log_all_sheets ps wb :
  Invoice_Summary (log_all ps wb)
    = Invoice_Summary wb ++ ((λ p : parsed, summary_row p.1.1) <$> ps)
  ∧ Line_Items (log_all ps wb)
    = Line_Items wb ++ (ps ≫= λ p : parsed, item_row p.1.1 <$> p.1.2)
  ∧ QR_Meta (log_all ps wb)
    = QR_Meta wb ++ (ps ≫= λ p : parsed, if nonempty p.2 then [qr_row p.2] else []).
Proof.
  induction ps as [|p ps IH] using rev_ind.
  - simpl. by rewrite !app_nil_r.
  - destruct IH as (IH1 & IH2 & IH3).
    rewrite log_all_snoc. simpl. rewrite IH1, IH2, IH3.
    rewrite fmap_app, !bind_app. simpl. by rewrite !app_nil_r, !app_assoc.
Qed.

(** *** Composite keys of the rows *)

Lemma row_keys_app rows1 rows2 ks1 ks2 :
  row_keys rows1 = Ok ks1 → row_keys rows2 = Ok ks2 →
  row_keys (rows1 ++ rows2) = Ok (ks1 ++ ks2).
Proof.
  revert ks1. induction rows1 as [|r rows1 IH]; intros ks1; simpl.
  - by intros [= <-].
  - intros [k [Hk [ks [Hks [= <-]]]%bind_Ok]]%bind_Ok H2.
    rewrite Hk. simpl. by rewrite (IH _ Hks H2).
Qed.

Lemma row_keys_logged (ps : list parsed) :
  row_keys ((λ p : parsed, summary_row p.1.1) <$> ps) = Ok (key_of <$> ps).
Proof.
  induction ps as [|p ps IH]; [done|].
  rewrite !fmap_cons. cbn [row_keys]. rewrite IH. reflexivity.
Qed.

(** Rows with distinct keys have distinct identities. *)
Lemma row_keys_identity rows :
  ∀ ks, row_keys rows = Ok ks → NoDup ks → NoDup (doc_identity <$> rows).
Proof.
  induction rows as [|r rows IH]; intros ks; simpl; [constructor|].
  intros [k [Hk [ks' [Hks [= <-]]]%bind_Ok]]%bind_Ok [Hnotin Hnd]%NoDup_cons.
  constructor; [|by eapply IH].
  intros (r' & Hid & Hin)%list_elem_of_fmap. apply Hnotin.
  assert (row_key r' = Ok k) as Hk'.
  { unfold row_key, index in *. unfold doc_identity in Hid.
    injection Hid as H2 H0. by rewrite <- H2, <- H0. }
  clear -Hks Hin Hk'. revert ks' Hks.
  induction Hin as [r' rows|r' r'' rows _ IHin]; intros ks'; simpl;
    intros [k' [Hk'' [ks'' [Hks [= <-]]]%bind_Ok]]%bind_Ok.
  - assert (k' = k) as -> by congruence. left.
  - right. by eapply IHin.
Qed.

(** A key among those of the rows is the key of one of the rows. *)
Lemma row_keys_elem rows :
  ∀ ks k, row_keys rows = Ok ks → k ∈ ks → ∃ r, r ∈ rows ∧ row_key r = Ok k.
Proof.
  induction rows as [|r rows IH]; intros ks k; simpl.
  - intros [= <-] Hk. by apply elem_of_nil in Hk.
  - intros [k' [Hk' [ks' [Hks [= <-]]]%bind_Ok]]%bind_Ok [->|Hin]%elem_of_cons.
    + exists r. split; [left|done].
    + destruct (IH _ _ Hks Hin) as (r' & Hr' & Hkey). exists r'. split; [by right|done].
Qed.

(** The key tells the seller id from the document number when the seller
    id holds no underscore. *)
Lemma comp_key_plain seller docno seller' docno' :
  95%N ∉ seller → 95%N ∉ seller' →
  comp_key (VStr seller) (VStr docno) = comp_key (VStr seller') (VStr docno') →
  seller = seller' ∧ docno = docno'.
Proof.
  unfold comp_key. simpl. change (lit "_") with [95%N].
  revert seller'. induction seller as [|c s IH]; intros [|c' s'] Hs Hs'; simpl.
  - by intros [= ->].
  - intros [= <- _]. exfalso. apply Hs'. left.
  - intros [= -> _]. exfalso. apply Hs. left.
  - intros [= -> Hrest].
    apply not_elem_of_cons in Hs as [_ Hs]. apply not_elem_of_cons in Hs' as [_ Hs'].
    destruct (IH s' Hs Hs' Hrest) as [-> ->]. done.
Qed.


(** *** Identity of the inserted rows *)

Lemma header_pass_keys block header :
  header_pass re_search block = Ok header →
  header !! "DocNo" = None ∧ header !! "SellerGstin" = None.
Proof.
  unfold header_pass.
  intros [ack [_ [eway [_ [place [_ [vehicle [_ [transport [_ [flag [_ [= <-]]]%bind_Ok
    ]]%bind_Ok]]%bind_Ok]]%bind_Ok]]%bind_Ok]]%bind_Ok.
  split; by simplify_map_eq.
Qed.

Lemma tax_pass_keys block summary summary' k :
  tax_pass re_search block summary = Ok summary' →
  k ≠ "TaxableAmount" → k ≠ "CGST_Amount" → k ≠ "SGST_Amount" → k ≠ "TotalTax" →
  summary' !! k = summary !! k.
Proof.
  unfold tax_pass. destruct (re_search _ _ _) as [gs|]; [|by intros [= <-]].
  intros [taxable [_ [cgst [_ [sgst [_ [total [_ [total_tax [_ [= <-]]]%bind_Ok
    ]]%bind_Ok]]%bind_Ok]]%bind_Ok]]%bind_Ok ? ? ? ?.
  by rewrite !lookup_insert_ne.
Qed.

(** The summary takes its document number and seller id from the payload
    metadata: no later pass writes these keys. *)
Lemma parse_identity block summary items qr_meta :
  _parse_invoice block = Ok (summary, items, qr_meta) →
  get summary "DocNo" = get qr_meta "DocNo"
  ∧ get summary "SellerGstin" = get qr_meta "SellerGstin".
Proof.
  unfold LoggerAgent._parse_invoice.
  intros [header [Hh [summary' [Ht [= <- _ <-]]]%bind_Ok]]%bind_Ok.
  destruct (header_pass_keys _ _ Hh) as [Hd Hs].
  unfold get.
  rewrite (tax_pass_keys _ _ _ "DocNo" Ht), (tax_pass_keys _ _ _ "SellerGstin" Ht) by done.
  rewrite !lookup_insert_ne by done.
  rewrite !lookup_union, Hd, Hs, !lookup_empty.
  split; by destruct (payload_pass _ _ _ _ !! _).
Qed.

(** C9.  The rows that a run of [process] adds: every new row of
    [Invoice_Summary] has a document number and a seller id that are not
    [None] (they are truthy); every new row of [Line_Items] carries the
    document number of a new row of [Invoice_Summary], and every new row of
    [QR_Meta] its document number and seller id.  A block whose parse has
    [None] for either is passed over by the loop: the workbook and the keys
    go on to the next block unchanged. *)
Theorem inserted_rows_identified text wb wb' :
  process text wb = Ok wb' →
  (∃ docs items qrs,
     Invoice_Summary wb' = Invoice_Summary wb ++ docs
     ∧ Line_Items wb' = Line_Items wb ++ items
     ∧ QR_Meta wb' = QR_Meta wb ++ qrs
     ∧ Forall (λ r : row, ∃ docno seller,
                 r !! 0%nat = Some docno ∧ r !! 2%nat = Some seller
                 ∧ truthy docno = true ∧ truthy seller = true
                 ∧ docno ≠ VNone ∧ seller ≠ VNone) docs
     ∧ Forall (λ r : row, ∃ d : row, d ∈ docs ∧ r !! 0%nat = d !! 0%nat) items
     ∧ Forall (λ r : row, ∃ d : row, d ∈ docs ∧ r !! 0%nat = d !! 0%nat
                                      ∧ r !! 1%nat = d !! 2%nat) qrs)
  ∧ (∀ block rest w existing p,
       _parse_invoice block = Ok p →
       get p.1.1 "DocNo" = VNone ∨ get p.1.1 "SellerGstin" = VNone →
       ingest (block :: rest) w existing = ingest rest w existing).
Proof.
  unfold LoggerAgent.process.
  intros [K [_ Hrun]]%bind_Ok.
  destruct (ingest_logged _ _ _ _ Hrun) as (ps & -> & _ & Hps & _).
  split.
  - destruct (log_all_sheets ps wb) as (-> & -> & ->).
    eexists _, _, _. split; [done|]. split; [done|]. split; [done|].
    rewrite Forall_forall in Hps. split; [|split].
    + apply Forall_fmap, Forall_forall. intros p Hp.
      destruct (Hps p Hp) as ([Hd Hs] & _).
      exists (get p.1.1 "DocNo"), (get p.1.1 "SellerGstin").
      repeat split; try done; by apply truthy_not_none.
    + apply Forall_forall. intros r (p & Hr & Hp)%list_elem_of_bind.
      apply list_elem_of_fmap in Hr as (item & -> & _).
      exists (summary_row p.1.1). split; [|done].
      apply list_elem_of_fmap. by exists p.
    + apply Forall_forall. intros r (p & Hr & Hp)%list_elem_of_bind.
      destruct (nonempty p.2); [|by apply elem_of_nil in Hr].
      apply list_elem_of_singleton in Hr as ->.
      destruct (Hps p Hp) as (_ & _ & b & _ & Hb).
      destruct p as [[summary items] qr_meta].
      destruct (parse_identity _ _ _ _ Hb) as [Hd Hs].
      exists (summary_row summary). split.
      * apply list_elem_of_fmap. by exists (summary, items, qr_meta).
      * simpl. by rewrite Hd, Hs.
  - intros block rest w existing [[summary items] qr_meta] Hp Hnull. simpl in *.
    rewrite Hp. simpl. by destruct Hnull as [-> | ->]; simpl; rewrite ?orb_true_r.
Qed.

(** *** Completion *)

(** The loop completes when every block parses. *)
Lemma ingest_returns blocks :
  Forall (λ b, ∃ p, _parse_invoice b = Ok p) blocks →
  ∀ wb existing, ∃ wb', ingest blocks wb existing = Ok wb'.
Proof.
  induction 1 as [|block blocks [[[summary items] qr_meta] Hp] _ IH];
    intros wb existing; simpl; [by exists wb|].
  rewrite Hp. simpl.
  destruct (negb _ || negb _); [apply IH|].
  case_bool_decide; apply IH.
Qed.

(** A run completes when the rows of [Invoice_Summary] have their key cells
    and every block parses. *)
Lemma process_returns text wb ks :
  row_keys (Invoice_Summary wb) = Ok ks →
  Forall (λ b, ∃ p, _parse_invoice b = Ok p) (_split_invoices text) →
  ∃ wb', process text wb = Ok wb'.
Proof.
  intros Hks Hparse. unfold LoggerAgent.process, existing_keys.
  rewrite Hks. simpl. by apply ingest_returns.
Qed.

End logger_facts.

Section logger_examples.
Import LoggerAgent.
Local Open Scope list_scope.

Lemma trailing_content_witness :
  splitlines Sample.text
    = splitlines Sample.terminated_text ++ [lit "{INV-9,GSTIN-C}"; lit "item lamp"]
  ∧ _split_invoices Sample.text = _split_invoices Sample.terminated_text
  ∧ Sample.ingest_text Sample.text Sample.empty_workbook
    = Sample.ingest_text Sample.terminated_text Sample.empty_workbook.
Proof.
  assert (splitlines Sample.text
          = splitlines Sample.terminated_text ++ [lit "{INV-9,GSTIN-C}"; lit "item lamp"])
    as Hsplit by (vm_compute; reflexivity).
  assert (Forall (λ l, is_validation_line l = false)
            [lit "{INV-9,GSTIN-C}"; lit "item lamp"]) as Htail
    by (repeat constructor).
  split; [exact Hsplit|].
  destruct (@trailing_content_forms_no_block Sample.builtins Sample.re_search
              Sample.qr_data Sample.json_dumps Sample.line_items
              _ _ _ Sample.empty_workbook Hsplit Htail) as (Hblocks & Hrun & _).
  split; [exact Hblocks | exact Hrun].
Defined.



Lemma inserted_rows_witness :
  Sample.ingest_text Sample.text Sample.empty_workbook = Ok Sample.ingested
  ∧ ∃ docs items qrs,
      Invoice_Summary Sample.ingested = [] ++ docs
      ∧ Line_Items Sample.ingested = [] ++ items
      ∧ QR_Meta Sample.ingested = [] ++ qrs
      ∧ Forall (λ r : row, ∃ docno seller,
                  r !! 0%nat = Some docno ∧ r !! 2%nat = Some seller
                  ∧ truthy docno = true ∧ truthy seller = true
                  ∧ docno ≠ VNone ∧ seller ≠ VNone) docs
      ∧ Forall (λ r : row, ∃ d : row, d ∈ docs ∧ r !! 0%nat = d !! 0%nat) items
      ∧ Forall (λ r : row, ∃ d : row, d ∈ docs ∧ r !! 0%nat = d !! 0%nat
                                       ∧ r !! 1%nat = d !! 2%nat) qrs.
Proof.
  assert (Sample.ingest_text Sample.text Sample.empty_workbook = Ok Sample.ingested)
    as Hrun by (vm_compute; reflexivity).
  split; [exact Hrun|].
  exact (proj1 (@inserted_rows_identified Sample.builtins Sample.re_search Sample.qr_data
                  Sample.json_dumps Sample.line_items _ _ _ Hrun)).
Defined.

End logger_examples.

(** ** CatalogMatcher ([MapperAgent]) *)

Section mapper_facts.
Import MapperAgent.
Local Open Scope list_scope.
Context `{Builtins}.

Lemma first8_cells (r : row) :
  ∃ docno sno desc hsn qty unit rate amount,
    first8 r = [docno; sno; desc; hsn; qty; unit; rate; amount].
Proof.
  unfold first8.
  do 8 (destruct r as [|? r]; [simpl; eauto 10|]).
  simpl. eauto 10.
Qed.

(** Without a catalog entry for its key, a line item goes to both sheets. *)
Lemma map_item_miss master_map r :
  master_map !! normalized_key r = None →
  map_item master_map r = Ok ([not_found_row r], [unmapped_row r]).
Proof.
  unfold map_item, not_found_row, unmapped_row, normalized_key.
  destruct (first8_cells r) as (docno & sno & desc & hsn & qty & unit & rate & amount & ->).
  simpl. by intros ->.
Qed.

(** The eight cells that [process] takes from a row of [Line_Items]: the
    cells of the row at the indices 0 to 7, [None] where the row is
    shorter. *)
Lemma first8_seq (r : row) :
  first8 r = (λ j, default VNone (r !! j)) <$> seq 0 8.
Proof.
  unfold first8.
  do 8 (destruct r as [|? r]; [reflexivity|]).
  reflexivity.
Qed.

Lemma normalized_key_cell (r : row) :
  normalized_key r = _normalize_model (py_str (default VNone (r !! 2%nat))).
Proof. unfold normalized_key. by rewrite first8_seq. Qed.

(** C8.  On an empty catalog (a master sheet without data rows) [process]
    does not raise, whatever the rows of [Line_Items] are, and writes for
    every line item, in order, one row of [Mapped_Items] and one row of
    [Unmapped_Items].  Both start with the cells 0 to 7 of the line item
    ([None] for a cell that the row does not have) followed by the
    normalized text of its description cell; the row of [Mapped_Items] goes
    on with four times [NOT FOUND] and the cross mark. *)
Theorem empty_catalog_unmapped (items : list row) :
  process [] items
  = let cells := λ r : row, (λ j, default VNone (r !! j)) <$> seq 0 8 in
    let key := λ r : row, _normalize_model (py_str (default VNone (r !! 2%nat))) in
    Ok ((λ r, cells r ++ [ VStr (key r); VStr (lit "NOT FOUND"); VStr (lit "NOT FOUND");
                           VStr (lit "NOT FOUND"); VStr (lit "NOT FOUND");
                           VStr [10060%N] ]) <$> items,
        (λ r, cells r ++ [ VStr (key r) ]) <$> items).
Proof.
  cbv zeta. unfold MapperAgent.process. simpl.
  induction items as [|r items IH]; [done|].
  cbn [map_items]. rewrite map_item_miss by apply lookup_empty.
  simpl. rewrite IH. simpl. unfold not_found_row, unmapped_row.
  by rewrite normalized_key_cell, first8_seq.
Qed.

(** C5, as the code has it.  The label [MODEL NO] is removed but the colon
    after it stays: the text with the label and the colon normalizes to
    [: ABC-100].  Without the colon it normalizes to [ABC-100], as the bare
    model text does; in both the parenthesized digits are removed, the
    letters are upper case and the spaces are collapsed. *)
Theorem normalize_model_label :
  _normalize_model (lit "Model No: ABC-100 (73239920)") = lit ": ABC-100"
  ∧ _normalize_model (lit "Model No ABC-100 (73239920)") = lit "ABC-100"
  ∧ _normalize_model (lit "model no  abc-100  (73239920)") = lit "ABC-100"
  ∧ _normalize_model (lit "ABC-100") = lit "ABC-100".
Proof. repeat split; vm_compute; reflexivity. Qed.

End mapper_facts.

(** The text with the colon does not normalize to [ABC-100], whatever the
    builtins are. *)
Lemma normalize_model_keeps_colon :
  ¬ ∃ B : Builtins,
      @MapperAgent._normalize_model B (lit "Model No: ABC-100 (73239920)")
      = @MapperAgent._normalize_model B (lit "ABC-100").
Proof. intros [B HB]. vm_compute in HB. discriminate HB. Qed.

(** Two line items on an empty catalog: the second has three cells only,
    and its description has a lower-case letter and a double space. *)
Lemma empty_catalog_witness :
  @MapperAgent.process Sample.builtins []
    [ Sample.item_of "INV-1" 1 "Model No ABC-100 (73239920)" 94035000
        (VFloat 2) (VFloat 500) (VFloat 1000);
      [ Sample.str "INV-2"; VInt 2; Sample.str "steel  bowl" ] ]
  = Ok ([ [ Sample.str "INV-1"; VInt 1; Sample.str "Model No ABC-100 (73239920)";
            VInt 94035000; VFloat 2; Sample.str "Pcs."; VFloat 500; VFloat 1000;
            Sample.str "ABC-100"; Sample.str "NOT FOUND"; Sample.str "NOT FOUND";
            Sample.str "NOT FOUND"; Sample.str "NOT FOUND"; VStr [10060%N] ];
          [ Sample.str "INV-2"; VInt 2; Sample.str "steel  bowl";
            VNone; VNone; VNone; VNone; VNone;
            Sample.str "STEEL BOWL"; Sample.str "NOT FOUND"; Sample.str "NOT FOUND";
            Sample.str "NOT FOUND"; Sample.str "NOT FOUND"; VStr [10060%N] ] ],
        [ [ Sample.str "INV-1"; VInt 1; Sample.str "Model No ABC-100 (73239920)";
            VInt 94035000; VFloat 2; Sample.str "Pcs."; VFloat 500; VFloat 1000;
            Sample.str "ABC-100" ];
          [ Sample.str "INV-2"; VInt 2; Sample.str "steel  bowl";
            VNone; VNone; VNone; VNone; VNone; Sample.str "STEEL BOWL" ] ]).
Proof.
  rewrite (@empty_catalog_unmapped Sample.builtins). vm_compute. reflexivity.
Defined.

(** ** TieredRateResolver ([GSTFetcherAgent]) *)

Section fetcher_facts.
Import GSTFetcherAgent.
Local Open Scope string_scope.
Local Open Scope list_scope.
Context `{Builtins}.
Variable http_get : pystr → result (Z * list (list pystr)).

Abbreviation _fetch_gst_details := (GSTFetcherAgent._fetch_gst_details http_get).
Abbreviation fetch_rows := (GSTFetcherAgent.fetch_rows http_get).
Abbreviation process := (GSTFetcherAgent.process http_get).
Abbreviation run := (GSTFetcherAgent.run http_get).

Lemma digit_value_range c d : digit_value c = Some d → (d < 10)%N.
Proof.
  unfold digit_value.
  destruct (_ && _) eqn:Hc.
  - intros [= <-]. apply andb_true_iff in Hc as [H1%N.leb_le H2%N.leb_le]. lia.
  - destruct (is_ascii c); [done|]. apply unicode_digit_range.
Qed.

(** The rate read in a cell, if any, has one or two digits. *)
Lemma rate_of_text_range s :
  rate_of_text s = VNone ∨ ∃ n : Z, rate_of_text s = VInt n ∧ (0 ≤ n ≤ 99)%Z.
Proof.
  induction s as [|c t IH]; simpl; [by left|].
  destruct (digit_value c) as [d1|] eqn:H1; [|exact IH].
  apply digit_value_range in H1. right.
  destruct t as [|c2 t']; [eexists; split; [done|lia]|].
  destruct (digit_value c2) as [d2|] eqn:H2.
  - apply digit_value_range in H2. eexists; split; [done|lia].
  - eexists; split; [done|lia].
Qed.

Lemma scan_rows_resolved hsn rows gst_rate description :
  scan_rows hsn rows = (gst_rate, description) →
  truthy gst_rate = true →
  percentage gst_rate ∧ ∃ s, description = VStr s.
Proof.
  induction rows as [|cols rows IH]; simpl; [by intros [= <- <-]|].
  destruct cols as [|hsn_code [|d [|rate_text ?]]]; try exact IH.
  destruct (str_eqb hsn_code hsn); [|exact IH].
  intros [= <- <-] Ht. split; [|by eexists].
  destruct rate_text as [|c t]; [done|].
  destruct (rate_of_text_range (c :: t)) as [Hn|(n & Hn & Hr)]; rewrite Hn in Ht |- *; [done|].
  exists n. split; [done|]. simpl in Ht. apply negb_true_iff, Z.eqb_neq in Ht. lia.
Qed.

Lemma well_formed_fallback : well_formed HSN_FALLBACK.
Proof.
  intros hsn data. unfold HSN_FALLBACK.
  intros [[_ <-]|[_ [_ <-]%lookup_singleton_Some]]%lookup_insert_Some.
  - split; [exists 18%Z; split; [done|lia] | by eexists].
  - split; [exists 12%Z; split; [done|lia] | by eexists].
Qed.

Lemma well_formed_load file :
  (∀ m, file = Stored m → well_formed m) → well_formed (_load_hsn_cache file).
Proof.
  destruct file as [| |m]; simpl; intros Hm; try apply well_formed_fallback.
  intros hsn data [Hd|[_ Hd]]%lookup_union_Some_raw.
  - by eapply Hm.
  - by eapply well_formed_fallback.
Qed.

Lemma fetch_well_formed hsn st res st' :
  well_formed (hsn_cache st) →
  _fetch_gst_details hsn st = (res, st') →
  well_formed (hsn_cache st') ∧ resolved res.
Proof.
  intros Hwf. unfold GSTFetcherAgent._fetch_gst_details.
  destruct (hsn_cache st !! hsn) as [data|] eqn:Hc.
  { intros [= <- <-]. split; [done|]. right. by apply (Hwf hsn). }
  assert (resolved match HSN_FALLBACK !! hsn with
                   | Some data => (get data "gst_rate", get data "description", Fallback_Dictionary)
                   | None => (VNone, VNone, Not_Found)
                   end) as Hfb.
  { destruct (HSN_FALLBACK !! hsn) as [data|] eqn:Hf; [|by left].
    right. by apply (well_formed_fallback hsn). }
  destruct (http_get _) as [[status_code rows]|e]; [|by intros [= <- <-]].
  destruct (status_code =? 200)%Z; [|by intros [= <- <-]].
  destruct (scan_rows hsn rows) as [gst_rate description] eqn:Hscan.
  destruct (truthy gst_rate) eqn:Ht; [|by intros [= <- <-]].
  destruct (scan_rows_resolved _ _ _ _ Hscan Ht) as [Hp Hd].
  intros [= <- <-]. simpl. split; [|by right].
  intros hsn' data [[_ <-]|[_ Hd']]%lookup_insert_Some; [done|by eapply Hwf].
Qed.

(** Halving a percentage is exact: checked on each of the 99 rates. *)
Lemma halve_percentage r :
  (1 ≤ r ≤ 99)%Z →
  ∃ h, halve (VInt r) = Ok (VFloat h) ∧ exact_ratio h r 2 = true.
Proof.
  intros Hr.
  assert (forallb halved_exactly (seqZ 1 99) = true) as Hall by (vm_compute; reflexivity).
  rewrite forallb_forall in Hall.
  assert (halved_exactly r = true) as Hh.
  { apply Hall, list_elem_of_In, elem_of_seqZ. lia. }
  unfold halved_exactly in Hh.
  destruct (halve (VInt r)) as [[| | |h|]|]; try discriminate Hh. by exists h.
Qed.

Lemma split_rate_resolved gst_rate :
  gst_rate = VNone ∨ percentage gst_rate →
  ∃ cgst_rate sgst_rate,
    split_rate gst_rate = Ok (cgst_rate, sgst_rate)
    ∧ ((gst_rate = VNone ∧ cgst_rate = VNone ∧ sgst_rate = VNone)
       ∨ ∃ (rate : Z) (half : float),
           gst_rate = VInt rate ∧ (1 ≤ rate ≤ 99)%Z
           ∧ cgst_rate = VFloat half ∧ sgst_rate = VFloat half
           ∧ exact_ratio half rate 2 = true).
Proof.
  intros [->|(r & -> & Hr)].
  - exists VNone, VNone. split; [done|]. by left.
  - destruct (halve_percentage r Hr) as (h & Hh & Hex).
    exists (VFloat h), (VFloat h). unfold split_rate.
    assert (truthy (VInt r) = true) as -> by (simpl; apply negb_true_iff, Z.eqb_neq; lia).
    rewrite Hh. simpl. split; [done|]. right. by exists r, h.
Qed.

Lemma fetch_rows_ok lookup summary :
  ∀ st rows st',
    well_formed (hsn_cache st) →
    fetch_rows lookup summary st = Ok (rows, st') →
    Forall rate_record_ok rows ∧ well_formed (hsn_cache st').
Proof.
  induction summary as [|r summary IH]; intros st rows st' Hwf; simpl.
  - intros [= <- <-]. by split.
  - destruct r as [|docno [|docdt rest]]; try discriminate.
    destruct (negb (truthy docno)); [by apply IH|].
    destruct (dict_get lookup docno) as [[|c hsn]|]; try by apply IH.
    destruct (_fetch_gst_details (c :: hsn) st) as [[[gst_rate description] source] st1] eqn:Hf.
    destruct (fetch_well_formed _ _ _ _ Hwf Hf) as [Hwf1 Hres].
    destruct (split_rate_resolved gst_rate) as (cgst & sgst & Hsplit & Hhalf).
    { destruct Hres as [[? _]|[? _]]; auto. }
    cbn beta iota. rewrite Hsplit. cbn [bind].
    intros [display [_ [[rows' st2] [Hrest [= <- <-]]]%bind_Ok]]%bind_Ok.
    destruct (IH _ _ _ Hwf1 Hrest) as [Hrows Hwf2].
    split; [|done]. constructor; [|done].
    by exists docno, docdt, (VStr (c :: hsn)), display, gst_rate, cgst, sgst, (VStr source).
Qed.

Lemma run_well_formed file summary qr rows file' :
  (∀ m, file = Stored m → well_formed m) →
  run file summary qr = Ok (rows, file') →
  Forall rate_record_ok rows ∧ ∀ m, file' = Stored m → well_formed m.
Proof.
  intros Hfile. unfold GSTFetcherAgent.run, GSTFetcherAgent.process.
  intros [[rows' st] [[lookup [_ Hrows]]%bind_Ok [= <- <-]]]%bind_Ok.
  destruct (fetch_rows_ok _ _ (initial file) _ _ (well_formed_load _ Hfile) Hrows)
    as [Hok Hwf].
  split; [done|]. by intros m [= <-].
Qed.
(** *** Completion *)

Lemma hsn_lookup_returns qr :
  Forall (λ r : row, length r = 11%nat) qr →
  ∀ acc, ∃ lookup, hsn_lookup qr acc = Ok lookup.
Proof.
  induction 1 as [|r qr Hr _ IH]; intros acc; simpl; [by exists acc|].
  do 11 (destruct r as [|? r]; [discriminate Hr|]).
  destruct r; [|discriminate Hr]. apply IH.
Qed.

Lemma desc_display_resolved description :
  description = VNone ∨ (∃ s, description = VStr s) →
  ∃ display, desc_display description = Ok display.
Proof.
  intros [->|[s ->]]; [by eexists|].
  unfold desc_display. destruct (truthy (VStr s)); by eexists.
Qed.

Lemma fetch_rows_returns lookup summary :
  Forall (λ r : row, (2 ≤ length r)%nat) summary →
  ∀ st, well_formed (hsn_cache st) →
        ∃ rows st', fetch_rows lookup summary st = Ok (rows, st').
Proof.
  induction 1 as [|r summary Hr _ IH]; intros st Hwf; simpl; [by eexists _, _|].
  destruct r as [|docno [|docdt rest]]; simpl in Hr; try lia.
  destruct (negb (truthy docno)); [by apply IH|].
  destruct (dict_get lookup docno) as [[|c hsn]|]; try by apply IH.
  destruct (_fetch_gst_details (c :: hsn) st) as [[[gst_rate description] source] st1] eqn:Hf.
  destruct (fetch_well_formed _ _ _ _ Hwf Hf) as [Hwf1 Hres].
  destruct (split_rate_resolved gst_rate) as (cgst & sgst & Hsplit & _).
  { destruct Hres as [[? _]|[? _]]; auto. }
  destruct (desc_display_resolved description) as [display Hd].
  { destruct Hres as [[_ ?]|[_ ?]]; auto. }
  destruct (IH st1 Hwf1) as (rows & st' & Hrest).
  cbn beta iota. rewrite Hsplit. cbn [bind]. rewrite Hd. cbn [bind]. rewrite Hrest.
  simpl. by eexists _, _.
Qed.

(** A run completes on sheets of the widths that the ingestion writes, when
    the cache it loaded is well formed. *)
Lemma run_returns file summary qr :
  (∀ m, file = Stored m → well_formed m) →
  Forall (λ r : row, (2 ≤ length r)%nat) summary →
  Forall (λ r : row, length r = 11%nat) qr →
  ∃ rows file', run file summary qr = Ok (rows, file').
Proof.
  intros Hfile Hsummary Hqr. unfold GSTFetcherAgent.run, GSTFetcherAgent.process.
  destruct (hsn_lookup_returns _ Hqr []) as [lookup ->]. cbn [bind].
  destruct (fetch_rows_returns lookup _ Hsummary (initial file) (well_formed_load _ Hfile))
    as (rows & st' & Hrows).
  unfold initial in Hrows. rewrite Hrows. simpl. by eexists _, _.
Qed.

End fetcher_facts.

Section fetcher_claims.
Import GSTFetcherAgent.
Local Open Scope string_scope.
Local Open Scope list_scope.
Context `{Builtins}.

Lemma reachable_well_formed file :
  reachable file → ∀ m, file = Stored m → well_formed m.
Proof.
  induction 1 as [|http_get file summary qr rows file' _ IH Hrun]; [done|].
  by destruct (run_well_formed _ _ _ _ _ _ IH Hrun).
Qed.

End fetcher_claims.

Section fetcher_tiers.
Import GSTFetcherAgent.
Local Open Scope string_scope.
Local Open Scope list_scope.
Context `{Builtins}.
Variable http_get : pystr → result (Z * list (list pystr)).
Abbreviation _fetch_gst_details := (GSTFetcherAgent._fetch_gst_details http_get).

(** A code of the fallback table is in the cache from the start. *)
Lemma load_seeds_fallback file hsn data :
  HSN_FALLBACK !! hsn = Some data →
  (∀ m, file = Stored m → m !! hsn = None) →
  _load_hsn_cache file !! hsn = Some data.
Proof.
  intros Hf Hm. destruct file as [| |m]; simpl; try done.
  rewrite lookup_union_r; [done|]. by apply Hm.
Qed.

(** C4, as the code has it.  For a code of the fallback table that the
    cache file does not hold, the first call already finds it in the cache,
    which was seeded with the fallback table when it was loaded: it returns
    the rate and the description of the fallback table with the source
    [Local Cache].  The second call returns the same.  Neither call requests
    anything from the lookup service, and the cache is as it was loaded. *)
Theorem fallback_code_served_by_cache file hsn data :
  HSN_FALLBACK !! hsn = Some data →
  (∀ m, file = Stored m → m !! hsn = None) →
  let first := _fetch_gst_details hsn (initial file) in
  let second := _fetch_gst_details hsn first.2 in
  first.1 = (get data "gst_rate", get data "description", Local_Cache)
  ∧ second.1 = first.1
  ∧ requested first.2 = []
  ∧ requested second.2 = []
  ∧ hsn_cache second.2 = _load_hsn_cache file.
Proof.
  intros Hf Hm. pose proof (load_seeds_fallback _ _ _ Hf Hm) as Hc.
  assert (_fetch_gst_details hsn (initial file)
          = ((get data "gst_rate", get data "description", Local_Cache), initial file)) as Hfirst.
  { unfold GSTFetcherAgent._fetch_gst_details. simpl. by rewrite Hc. }
  simpl. rewrite !Hfirst. simpl. by rewrite Hfirst.
Qed.

(** C10.  A rate of 0 is a failed lookup.  When the code is not in the
    cache and the lookup service answers with a row whose rate reads 0,
    nothing is written to the cache and the call returns what the fallback
    table gives: its entry for the code, or [(None, None, "Not Found")]
    without one.  In the output stage a rate of 0 gets [None] for the CGST
    and SGST rates. *)
Theorem zero_rate_is_a_miss hsn st rows description :
  hsn_cache st !! hsn = None →
  http_get (search_url hsn) = Ok (200%Z, rows) →
  scan_rows hsn rows = (VInt 0, description) →
  let fallback :=
    match HSN_FALLBACK !! hsn with
    | Some data => (get data "gst_rate", get data "description", Fallback_Dictionary)
    | None => (VNone, VNone, Not_Found)
    end in
  (_fetch_gst_details hsn st).1 = fallback
  ∧ hsn_cache (_fetch_gst_details hsn st).2 = hsn_cache st
  ∧ (HSN_FALLBACK !! hsn = None → fallback = (VNone, VNone, Not_Found))
  ∧ split_rate (VInt 0) = Ok (VNone, VNone)
  ∧ split_rate (VFloat 0) = Ok (VNone, VNone).
Proof.
  intros Hc Hget Hscan. unfold GSTFetcherAgent._fetch_gst_details.
  rewrite Hc. simpl. rewrite Hget. simpl. rewrite Hscan. simpl.
  split; [done|]. split; [done|]. split; [|done].
  by intros ->.
Qed.
End fetcher_tiers.

Section fetcher_examples.
Import GSTFetcherAgent.
Local Open Scope list_scope.

(** The first call for a code that is only in the fallback table does not
    return the source [Fallback Dictionary], whatever the builtins and the
    lookup service are. *)
Lemma fallback_code_not_from_fallback_tier :
  HSN_FALLBACK !! lit "94035000" = Some (mk_entry (VInt 18) (VStr (lit "Wooden furniture")))
  ∧ ¬ ∃ (B : Builtins) http_get,
        (@_fetch_gst_details B http_get (lit "94035000") (initial (Stored ∅))).1.2
        = Fallback_Dictionary.
Proof.
  split; [vm_compute; reflexivity|].
  intros (B & http_get & Hsrc). vm_compute in Hsrc. discriminate Hsrc.
Qed.


Lemma fallback_code_witness :
  HSN_FALLBACK !! lit "94036000" = Some (mk_entry (VInt 12) (VStr (lit "Metal furniture")))
  ∧ (@_fetch_gst_details Sample.builtins Sample.http_get (lit "94036000") (initial Absent)).1
    = (VInt 12, VStr (lit "Metal furniture"), Local_Cache)
  ∧ requested (@_fetch_gst_details Sample.builtins Sample.http_get (lit "94036000")
                 (initial Absent)).2 = [].
Proof.
  assert (HSN_FALLBACK !! lit "94036000"
          = Some (mk_entry (VInt 12) (VStr (lit "Metal furniture")))) as Hf
    by (vm_compute; reflexivity).
  assert (∀ m, Absent = Stored m → m !! lit "94036000" = None) as Hm by discriminate.
  split; [exact Hf|].
  destruct (@fallback_code_served_by_cache Sample.builtins Sample.http_get _ _ _ Hf Hm)
    as (H1 & _ & H3 & _).
  split; [exact H1 | exact H3].
Defined.


Lemma zero_rate_witness :
  hsn_cache (initial Absent) !! lit "99999999" = None
  ∧ Sample.http_get (search_url (lit "99999999"))
    = Ok (200%Z, [ [lit "HSN Code"; lit "Description"];
                   [lit "73239920"; lit "Steel utensils"; lit "GST 12%"];
                   [lit "99999999"; lit "Exempt goods"; lit "0%"] ])
  ∧ (@_fetch_gst_details Sample.builtins Sample.http_get (lit "99999999") (initial Absent)).1
    = (VNone, VNone, Not_Found)
  ∧ hsn_cache (@_fetch_gst_details Sample.builtins Sample.http_get (lit "99999999")
                 (initial Absent)).2
    = hsn_cache (initial Absent).
Proof.
  assert (hsn_cache (initial Absent) !! lit "99999999" = None) as Hc
    by (vm_compute; reflexivity).
  split; [exact Hc|]. split; [reflexivity|].
  destruct (@zero_rate_is_a_miss Sample.builtins Sample.http_get (lit "99999999")
              (initial Absent) _ (VStr (lit "Exempt goods")) Hc eq_refl)
    as (H1 & H2 & H3 & _).
  { vm_compute. reflexivity. }
  split; [|exact H2]. rewrite H1. apply H3. vm_compute. reflexivity.
Defined.


End fetcher_examples.

(** ** ReconciliationEngine ([ReviewerAgent]) *)

Section reviewer_facts.
Import ReviewerAgent.
Local Open Scope list_scope.
Context `{Builtins}.

(** The check mark is given exactly when both amounts are there and agree
    once rounded. *)
Lemma match_flag_true computed amount_f :
  match_flag computed amount_f = true
  ↔ ∃ c a, computed = Some c ∧ amount_f = Some a
           ∧ PrimFloat.eqb (round2 c) (round2 a) = true.
Proof.
  split.
  - destruct computed as [c|], amount_f as [a|]; simpl; try discriminate.
    intros Heq. by exists c, a.
  - by intros (c & a & -> & -> & Heq).
Qed.

(** C3, as the code has it.  A row of [Line_Items] with a document number
    gets a row in [LineItem_Errors] exactly when it is not the case that the
    computed amount (quantity times rate) and the stored amount are both
    there and equal once rounded to two decimals: when they differ, and also
    when either of them is absent.  The error row carries the computed
    amount.  Quantity 2 at rate 150.00 with amount 300.00 gets no error row;
    with amount 299.50 it gets one, whose computed amount is 300.00. *)
Theorem line_item_flagged items totals errors totals' :
  line_item_check items totals = Ok (errors, totals') →
  (∀ e, e ∈ errors ↔
     ∃ docno sno desc hsn qty unit rate amount extra,
       (docno :: sno :: desc :: hsn :: qty :: unit :: rate :: amount :: extra) ∈ items
       ∧ truthy docno = true
       ∧ ¬ (∃ c a, computed_amount qty rate = Some c ∧ stored_amount amount = Some a
                   ∧ PrimFloat.eqb (round2 c) (round2 a) = true)
       ∧ e = [docno; sno; desc; qty; rate; amount;
              opt_float (computed_amount qty rate); VStr cross_mark])
  ∧ (∀ docno sno desc hsn unit,
       truthy docno = true →
       line_item_check
         [[docno; sno; desc; hsn; VFloat 2; unit; VFloat 150; VFloat 300]] []
       = Ok ([], [(docno, 300%float)])
       ∧ line_item_check
           [[docno; sno; desc; hsn; VFloat 2; unit; VFloat 150; VFloat 299.5]] []
         = Ok ([[docno; sno; desc; VFloat 2; VFloat 150; VFloat 299.5; VFloat 300;
                 VStr cross_mark]], [(docno, 299.5%float)])).
Proof.
  intros Hrun. split.
  - revert totals errors totals' Hrun.
    induction items as [|r items IH]; intros totals errors totals'; simpl.
    { intros [= <- <-] e. split; [by intros ?%elem_of_nil|].
      by intros (? & ? & ? & ? & ? & ? & ? & ? & ? & ?%elem_of_nil & _). }
    destruct r as [|docno [|sno [|desc [|hsn [|qty [|unit [|rate [|amount extra]]]]]]]];
      try discriminate.
    destruct (truthy docno) eqn:Hd; simpl.
    + intros [[errs totals1] [Hrest [= <- <-]]]%bind_Ok e.
      specialize (IH _ _ _ Hrest e).
      rewrite elem_of_app, IH. split.
      * intros [He|(d & s & ds & h & q & u & r & a & x & Hin & Hrow)].
        -- destruct (match_flag _ _) eqn:Hm; [by apply elem_of_nil in He|].
           apply list_elem_of_singleton in He as ->.
           exists docno, sno, desc, hsn, qty, unit, rate, amount, extra.
           split; [by left|]. split; [done|]. split; [|done].
           intros Hok%match_flag_true. congruence.
        -- exists d, s, ds, h, q, u, r, a, x. split; [by right|done].
      * intros (d & s & ds & h & q & u & r & a & x & Hin & Ht & Hno & ->).
        apply elem_of_cons in Hin as [[= -> -> -> -> -> -> -> -> ->]|Hin].
        -- left. destruct (match_flag _ _) eqn:Hm.
           ++ by apply match_flag_true in Hm.
           ++ by left.
        -- right. by exists d, s, ds, h, q, u, r, a, x.
    + intros Hrest e. rewrite (IH _ _ _ Hrest e). split.
      * intros (d & s & ds & h & q & u & r & a & x & Hin & Hrow).
        exists d, s, ds, h, q, u, r, a, x. split; [by right|done].
      * intros (d & s & ds & h & q & u & r & a & x & Hin & Ht & Hrow).
        exists d, s, ds, h, q, u, r, a, x. split; [|done].
        apply elem_of_cons in Hin as [[= -> -> -> -> -> -> -> -> ->]|Hin]; [congruence|done].
  - intros docno sno desc hsn unit Hd. simpl. rewrite Hd. simpl. split; reflexivity.
Qed.

Lemma add_total_keys line_totals docno x d t :
  (d, t) ∈ add_total line_totals docno x →
  d = docno ∨ ∃ t0, (d, t0) ∈ line_totals.
Proof.
  induction line_totals as [|[k t1] rest IH]; simpl.
  - intros [= -> _]%list_elem_of_singleton. by left.
  - destruct (py_eqb k docno).
    + intros [[= -> _]|Hin]%elem_of_cons; right.
      * exists t1. by left.
      * exists t. by right.
    + intros [[= -> ->]|Hin]%elem_of_cons.
      * right. exists t1. by left.
      * destruct (IH Hin) as [->|(t0 & Hin')]; [by left|].
        right. exists t0. by right.
Qed.

(** The documents of [line_totals] are those of the line item rows. *)
Lemma line_totals_keys items :
  ∀ totals errors totals' d t,
    line_item_check items totals = Ok (errors, totals') →
    (d, t) ∈ totals' →
    (∃ t0, (d, t0) ∈ totals)
    ∨ ∃ cells, (d :: cells) ∈ items ∧ truthy d = true.
Proof.
  induction items as [|r items IH]; intros totals errors totals' d t; simpl.
  { intros [= _ <-] Hin. left. by exists t. }
  destruct r as [|docno [|sno [|desc [|hsn [|qty [|unit [|rate [|amount extra]]]]]]]];
    try discriminate.
  destruct (truthy docno) eqn:Hd; simpl.
  - intros [[errs totals1] [Hrest [= _ <-]]]%bind_Ok Hin.
    destruct (IH _ _ _ _ _ Hrest Hin) as [(t0 & Hin0)|(cells & Hc & Ht)].
    + apply add_total_keys in Hin0 as [->|Hin0]; [|by left].
      right. eexists. split; [by left|done].
    + right. exists cells. split; [by right|done].
  - intros Hrest Hin.
    destruct (IH _ _ _ _ _ Hrest Hin) as [?|(cells & Hc & Ht)]; [by left|].
    right. exists cells. split; [by right|done].
Qed.
Lemma add_total_entry line_totals docno x :
  ∃ k t, (k, t) ∈ add_total line_totals docno x ∧ (k = docno ∨ py_eqb k docno = true).
Proof.
  induction line_totals as [|[k t1] rest IH]; simpl.
  - eexists _, _. split; [by left|by left].
  - destruct (py_eqb k docno) eqn:Hk.
    + eexists _, _. split; [by left|by right].
    + destruct IH as (k' & t & Hin & Hk'). exists k', t. split; [by right|done].
Qed.

Lemma add_total_keeps line_totals docno x k t :
  (k, t) ∈ line_totals → ∃ t', (k, t') ∈ add_total line_totals docno x.
Proof.
  induction line_totals as [|[k1 t1] rest IH]; simpl; [by intros ?%elem_of_nil|].
  intros [[= -> ->]|Hin]%elem_of_cons.
  - destruct (py_eqb k1 docno); eexists; by left.
  - destruct (py_eqb k1 docno).
    + exists t. by right.
    + destruct (IH Hin) as (t' & Hin'). exists t'. by right.
Qed.

Lemma line_totals_keeps items :
  ∀ totals errors totals' k t,
    line_item_check items totals = Ok (errors, totals') →
    (k, t) ∈ totals → ∃ t', (k, t') ∈ totals'.
Proof.
  induction items as [|r items IH]; intros totals errors totals' k t; simpl.
  { intros [= _ <-] Hin. by exists t. }
  destruct r as [|docno [|sno [|desc [|hsn [|qty [|unit [|rate [|amount extra]]]]]]]];
    try discriminate.
  destruct (truthy docno); simpl.
  - intros [[errs totals1] [Hrest [= _ <-]]]%bind_Ok Hin.
    destruct (add_total_keeps _ docno
                (match stored_amount amount with
                 | Some a => Some a
                 | None => computed_amount qty rate
                 end) _ _ Hin) as (t' & Hin').
    by eapply IH.
  - intros Hrest Hin. by eapply IH.
Qed.

(** Every line item row with a document number has its document in
    [line_totals], under the key that was seen first. *)
Lemma line_totals_complete items :
  ∀ totals errors totals' d cells,
    line_item_check items totals = Ok (errors, totals') →
    (d :: cells) ∈ items → truthy d = true →
    ∃ k t, (k, t) ∈ totals' ∧ (k = d ∨ py_eqb k d = true).
Proof.
  induction items as [|r items IH]; intros totals errors totals' d cells; simpl.
  { by intros _ ?%elem_of_nil. }
  destruct r as [|docno [|sno [|desc [|hsn [|qty [|unit [|rate [|amount extra]]]]]]]];
    try discriminate.
  destruct (truthy docno) eqn:Hd; simpl.
  - intros [[errs totals1] [Hrest [= _ <-]]]%bind_Ok [[= -> _]|Hin]%elem_of_cons Ht.
    + destruct (add_total_entry totals docno
                  (match stored_amount amount with
                   | Some a => Some a
                   | None => computed_amount qty rate
                   end)) as (k & t & Hin & Hk).
      destruct (line_totals_keeps _ _ _ _ _ _ Hrest Hin) as (t' & Hin').
      by exists k, t'.
    + by eapply IH.
  - intros Hrest [[= -> _]|Hin]%elem_of_cons Ht; [congruence|].
    by eapply IH.
Qed.
Lemma compare_rows gl sl line_totals row :
  row ∈ compare gl sl line_totals ↔
  ∃ docno taxable info cgst sgst qr_total,
    (docno, taxable) ∈ line_totals
    ∧ dict_get gl docno = Some info
    ∧ CGST info = Some cgst ∧ SGST info = Some sgst
    ∧ dict_get sl docno = Some (Some qr_total)
    ∧ row = review_row docno taxable (GST info) cgst sgst qr_total.
Proof.
  induction line_totals as [|[docno taxable] rest IH]; simpl.
  { split; [by intros ?%elem_of_nil|].
    by intros (? & ? & ? & ? & ? & ? & ?%elem_of_nil & _). }
  rewrite elem_of_app, IH. split.
  - intros [Hrow|(d & t & i & c & s & q & Hin & Hrest)].
    + unfold compare_one in Hrow.
      destruct (dict_get gl docno) as [info|] eqn:Hg; [|by apply elem_of_nil in Hrow].
      destruct (dict_get sl docno) as [[qr_total|]|] eqn:Hs; simpl in Hrow;
        try by apply elem_of_nil in Hrow.
      destruct (CGST info) as [cgst|] eqn:Hc; [|by apply elem_of_nil in Hrow].
      destruct (SGST info) as [sgst|] eqn:Hsg; [|by apply elem_of_nil in Hrow].
      apply list_elem_of_singleton in Hrow as ->.
      exists docno, taxable, info, cgst, sgst, qr_total. split; [by left|done].
    + exists d, t, i, c, s, q. split; [by right|done].
  - intros (d & t & i & c & s & q & Hin & Hg & Hc & Hsg & Hs & ->).
    apply elem_of_cons in Hin as [[= -> ->]|Hin].
    + left. unfold compare_one. rewrite Hg, Hs. simpl. rewrite Hc, Hsg. by left.
    + right. by exists d, t, i, c, s, q.
Qed.

(** C2, as the code has it.  [Review_Report] has a row exactly for every
    document of [line_totals] that has CGST and SGST rates in [GST_Fetch]
    and a declared total in [Invoice_Summary]; the documents of
    [line_totals] are those with a row in [Line_Items] that has a document
    number.  With expected total
    [taxable + taxable * (CGST / 100) + taxable * (SGST / 100)], the row
    holds the taxable amount, the two tax amounts and the expected total
    rounded to two decimals, the declared total, the difference between the
    expected and the declared total rounded to two decimals, and the check
    mark exactly when the absolute value of that difference is below 0.01.
    A taxable amount of 1000 at 9 and 9 percent gives 1180.00; against a
    declared 1180.00 the difference is 0.00 and the row passes, against
    1175.00 it is 5.00 and the row fails. *)
Theorem review_records items header summary gst review errors :
  process items header summary gst = Ok (review, errors) →
  (∃ line_totals gl sl,
     line_item_check items [] = Ok (errors, line_totals)
     ∧ gst_lookup gst [] = Ok gl
     ∧ summary_lookup (_find_totinv_column header) summary [] = Ok sl
     ∧ (∀ docno taxable, (docno, taxable) ∈ line_totals →
          ∃ cells, (docno :: cells) ∈ items ∧ truthy docno = true)
     ∧ (∀ d cells, (d :: cells) ∈ items → truthy d = true →
          ∃ docno taxable, (docno, taxable) ∈ line_totals
                           ∧ (docno = d ∨ py_eqb docno d = true))
     ∧ ∀ row, row ∈ review ↔
         ∃ docno taxable info cgst sgst qr_total,
           (docno, taxable) ∈ line_totals
           ∧ dict_get gl docno = Some info
           ∧ CGST info = Some cgst ∧ SGST info = Some sgst
           ∧ dict_get sl docno = Some (Some qr_total)
           ∧ let expected_total :=
               (taxable + taxable * (cgst / 100) + taxable * (sgst / 100))%float in
             let diff := round2 (expected_total - qr_total) in
             row = [ docno; VFloat (round2 taxable); opt_float (GST info);
                     VFloat (round2 (taxable * (cgst / 100)));
                     VFloat (round2 (taxable * (sgst / 100)));
                     VFloat (round2 expected_total); VFloat qr_total; VFloat diff;
                     VStr (if PrimFloat.ltb (abs diff) 0.01 then check_mark else cross_mark) ])
  ∧ (∀ docno gst_rate,
       review_row docno 1000 gst_rate 9 9 1180
       = [ docno; VFloat 1000; opt_float gst_rate; VFloat 90; VFloat 90;
           VFloat 1180; VFloat 1180; VFloat 0; VStr check_mark ]
       ∧ review_row docno 1000 gst_rate 9 9 1175
         = [ docno; VFloat 1000; opt_float gst_rate; VFloat 90; VFloat 90;
             VFloat 1180; VFloat 1175; VFloat 5; VStr cross_mark ]).
Proof.
  unfold ReviewerAgent.process.
  intros [[errs line_totals] [Hitems [gl [Hgst [sl [Hsum [= <- <-]]]%bind_Ok]]%bind_Ok]]%bind_Ok.
  split; [|intros docno gst_rate; split; reflexivity].
  exists line_totals, gl, sl. split; [done|]. split; [done|]. split; [done|]. split.
  - intros docno taxable Hin.
    destruct (line_totals_keys _ _ _ _ _ _ Hitems Hin) as [(t0 & Hnil)|Hrow]; [|done].
    by apply elem_of_nil in Hnil.
  - split; [|intros row; apply compare_rows].
    intros d cells Hin Ht. by eapply line_totals_complete.
Qed.
(** *** Completion *)

Lemma line_item_check_returns items :
  Forall (λ r : row, (8 ≤ length r)%nat) items →
  ∀ totals, ∃ errors totals', line_item_check items totals = Ok (errors, totals').
Proof.
  induction 1 as [|r items Hr _ IH]; intros totals; simpl; [by eexists _, _|].
  destruct r as [|docno [|sno [|desc [|hsn [|qty [|unit [|rate [|amount extra]]]]]]]];
    simpl in Hr; try lia.
  destruct (negb (truthy docno)); [apply IH|].
  destruct (IH (add_total totals docno
                  (match stored_amount amount with
                   | Some a => Some a
                   | None => computed_amount qty rate
                   end))) as (errs & totals' & ->).
  simpl. by eexists _, _.
Qed.

(** The rates that the resolver writes are read back without raising. *)
Lemma rate_cell_percentage rate :
  (1 ≤ rate ≤ 99)%Z → ∃ f, rate_cell (VInt rate) = Ok (Some f).
Proof.
  intros Hr.
  assert (forallb (λ r, match rate_cell (VInt r) with Ok (Some _) => true | _ => false end)
            (seqZ 1 99) = true) as Hall by (vm_compute; reflexivity).
  rewrite forallb_forall in Hall.
  assert (In rate (seqZ 1 99)) as Hin by (apply list_elem_of_In, elem_of_seqZ; lia).
  specialize (Hall rate Hin).
  destruct (rate_cell (VInt rate)) as [[f|]|]; try discriminate Hall. by exists f.
Qed.

Lemma gst_lookup_returns gst :
  Forall GSTFetcherAgent.rate_record_ok gst →
  ∀ acc, ∃ gl, gst_lookup gst acc = Ok gl.
Proof.
  induction 1 as [|r gst Hr _ IH]; intros acc; [by exists acc|].
  destruct Hr as (docno & docdt & hsn & display & gst_rate & cgst & sgst & source & -> & Hok).
  cbn [gst_lookup].
  destruct (truthy docno); [|apply IH].
  destruct Hok as [(-> & -> & ->)|(rate & half & -> & Hrange & -> & -> & _)].
  - cbn [rate_cell bind]. apply IH.
  - destruct (rate_cell_percentage rate Hrange) as [f ->].
    cbn [rate_cell py_float bind]. apply IH.
Qed.

(** The reconciliation completes on line item rows of the width that the
    ingestion writes and on the rows that the resolver writes, when the
    declared totals can be read. *)
Lemma review_returns items header summary gst sl :
  Forall (λ r : row, (8 ≤ length r)%nat) items →
  Forall GSTFetcherAgent.rate_record_ok gst →
  summary_lookup (_find_totinv_column header) summary [] = Ok sl →
  ∃ review errors, process items header summary gst = Ok (review, errors).
Proof.
  intros Hitems Hgst Hsl. unfold ReviewerAgent.process.
  destruct (line_item_check_returns _ Hitems []) as (errors & line_totals & ->).
  destruct (gst_lookup_returns _ Hgst []) as (gl & ->).
  rewrite Hsl. simpl. by eexists _, _.
Qed.

End reviewer_facts.

Section reviewer_examples.
Import ReviewerAgent.
Local Open Scope list_scope.

(** A line item without a stored amount gets an error row. *)
Lemma absent_amount_is_flagged :
  @stored_amount Sample.builtins VNone = None
  ∧ @line_item_check Sample.builtins
      [Sample.item_of "INV-3" 1 "Salt" 99999999 (VFloat 1) (VFloat 100) VNone] []
    = Ok ([[Sample.str "INV-3"; VInt 1; Sample.str "Salt"; VFloat 1; VFloat 100; VNone;
            VFloat 100; VStr cross_mark]],
          [(Sample.str "INV-3", 100%float)])
  ∧ ¬ ∃ (B : Builtins) totals,
        @line_item_check B
          [Sample.item_of "INV-3" 1 "Salt" 99999999 (VFloat 1) (VFloat 100) VNone] []
        = Ok ([], totals).
Proof.
  split; [reflexivity|]. split; [vm_compute; reflexivity|].
  intros (B & totals & Hrun). vm_compute in Hrun. discriminate Hrun.
Qed.

Lemma line_item_flagged_witness :
  @line_item_check Sample.builtins Sample.items_sheet []
  = Ok (Sample.error_sheet,
        [(Sample.str "INV-1", 1000%float); (Sample.str "INV-2", 299.5%float);
         (Sample.str "INV-3", 100%float); (Sample.str "INV-4", 1000%float)])
  ∧ ∀ e, e ∈ Sample.error_sheet →
      ∃ docno sno desc hsn qty unit rate amount extra,
        (docno :: sno :: desc :: hsn :: qty :: unit :: rate :: amount :: extra)
          ∈ Sample.items_sheet
        ∧ e = [docno; sno; desc; qty; rate; amount;
               opt_float (@computed_amount Sample.builtins qty rate); VStr cross_mark].
Proof.
  assert (@line_item_check Sample.builtins Sample.items_sheet []
          = Ok (Sample.error_sheet,
                [(Sample.str "INV-1", 1000%float); (Sample.str "INV-2", 299.5%float);
                 (Sample.str "INV-3", 100%float); (Sample.str "INV-4", 1000%float)]))
    as Hrun by (vm_compute; reflexivity).
  split; [exact Hrun|].
  intros e He.
  destruct (proj1 (proj1 (@line_item_flagged Sample.builtins _ _ _ _ Hrun) e) He)
    as (docno & sno & desc & hsn & qty & unit & rate & amount & extra & Hin & _ & _ & Hrow).
  exists docno, sno, desc, hsn, qty, unit, rate, amount, extra.
  split; [exact Hin | exact Hrow].
Defined.

(** A document with a resolved rate and a declared total, but without any
    line item, gets no row in [Review_Report]. *)
Lemma document_without_items_not_reviewed :
  (∃ gl info,
     @gst_lookup Sample.builtins Sample.gst_sheet [] = Ok gl
     ∧ dict_get gl (Sample.str "INV-1") = Some info
     ∧ CGST info = Some 9%float ∧ SGST info = Some 9%float)
  ∧ (∃ sl,
       @summary_lookup Sample.builtins
         (@_find_totinv_column Sample.builtins LoggerAgent.Invoice_Summary_header)
         Sample.summary_sheet [] = Ok sl
       ∧ dict_get sl (Sample.str "INV-1") = Some (Some 1180%float))
  ∧ Sample.review [] = Ok ([], []).
Proof.
  split; [|split].
  - eexists _, _. split; [vm_compute; reflexivity|]. split; [vm_compute; reflexivity|].
    split; reflexivity.
  - eexists. split; [vm_compute; reflexivity|]. vm_compute. reflexivity.
  - vm_compute. reflexivity.
Qed.

Lemma review_records_witness :
  Sample.review Sample.items_sheet = Ok (Sample.review_sheet, Sample.error_sheet)
  ∧ ∃ line_totals gl sl,
      @line_item_check Sample.builtins Sample.items_sheet [] = Ok (Sample.error_sheet, line_totals)
      ∧ @gst_lookup Sample.builtins Sample.gst_sheet [] = Ok gl
      ∧ @summary_lookup Sample.builtins
          (@_find_totinv_column Sample.builtins LoggerAgent.Invoice_Summary_header)
          Sample.summary_sheet [] = Ok sl
      ∧ [ Sample.str "INV-1"; VFloat 1000; VFloat 18; VFloat 90; VFloat 90;
          VFloat 1180; VFloat 1180; VFloat 0; VStr check_mark ] ∈ Sample.review_sheet.
Proof.
  assert (Sample.review Sample.items_sheet = Ok (Sample.review_sheet, Sample.error_sheet))
    as Hrun by (vm_compute; reflexivity).
  split; [exact Hrun|].
  destruct (proj1 (@review_records Sample.builtins _ _ _ _ _ _ Hrun))
    as (line_totals & gl & sl & H1 & H2 & H3 & _).
  exists line_totals, gl, sl. split; [exact H1|]. split; [exact H2|]. split; [exact H3|].
  vm_compute. left.
Defined.

End reviewer_examples.

(** * Further properties *)

(** ** Ingestion: segmentation, parsing and the rows written *)

Section logger_segmentation.
Import LoggerAgent.
Local Open Scope list_scope.

(** The lines that [str.splitlines] returns hold no line boundary. *)
Lemma splitlines_from_no_break s :
  ∀ cur cr,
    Forall (λ c, is_linebreak c = false) cur →
    Forall (Forall (λ c, is_linebreak c = false)) (splitlines_from cur cr s).
Proof.
  induction s as [|c s IH]; intros cur cr Hcur; simpl.
  - destruct cur; [constructor|]. constructor; [|constructor].
    by apply Forall_reverse.
  - destruct (cr && (c =? 10)%N); [by apply IH|].
    destruct (is_linebreak c) eqn:Hc.
    + constructor; [by apply Forall_reverse|]. apply IH. constructor.
    + apply IH. by constructor.
Qed.

Lemma splitlines_from_line l :
  Forall (λ c, is_linebreak c = false) l →
  ∀ cur rest, splitlines_from cur false (l ++ 10%N :: rest)
              = (reverse cur ++ l) :: splitlines_from [] false rest.
Proof.
  induction 1 as [|c l Hc _ IH]; intros cur rest; simpl.
  - by rewrite app_nil_r.
  - rewrite Hc, IH, reverse_cons, <- app_assoc. done.
Qed.

Lemma splitlines_from_last l :
  Forall (λ c, is_linebreak c = false) l →
  ∀ cur, cur ++ l ≠ [] → splitlines_from cur false l = [reverse cur ++ l].
Proof.
  induction 1 as [|c l Hc _ IH]; intros cur Hne; simpl.
  - rewrite app_nil_r in *. by destruct cur.
  - rewrite Hc, IH, reverse_cons, <- app_assoc; [done|]. by destruct l.
Qed.

(** Joining lines with line feeds and splitting the text again gives the
    lines back, when the last line is not empty. *)
Lemma splitlines_join (ls : list pystr) :
  Forall (Forall (λ c, is_linebreak c = false)) ls →
  last ls ≠ Some [] →
  splitlines (join [10%N] ls) = ls.
Proof.
  unfold splitlines.
  induction 1 as [|p ls Hp Hls IH]; intros Hlast; [done|].
  destruct ls as [|q ls].
  - simpl. rewrite splitlines_from_last; [done|done|].
    simpl. intros ->. by apply Hlast.
  - change (join [10%N] (p :: q :: ls)) with (p ++ 10%N :: join [10%N] (q :: ls)).
    rewrite splitlines_from_line by done. simpl reverse. rewrite app_nil_l.
    f_equal. apply IH. by rewrite last_cons_cons in Hlast.
Qed.

Lemma split_lines_partition (lines : list pystr) :
  ∀ current : list pystr,
    Forall (Forall (λ c, is_linebreak c = false)) current →
    Forall (Forall (λ c, is_linebreak c = false)) lines →
    Forall (λ l, is_validation_line l = false) current →
    ∃ tail,
      current ++ lines = (split_lines current lines ≫= splitlines) ++ tail
      ∧ Forall (λ l, is_validation_line l = false) tail
      ∧ Forall (λ block, ∃ body line,
                  splitlines block = body ++ [line]
                  ∧ Forall (λ l, is_validation_line l = false) body
                  ∧ is_validation_line line = true) (split_lines current lines).
Proof.
  induction lines as [|l lines IH]; intros current Hcur Hlines Hnv; simpl.
  - exists current. by rewrite app_nil_r.
  - apply Forall_cons in Hlines as [Hl Hlines].
    destruct (is_validation_line l) eqn:Hv.
    + destruct (IH [] ltac:(constructor) Hlines ltac:(constructor))
        as (tail & Heq & Htail & Hblocks).
      assert (splitlines (join [10%N] (current ++ [l])) = current ++ [l]) as Hsplit.
      { apply splitlines_join.
        - apply Forall_app. split; [done|]. by constructor.
        - rewrite last_snoc. intros [= ->]. done. }
      exists tail. split; [|split; [done|]].
      * simpl. rewrite Hsplit, <- !app_assoc. simpl. f_equal. f_equal. exact Heq.
      * constructor; [|done]. by exists current, l.
    + destruct (IH (current ++ [l])) as (tail & Heq & Htail & Hblocks).
      * apply Forall_app. split; [done|]. by constructor.
      * done.
      * apply Forall_app. split; [done|]. by constructor.
      * exists tail. rewrite <- app_assoc in Heq. done.
Qed.

Lemma split_lines_length lines :
  ∀ current,
    length (split_lines current lines)
    = length (filter (λ l, is_validation_line l = true) lines).
Proof.
  induction lines as [|l lines IH]; intros current; simpl; [done|].
  rewrite filter_cons. destruct (is_validation_line l) eqn:Hv.
  - rewrite decide_True by done. simpl. by rewrite IH.
  - rewrite decide_False by done. by rewrite IH.
Qed.

(** X1.  [_split_invoices] loses no line and repeats none: the lines of the
    blocks, read again with [splitlines] as [_parse_invoice] does and taken
    in order, are the lines of the text up to its last validation-flag
    line; what follows holds no validation-flag line.  Every block ends
    with a validation-flag line and holds no other, and there are as many
    blocks as validation-flag lines. *)
Theorem blocks_partition_lines text :
  ∃ tail,
    splitlines text = (_split_invoices text ≫= splitlines) ++ tail
    ∧ Forall (λ l, is_validation_line l = false) tail
    ∧ Forall (λ block, ∃ body line,
                splitlines block = body ++ [line]
                ∧ Forall (λ l, is_validation_line l = false) body
                ∧ is_validation_line line = true) (_split_invoices text)
    ∧ length (_split_invoices text)
      = length (filter (λ l, is_validation_line l = true) (splitlines text)).
Proof.
  unfold _split_invoices.
  destruct (split_lines_partition (splitlines text) [])
    as (tail & Heq & Htail & Hblocks).
  - constructor.
  - apply splitlines_from_no_break. constructor.
  - constructor.
  - exists tail. split; [exact Heq|]. split; [done|]. split; [exact Hblocks|].
    apply split_lines_length.
Qed.

End logger_segmentation.

Section logger_rows.
Import LoggerAgent.
Local Open Scope string_scope.
Local Open Scope list_scope.
Context `{Builtins}.
Variable re_search : pystr → bool → pystr → option (list (option pystr)).
Variable qr_data : pystr → result (gmap string value).
Variable json_dumps : gmap string value → pystr.
Variable line_items : pystr → list (gmap string value).

Abbreviation process := (LoggerAgent.process re_search qr_data json_dumps line_items).

Lemma truthy_get_nonempty (d : gmap string value) k :
  truthy (get d k) = true → nonempty d = true.
Proof.
  unfold get, nonempty. destruct (d !! k) as [v|] eqn:Hk; [|done]. intros _.
  apply negb_true_iff, Nat.eqb_neq. intros Hsize%map_size_empty_iff.
  by rewrite Hsize, lookup_empty in Hk.
Qed.

(** X2.  Every document that a run of [process] inserts comes with its
    payload metadata: the run appends as many rows to [QR_Meta] as to
    [Invoice_Summary], in the same order, and the two rows of a document
    hold the same document number and the same seller id.  The new rows
    have 18 and 11 cells. *)
Theorem payload_row_per_document text wb wb' :
  process text wb = Ok wb' →
  ∃ docs qrs,
    Invoice_Summary wb' = Invoice_Summary wb ++ docs
    ∧ QR_Meta wb' = QR_Meta wb ++ qrs
    ∧ Forall2 (λ d q : row, length d = 18%nat ∧ length q = 11%nat
                            ∧ q !! 0%nat = d !! 0%nat ∧ q !! 1%nat = d !! 2%nat) docs qrs.
Proof.
  unfold LoggerAgent.process.
  intros [K [_ Hrun]]%bind_Ok.
  destruct (ingest_logged _ _ _ _ _ _ _ _ Hrun) as (ps & -> & _ & Hps & _).
  destruct (log_all_sheets ps wb) as (-> & _ & ->).
  eexists _, _. split; [done|]. split; [done|].
  clear Hrun. induction Hps as [|p ps Hp _ IH]; [constructor|].
  destruct Hp as ([Hd Hs] & _ & b & _ & Hb).
  destruct p as [[summary items] qr_meta].
  destruct (parse_identity _ _ _ _ _ _ _ _ Hb) as [Hd' Hs'].
  simpl in *. rewrite (truthy_get_nonempty qr_meta "DocNo") by (by rewrite <- Hd').
  simpl. constructor; [|exact IH].
  unfold summary_row, qr_row. simpl. rewrite Hd', Hs'. done.
Qed.

End logger_rows.

Section logger_items.
Import LoggerAgent.
Local Open Scope string_scope.
Local Open Scope list_scope.
Context `{Builtins}.

Lemma digits_fold s :
  forallb is_digit s = true →
  ∀ a, (0 ≤ a)%Z →
    ∃ z, foldl (λ acc c,
                  bind acc (λ n,
                  match digit_value c with
                  | Some d => Ok (10 * n + Z.of_N d)%Z
                  | None => Raise ValueError
                  end)) (Ok a) s = Ok z
         ∧ (a * 10 ^ Z.of_nat (length s) ≤ z < (a + 1) * 10 ^ Z.of_nat (length s))%Z.
Proof.
  induction s as [|c s IH]; intros Hs a Ha.
  - exists a. split; [done|]. simpl. lia.
  - simpl in Hs. apply andb_true_iff in Hs as [Hc Hs].
    unfold is_digit in Hc. destruct (digit_value c) as [d|] eqn:Hd; [|done].
    apply digit_value_range in Hd as Hlt.
    destruct (IH Hs (10 * a + Z.of_N d)%Z ltac:(lia)) as (z & Hz & Hr).
    exists z. cbn [foldl bind]. rewrite Hd. split; [exact Hz|].
    rewrite length_cons, Nat2Z.inj_succ, Z.pow_succ_r by lia.
    assert (0 < 10 ^ Z.of_nat (length s))%Z by (apply Z.pow_pos_nonneg; lia).
    nia.
Qed.

Lemma int_of_digits_range s :
  forallb is_digit s = true → (length s ≤ 4300)%nat →
  ∃ z, int_of_digits s = Ok z ∧ (0 ≤ z < 10 ^ Z.of_nat (length s))%Z.
Proof.
  intros Hs Hlen. unfold int_of_digits.
  destruct (4300 <? length s)%nat eqn:Hl; [apply Nat.ltb_lt in Hl; lia|].
  destruct (digits_fold s Hs 0%Z ltac:(lia)) as (z & Hz & Hr).
  exists z. split; [done|]. lia.
Qed.

Lemma int_of_digits_nonneg s z : int_of_digits s = Ok z → (0 ≤ z)%Z.
Proof.
  unfold int_of_digits. destruct (4300 <? length s)%nat; [done|].
  assert (∀ a, (0 ≤ a)%Z →
            foldl (λ acc c,
                     bind acc (λ n,
                     match digit_value c with
                     | Some d => Ok (10 * n + Z.of_N d)%Z
                     | None => Raise ValueError
                     end)) (Ok a) s = Ok z → (0 ≤ z)%Z) as Hgen.
  { induction s as [|c s IH]; intros a Ha; simpl; [by intros [= <-]|].
    destruct (digit_value c) as [d|].
    - apply IH. lia.
    - clear IH. induction s as [|c' s IH]; simpl; [done|exact IH]. }
  apply Hgen. lia.
Qed.

Lemma span_prefix p s : Forall (λ c, p c = true) (span p s).1.
Proof.
  induction s as [|c s IH]; simpl; [constructor|].
  destruct (p c) eqn:Hc; [|constructor].
  destruct (span p s) as [a b]. simpl in *. by constructor.
Qed.

Lemma span_startswith q word s :
  forallb q word = true → startswith word s = true →
  startswith word (span q s).1 = true.
Proof.
  revert s. induction word as [|a l IH]; intros s Hq Hs; [done|].
  destruct s as [|b s]; [done|]. simpl in *.
  apply andb_true_iff in Hq as [Ha Hl], Hs as [Hab%N.eqb_eq Hs]. subst b.
  rewrite Ha. specialize (IH s Hl Hs).
  destruct (span q s) as [x y]. simpl in *. by rewrite N.eqb_refl.
Qed.

Lemma unit_word_span s :
  is_unit_word s = true → is_unit_word (span (λ c, negb (is_space c)) s).1 = true.
Proof.
  unfold is_unit_word. rewrite !orb_true_iff.
  intros [[[Hs|Hs]|Hs]|Hs];
    [left; left; left|left; left; right|left; right|right];
    (apply span_startswith; [vm_compute; reflexivity|exact Hs]).
Qed.

Lemma clean_num_str_float s v :
  s ≠ [] → clean_num_str s = Ok v → ∃ f, v = VFloat f.
Proof.
  intros Hs. unfold clean_num_str. destruct s; [done|].
  intros [f [_ [= <-]]]%bind_Ok. by exists f.
Qed.

Lemma item_lines_nonempty text l : l ∈ item_lines text → l ≠ [].
Proof. unfold item_lines. by intros [? _]%list_elem_of_filter. Qed.

Lemma py_index_elem {A} (l : list A) i a : py_index l i = Ok a → a ∈ l.
Proof.
  unfold py_index. destruct (_ <? 0)%Z; [done|].
  destruct (l !! _) eqn:Hl; [|done]. intros [= <-]. by eapply list_elem_of_lookup_2.
Qed.

Lemma py_index_nat {A} (l : list A) (i : nat) a :
  l !! i = Some a → py_index l (Z.of_nat i) = Ok a.
Proof.
  intros Hl. unfold py_index.
  destruct (Z.of_nat i <? 0)%Z eqn:Hi; [apply Z.ltb_lt in Hi; lia|].
  rewrite Hi, Nat2Z.id, Hl. done.
Qed.

(** A negative index counts from the end of the list. *)
Lemma py_index_negative {A} (l : list A) (k : nat) a :
  (0 < k)%nat → py_index l (- Z.of_nat k) = Ok a →
  (k ≤ length l)%nat ∧ l !! (length l - k)%nat = Some a.
Proof.
  intros Hk. unfold py_index.
  destruct (- Z.of_nat k <? 0)%Z eqn:Hneg; [|apply Z.ltb_ge in Hneg; lia].
  destruct (Z.of_nat (length l) + - Z.of_nat k <? 0)%Z eqn:Hj; [done|].
  apply Z.ltb_ge in Hj.
  replace (Z.to_nat (Z.of_nat (length l) + - Z.of_nat k)) with (length l - k)%nat by lia.
  destruct (l !! _) eqn:Hl; [|done]. intros [= <-]. split; [lia|done].
Qed.

Lemma sno_of_value line v :
  sno_of line = Ok v → v = VNone ∨ ∃ n, v = VInt n ∧ (0 ≤ n)%Z.
Proof.
  unfold sno_of. destruct (span is_digit line) as [digits rest].
  destruct digits as [|d digits]; [intros [= <-]; by left|].
  destruct rest as [|c rest]; [intros [= <-]; by left|].
  destruct (N.eq_dec c 46%N) as [->|Hc].
  - intros [n [Hn [= <-]]]%bind_Ok. right. exists n. split; [done|].
    by eapply int_of_digits_nonneg.
  - assert (∀ A (x y : A), match c with 46%N => x | _ => y end = y) as Hm.
    { intros A x y. destruct c as [|p]; [done|].
      do 6 (destruct p as [p|p|]; try done). }
    rewrite Hm. intros [= <-]. by left.
Qed.

Lemma item_of_line_ok text i item :
  item_of_line (item_lines text) i = Some item → item_ok item.
Proof.
  unfold item_of_line.
  destruct (item_lines text !! i) as [line|] eqn:Hline; [|done].
  destruct (is_qty_line line) eqn:Hqty; [|done].
  destruct (item_at (item_lines text) (Z.of_nat i)) as [o|e] eqn:Hat; [|done].
  simpl. intros ->. revert Hat. unfold item_at.
  rewrite (py_index_nat _ _ _ Hline). cbn [bind].
  intros Hbody.
  apply bind_Ok in Hbody as [hsn_line [Hh Hbody]].
  apply bind_Ok in Hbody as [desc_line [Hd Hbody]].
  apply bind_Ok in Hbody as [rate_line [Hr Hbody]].
  apply bind_Ok in Hbody as [amt_line [Ha Hbody]].
  destruct (is_hsn8 hsn_line) eqn:Hhsn; [|done]. simpl in Hbody.
  apply bind_Ok in Hbody as [sno_line [Hs Hbody]].
  apply bind_Ok in Hbody as [s_no [Hsno Hbody]].
  apply bind_Ok in Hbody as [[qty unit] [Hqu Hbody]].
  apply bind_Ok in Hbody as [hsn [Hint Hbody]].
  apply bind_Ok in Hbody as [quantity [Hquantity Hbody]].
  apply bind_Ok in Hbody as [rate [Hrate Hbody]].
  apply bind_Ok in Hbody as [amount [Hamount [= <-]]].
  unfold is_hsn8 in Hhsn. apply andb_true_iff in Hhsn as [Hlen%Nat.eqb_eq Hdigits].
  destruct (int_of_digits_range hsn_line Hdigits ltac:(lia)) as (z & Hz & Hrange).
  rewrite Hlen in Hrange. assert (hsn = z) as -> by congruence.
  unfold qty_and_unit in Hqu. unfold is_qty_line in Hqty.
  destruct (span is_qty_char line) as [q rest] eqn:Hspan1.
  destruct (span is_space rest) as [gap rest'] eqn:Hspan2.
  pose proof (span_prefix (λ c, negb (is_space c)) rest') as Hunit.
  pose proof (unit_word_span rest') as Hword.
  destruct (span (λ c, negb (is_space c)) rest') as [u rest''] eqn:Hspan3.
  destruct q as [|q0 q]; [done|]. destruct gap as [|g0 gap]; [done|].
  destruct u as [|u0 u]; [done|]. injection Hqu as <- <-.
  destruct (clean_num_str_float (q0 :: q) quantity) as [fq ->]; [done|done|].
  destruct (clean_num_str_float _ _ (item_lines_nonempty _ _ (py_index_elem _ _ _ Hr)) Hrate)
    as [fr ->].
  destruct (clean_num_str_float _ _ (item_lines_nonempty _ _ (py_index_elem _ _ _ Ha)) Hamount)
    as [fa ->].
  exists z, fq, fr, fa, (u0 :: u), desc_line.
  unfold get. simplify_map_eq.
  split; [done|]. split; [done|]. split; [done|]. split; [done|]. split; [done|].
  split; [done|]. split; [by apply Hword|]. split.
  { simpl in Hunit. eapply Forall_impl; [exact Hunit|]. intros c Hc. simpl in Hc.
    by apply negb_true_iff. }
  split; [done|]. split.
  { exact (item_lines_nonempty _ _ (py_index_elem _ _ _ Hd)). }
  by apply sno_of_value in Hsno.
Qed.

Lemma parsed_item_ok block item :
  item ∈ parse_line_items block → item_ok item.
Proof.
  unfold parse_line_items. destruct (items_block block) as [text|]; [|by intros ?%elem_of_nil].
  intros (i & _ & Hitem)%list_elem_of_omap. by eapply item_of_line_ok.
Qed.

(** X3.  Every line item that the parser of [_parse_invoice] returns is
    complete: its HSN code is an integer below 10^8 (eight digits), its
    quantity, rate and amount are floats, never [None], its unit is a word
    without whitespace that starts with SET, Pcs., KG or Unit, its
    description is a non-empty text, and its serial number is [None] or a
    non-negative integer. *)
Theorem parsed_items_have_all_fields block item :
  item ∈ parse_line_items block → item_ok item.
Proof. apply parsed_item_ok. Qed.

Lemma item_row_parsed (summary item : gmap string value) :
  truthy (get summary "DocNo") = true → item_ok item → parsed_row (item_row summary item).
Proof.
  intros Hdoc (hsn & q & r & a & unit & desc & Hh & _ & Hq & Hr & Ha & Hu & _ & _ & Hd & _).
  unfold item_row. rewrite Hh, Hq, Hr, Ha, Hu, Hd.
  by eexists _, _, _, _, _, _, _, _.
Qed.

Lemma rows_flagged_on_difference rows :
  Forall parsed_row rows →
  ∀ totals,
  ∃ errors totals',
    ReviewerAgent.line_item_check rows totals = Ok (errors, totals')
    ∧ ∀ e, e ∈ errors ↔
        ∃ docno sno desc hsn quantity unit rate amount,
          [ docno; sno; desc; hsn; VFloat quantity; unit; VFloat rate; VFloat amount ] ∈ rows
          ∧ PrimFloat.eqb (round2 (quantity * rate)) (round2 amount) = false
          ∧ e = [ docno; sno; desc; VFloat quantity; VFloat rate; VFloat amount;
                  VFloat (quantity * rate); VStr ReviewerAgent.cross_mark ].
Proof.
  induction 1 as [|row rows Hrow _ IH]; intros totals.
  - exists [], totals. split; [done|]. intros e. split; [by intros ?%elem_of_nil|].
    by intros (? & ? & ? & ? & ? & ? & ? & ? & ?%elem_of_nil & _).
  - destruct Hrow as (docno & sno & desc & hsn & q & unit & r & a & -> & Hdoc).
    cbn [ReviewerAgent.line_item_check]. rewrite Hdoc. cbn [negb].
    change (ReviewerAgent.computed_amount (VFloat q) (VFloat r)) with (Some (q * r)%float).
    change (ReviewerAgent.stored_amount (VFloat a)) with (Some a).
    cbn [ReviewerAgent.match_flag].
    destruct (IH (ReviewerAgent.add_total totals docno (Some a)))
      as (errs & totals' & -> & Herrs).
    cbn [bind]. eexists _, _. split; [reflexivity|].
    intros e. rewrite elem_of_app, Herrs. split.
    + intros [He|(d' & s' & ds' & h' & q' & u' & r' & a' & Hin & Hrest)].
      * destruct (PrimFloat.eqb _ _) eqn:Heq; [by apply elem_of_nil in He|].
        apply list_elem_of_singleton in He as ->.
        exists docno, sno, (VStr desc), (VInt hsn), q, (VStr unit), r, a.
        split; [by left|done].
      * exists d', s', ds', h', q', u', r', a'. split; [by right|done].
    + intros (d' & s' & ds' & h' & q' & u' & r' & a' & Hin & Hne & ->).
      apply elem_of_cons in Hin as [[= -> -> -> -> -> -> -> ->]|Hin].
      * left. rewrite Hne. by left.
      * right. by exists d', s', ds', h', q', u', r', a'.
Qed.

Variable re_search : pystr → bool → pystr → option (list (option pystr)).
Variable qr_data : pystr → result (gmap string value).
Variable json_dumps : gmap string value → pystr.

Lemma parse_invoice_items line_items block summary items qr_meta :
  _parse_invoice re_search qr_data json_dumps line_items block = Ok (summary, items, qr_meta) →
  items = line_items block.
Proof.
  unfold _parse_invoice.
  intros [header [_ [summary' [_ [= _ <- _]]]%bind_Ok]]%bind_Ok. done.
Qed.

(** X4.  On a workbook that the ingestion filled from an empty
    [Line_Items] sheet with the parser of [_parse_invoice], the line check
    of the reconciliation does not raise, and since no quantity, rate or
    amount is absent there it writes an error row for a line item exactly
    when quantity times rate and the stored amount differ once rounded to
    two decimals.  Every row of [Line_Items] has a document number, a
    description, an integer HSN code and floats for quantity, rate and
    amount. *)
Theorem ingested_items_flagged_on_difference text wb wb' :
  LoggerAgent.process re_search qr_data json_dumps parse_line_items text wb = Ok wb' →
  Line_Items wb = [] →
  Forall parsed_row (Line_Items wb')
  ∧ ∃ errors totals,
      ReviewerAgent.line_item_check (Line_Items wb') [] = Ok (errors, totals)
      ∧ ∀ e, e ∈ errors ↔
          ∃ docno sno desc hsn quantity unit rate amount,
            [ docno; sno; desc; hsn; VFloat quantity; unit; VFloat rate; VFloat amount ]
              ∈ Line_Items wb'
            ∧ PrimFloat.eqb (round2 (quantity * rate)) (round2 amount) = false
            ∧ e = [ docno; sno; desc; VFloat quantity; VFloat rate; VFloat amount;
                    VFloat (quantity * rate); VStr ReviewerAgent.cross_mark ].
Proof.
  unfold LoggerAgent.process. intros [K [_ Hrun]]%bind_Ok Hempty.
  destruct (ingest_logged _ _ _ _ _ _ _ _ Hrun) as (ps & -> & _ & Hps & _).
  destruct (log_all_sheets ps wb) as (_ & Hitems & _).
  assert (Forall parsed_row (Line_Items (log_all ps wb))) as Hrows.
  { rewrite Hitems, Hempty. simpl. apply Forall_forall.
    intros r (p & Hr & Hp)%list_elem_of_bind.
    apply list_elem_of_fmap in Hr as (item & -> & Hitem).
    rewrite Forall_forall in Hps. destruct (Hps p Hp) as ([Hdoc _] & _ & b & _ & Hb).
    destruct p as [[summary items] qr_meta]. simpl in *.
    apply parse_invoice_items in Hb as ->.
    apply item_row_parsed; [done|]. by eapply parsed_item_ok. }
  split; [done|]. by apply rows_flagged_on_difference.
Qed.

(** X5.  The index of the line before a quantity line is not checked
    against the start of the table: for a quantity line that is the first
    line of the table, [lines[i - 1]] and [lines[i - 2]] are the last two
    lines.  When such a candidate gives a line item, the item is returned
    with the last line of the table as its HSN code and the line before
    that as its description. *)
Theorem first_line_candidate_wraps block text item :
  items_block block = Some text →
  item_of_line (item_lines text) 0 = Some item →
  item ∈ parse_line_items block
  ∧ ∃ description hsn_line hsn,
      (2 ≤ length (item_lines text))%nat
      ∧ item_lines text !! (length (item_lines text) - 1)%nat = Some hsn_line
      ∧ item_lines text !! (length (item_lines text) - 2)%nat = Some description
      ∧ int_of_digits hsn_line = Ok hsn
      ∧ get item "HSN/SAC" = VInt hsn
      ∧ get item "Description" = VStr description.
Proof.
  intros Hblock Hitem. split.
  { unfold parse_line_items. rewrite Hblock. apply list_elem_of_omap.
    exists 0%nat. split; [|done]. apply elem_of_seq.
    unfold item_of_line in Hitem.
    destruct (item_lines text) as [|l ls]; [done|]. simpl. lia. }
  revert Hitem. unfold item_of_line.
  destruct (item_lines text !! 0%nat) as [line|] eqn:Hline; [|done].
  destruct (is_qty_line line); [|done].
  destruct (item_at (item_lines text) (Z.of_nat 0)) as [o|e] eqn:Hat; [|done].
  simpl. intros ->. revert Hat. unfold item_at. intros Hbody.
  apply bind_Ok in Hbody as [qty_line [_ Hbody]].
  apply bind_Ok in Hbody as [hsn_line [Hh Hbody]].
  apply bind_Ok in Hbody as [desc_line [Hd Hbody]].
  apply bind_Ok in Hbody as [rate_line [_ Hbody]].
  apply bind_Ok in Hbody as [amt_line [_ Hbody]].
  destruct (is_hsn8 hsn_line); [|done]. simpl in Hbody.
  apply bind_Ok in Hbody as [sno_line [_ Hbody]].
  apply bind_Ok in Hbody as [s_no [_ Hbody]].
  apply bind_Ok in Hbody as [[qty unit] [_ Hbody]].
  apply bind_Ok in Hbody as [hsn [Hint Hbody]].
  apply bind_Ok in Hbody as [quantity [_ Hbody]].
  apply bind_Ok in Hbody as [rate [_ Hbody]].
  apply bind_Ok in Hbody as [amount [_ [= <-]]].
  apply (py_index_negative _ 1) in Hh as [_ Hh]; [|lia].
  apply (py_index_negative _ 2) in Hd as [Hlen Hd]; [|lia].
  exists desc_line, hsn_line, hsn. unfold get. simplify_map_eq. done.
Qed.

Lemma first_nonblank_spec lines v :
  first_nonblank lines = VStr v ↔
  ∃ blank l post,
    lines = blank ++ l :: post
    ∧ Forall (λ x, strip x = []) blank ∧ strip l = v ∧ v ≠ [].
Proof.
  induction lines as [|x lines IH]; simpl.
  - split; [done|]. intros (blank & l & post & Heq & _). by destruct blank.
  - destruct (strip x) as [|c s] eqn:Hx.
    + rewrite IH. split.
      * intros (blank & l & post & -> & Hb & Hl & Hv).
        exists (x :: blank), l, post. split; [done|]. split; [by constructor|done].
      * intros (blank & l & post & Heq & Hb & Hl & Hv).
        destruct blank as [|b blank].
        -- simpl in Heq. injection Heq as <- <-. congruence.
        -- simpl in Heq. injection Heq as <- ->. apply Forall_cons in Hb as [_ Hb].
           by exists blank, l, post.
    + split.
      * intros [= <-]. exists [], x, lines. split; [done|]. split; [constructor|done].
      * intros (blank & l & post & Heq & Hb & Hl & Hv).
        destruct blank as [|b blank].
        -- simpl in Heq. injection Heq as <- <-. congruence.
        -- simpl in Heq. injection Heq as <- ->. apply Forall_cons in Hb as [Hb _]. congruence.
Qed.

Lemma first_nonblank_value lines :
  first_nonblank lines = VNone ∨ ∃ v, first_nonblank lines = VStr v.
Proof.
  induction lines as [|x lines IH]; simpl; [by left|].
  destruct (strip x); [exact IH|]. right. by eexists.
Qed.

(** X6.  The vendor name is the first non-blank line after the first
    heading line (a line that holds TAX INVOICE in any case), stripped; only
    the first heading counts.  It is [None] when no line is a heading and
    when only blank lines follow the first heading, whatever comes after a
    later heading. *)
Theorem vendor_follows_first_heading lines :
  (vendor_name lines = VNone ∨ ∃ v, vendor_name lines = VStr v)
  ∧ ∀ v, vendor_name lines = VStr v ↔
      ∃ pre heading blank l post,
        lines = pre ++ heading :: blank ++ l :: post
        ∧ Forall (λ x, is_heading x = false) pre
        ∧ is_heading heading = true
        ∧ Forall (λ x, strip x = []) blank
        ∧ strip l = v ∧ v ≠ [].
Proof.
  split.
  { induction lines as [|x lines IH]; simpl; [by left|].
    destruct (contains _ _); [apply first_nonblank_value|exact IH]. }
  intros v. induction lines as [|x lines IH]; simpl.
  - split; [done|]. intros (pre & h & blank & l & post & Heq & _). by destruct pre.
  - fold (is_heading x). destruct (is_heading x) eqn:Hx.
    + rewrite first_nonblank_spec. split.
      * intros (blank & l & post & -> & Hb & Hl & Hv).
        exists [], x, blank, l, post. split; [done|]. split; [constructor|done].
      * intros (pre & h & blank & l & post & Heq & Hpre & Hh & Hb & Hl & Hv).
        destruct pre as [|p pre].
        -- simpl in Heq. injection Heq as <- ->. by exists blank, l, post.
        -- simpl in Heq. injection Heq as <- ->. apply Forall_cons in Hpre as [Hp _]. congruence.
    + rewrite IH. split.
      * intros (pre & h & blank & l & post & -> & Hpre & Hrest).
        exists (x :: pre), h, blank, l, post. split; [done|]. split; [by constructor|done].
      * intros (pre & h & blank & l & post & Heq & Hpre & Hh & Hrest).
        destruct pre as [|p pre].
        -- simpl in Heq. injection Heq as <- ->. congruence.
        -- simpl in Heq. injection Heq as <- ->. apply Forall_cons in Hpre as [_ Hpre].
           by exists pre, h, blank, l, post.
Qed.

End logger_items.

Section logger_more_examples.
Import LoggerAgent.
Local Open Scope string_scope.
Local Open Scope list_scope.

Lemma payload_row_witness :
  Sample.ingest_text Sample.text Sample.empty_workbook = Ok Sample.ingested
  ∧ ∃ docs qrs,
      Invoice_Summary Sample.ingested = [] ++ docs
      ∧ QR_Meta Sample.ingested = [] ++ qrs
      ∧ Forall2 (λ d q : row, length d = 18%nat ∧ length q = 11%nat
                              ∧ q !! 0%nat = d !! 0%nat ∧ q !! 1%nat = d !! 2%nat) docs qrs.
Proof.
  assert (Sample.ingest_text Sample.text Sample.empty_workbook = Ok Sample.ingested)
    as Hrun by (vm_compute; reflexivity).
  split; [exact Hrun|].
  exact (@payload_row_per_document Sample.builtins Sample.re_search Sample.qr_data
           Sample.json_dumps Sample.line_items _ _ _ Hrun).
Defined.

Lemma parsed_items_witness :
  ∃ item rest,
    @parse_line_items Sample.builtins Sample.invoice_text = item :: rest
    ∧ item_ok item.
Proof.
  assert (match @parse_line_items Sample.builtins Sample.invoice_text with
          | [] => false
          | _ :: _ => true
          end = true) as Hsome by (vm_compute; reflexivity).
  destruct (@parse_line_items Sample.builtins Sample.invoice_text) as [|item rest] eqn:Hitems;
    [discriminate Hsome|].
  exists item, rest. split; [reflexivity|].
  apply (@parsed_items_have_all_fields Sample.builtins Sample.invoice_text).
  rewrite Hitems. left.
Defined.

Lemma ingested_items_witness :
  Sample.ingest_parsed Sample.invoice_text (_init_excel None) = Ok Sample.ingested_invoice
  ∧ Line_Items (_init_excel None) = []
  ∧ Forall parsed_row (Line_Items Sample.ingested_invoice)
  ∧ ∃ errors totals,
      @ReviewerAgent.line_item_check Sample.builtins (Line_Items Sample.ingested_invoice) []
      = Ok (errors, totals).
Proof.
  assert (Sample.ingest_parsed Sample.invoice_text (_init_excel None)
          = Ok Sample.ingested_invoice) as Hrun by (vm_compute; reflexivity).
  split; [exact Hrun|]. split; [reflexivity|].
  destruct (@ingested_items_flagged_on_difference Sample.builtins Sample.re_search
              Sample.qr_data Sample.json_dumps _ _ _ Hrun eq_refl)
    as (Hrows & errors & totals & Hcheck & _).
  split; [exact Hrows|]. exists errors, totals. exact Hcheck.
Defined.

Lemma first_line_candidate_witness :
  ∃ item,
    items_block Sample.wrapped_table = Some Sample.wrapped_table_body
    ∧ @item_of_line Sample.builtins (item_lines Sample.wrapped_table_body) 0 = Some item
    ∧ item ∈ @parse_line_items Sample.builtins Sample.wrapped_table
    ∧ get item "Description" = VStr (lit "Widget")
    ∧ get item "HSN/SAC" = VInt 12345678.
Proof.
  assert (items_block Sample.wrapped_table = Some Sample.wrapped_table_body) as Hblock
    by (vm_compute; reflexivity).
  assert (match @item_of_line Sample.builtins (item_lines Sample.wrapped_table_body) 0 with
          | Some _ => true
          | None => false
          end = true) as Hsome by (vm_compute; reflexivity).
  destruct (@item_of_line Sample.builtins (item_lines Sample.wrapped_table_body) 0)
    as [item|] eqn:Hitem; [|discriminate Hsome].
  exists item. split; [exact Hblock|]. split; [reflexivity|].
  destruct (@first_line_candidate_wraps Sample.builtins _ _ _ Hblock Hitem)
    as (Hin & description & hsn_line & hsn & _ & Hh & Hd & Hint & Hhsn & Hdesc).
  split; [exact Hin|].
  vm_compute in Hh, Hd. injection Hh as <-. injection Hd as <-.
  vm_compute in Hint. injection Hint as <-.
  split; [exact Hdesc|exact Hhsn].
Defined.

End logger_more_examples.

(** ** Catalog matching: the rows written, the catalog and the keys *)

Section mapper_rows.
Import MapperAgent.
Local Open Scope list_scope.
Context `{Builtins}.

Lemma map_item_rows master_map r ms us :
  map_item master_map r = Ok (ms, us) →
  ∃ m, ms = [m] ∧ item_mapped master_map r m
       ∧ us = match master_map !! normalized_key r with
              | Some _ => []
              | None => [unmapped_row r]
              end.
Proof.
  unfold map_item, item_mapped, found_row, not_found_row, unmapped_row, normalized_key,
    invoice_rate.
  destruct (first8_cells r) as (docno & sno & desc & hsn & qty & unit & rate & amount & ->).
  simpl. destruct (master_map !! _) as [e|].
  - intros [r1 [H1 [r2 [H2 [= <- <-]]]%bind_Ok]]%bind_Ok.
    eexists. split; [done|]. split; [|done]. by exists r1, r2.
  - intros [= <- <-]. eexists. done.
Qed.

(** X7.  When [process] completes, every line item has exactly one row in
    [Mapped_Items], in the order of [Line_Items].  The row starts with the
    cells 0 to 7 of the line item ([None] for a cell that the row does not
    have) and the normalized text of its description cell.  On a catalog
    hit the four catalog fields follow, and the check mark exactly when
    [float] of the rate cell equals [float] of the catalog rate, else the
    cross mark; on a miss four times [NOT FOUND] and the cross mark follow.
    [Unmapped_Items] holds the first nine cells of the rows of the misses, in
    order, and nothing else. *)
Theorem every_item_mapped_once master items mapped unmapped :
  process master items = Ok (mapped, unmapped) →
  ∃ master_map,
    load_master master ∅ = Ok master_map
    ∧ let cells := λ r : row, (λ j, default VNone (r !! j)) <$> seq 0 8 in
      let key := λ r : row, _normalize_model (py_str (default VNone (r !! 2%nat))) in
      Forall2 (λ r m : row,
                 match master_map !! key r with
                 | Some e =>
                     ∃ r1 r2,
                       py_float (default VNone (r !! 6%nat)) = Ok r1
                       ∧ py_float (Rate e) = Ok r2
                       ∧ m = cells r ++ [ VStr (key r); ProductName e; SKU e; HSN e; Rate e;
                                          VStr (if PrimFloat.eqb r1 r2
                                                then [9989%N] else [10060%N]) ]
                 | None =>
                     m = cells r ++ [ VStr (key r); VStr (lit "NOT FOUND");
                                      VStr (lit "NOT FOUND"); VStr (lit "NOT FOUND");
                                      VStr (lit "NOT FOUND"); VStr [10060%N] ]
                 end) items mapped
      ∧ unmapped
        = (λ r, cells r ++ [ VStr (key r) ])
            <$> filter (λ r, master_map !! key r = None) items.
Proof.
  unfold process. intros [master_map [Hload Hmap]]%bind_Ok.
  exists master_map. split; [done|]. clear Hload. cbv zeta.
  revert mapped unmapped Hmap. induction items as [|r items IH]; intros mapped unmapped; simpl.
  - by intros [= <- <-].
  - intros [[ms us] [Hitem [[ms' us'] [Hrest [= <- <-]]]%bind_Ok]]%bind_Ok.
    destruct (map_item_rows _ _ _ _ Hitem) as (m & -> & Hm & ->).
    destruct (IH _ _ Hrest) as [Hall ->].
    unfold item_mapped, found_row, not_found_row, unmapped_row, invoice_rate in *.
    rewrite normalized_key_cell, first8_seq in *.
    split.
    + constructor; [|done].
      destruct (master_map !! _) as [e|]; [|done].
      destruct Hm as (r1 & r2 & H1 & H2 & ->). by exists r1, r2.
    + rewrite filter_cons.
      destruct (master_map !! _) eqn:Hkey; by case_decide.
Qed.

Lemma map_items_raises master_map items r e :
  r ∈ items → map_item master_map r = Raise e →
  ∃ e', map_items master_map items = Raise e'.
Proof.
  induction 1 as [r items|r x items _ IH]; intros Hr; simpl.
  - rewrite Hr. by eexists.
  - destruct (map_item master_map x) as [[m u]|e']; [|by eexists]. simpl.
    destruct (IH Hr) as [e' ->]. by eexists.
Qed.

(** X8.  A catalog hit needs both rates: when a line item has a catalog
    entry and [float] raises on its rate cell or on the rate of the entry
    (an empty cell, a text that is no number), [process] raises, and since
    the workbook is saved at its end only, neither sheet is written. *)
Theorem catalog_hit_needs_both_rates master master_map items r e :
  load_master master ∅ = Ok master_map →
  r ∈ items →
  master_map !! normalized_key r = Some e →
  (∃ err, py_float (invoice_rate r) = Raise err) ∨ (∃ err, py_float (Rate e) = Raise err) →
  ∃ err, process master items = Raise err.
Proof.
  intros Hload Hin Hhit Hrate. unfold process. rewrite Hload. simpl.
  assert (∃ err, map_item master_map r = Raise err) as [err Herr].
  { revert Hhit Hrate. unfold map_item, normalized_key, invoice_rate.
    destruct (first8_cells r) as (docno & sno & desc & hsn & qty & unit & rate & amount & ->).
    simpl. intros -> [[err ->]|[err Herr]]; [by eexists|].
    destruct (py_float rate); simpl; [rewrite Herr|]; by eexists. }
  by eapply map_items_raises.
Qed.

Lemma last_filter_cons {A} (P : A → Prop) `{∀ x, Decision (P x)} (x : A) l :
  last (filter P (x :: l))
  = match last (filter P l) with
    | Some y => Some y
    | None => if decide (P x) then Some x else None
    end.
Proof.
  rewrite filter_cons. destruct (decide (P x)); [|by destruct (last _)].
  destruct (filter P l) as [|y l'] eqn:Hl; [done|].
  rewrite last_cons. by destruct (last (y :: l')).
Qed.

(** X9.  On a master sheet whose rows have five cells, the catalog is built
    without raising, and among the rows whose model numbers normalize to
    the same key the last one wins: the entry of a key holds the product
    name, SKU, HSN code and rate of the last such row. *)
Theorem catalog_last_row_wins rows acc :
  Forall (λ r : row, length r = 5%nat) rows →
  ∃ master_map,
    load_master rows acc = Ok master_map
    ∧ ∀ k, master_map !! k
           = match last (filter (λ r, catalog_key r = k) rows) with
             | Some r => Some (catalog_row_entry r)
             | None => acc !! k
             end.
Proof.
  intros Hrows. revert acc. induction Hrows as [|r rows Hr _ IH]; intros acc.
  - exists acc. done.
  - destruct r as [|model_no [|prod_name [|sku [|hsn [|rate [|]]]]]]; try done.
    cbn [load_master].
    destruct (IH (<[_normalize_model (py_str model_no) :=
                     {| ProductName := prod_name; SKU := sku; HSN := hsn; Rate := rate |}]> acc))
      as (m & -> & Hm).
    exists m. split; [done|]. intros k. rewrite Hm, last_filter_cons.
    destruct (last _); [done|].
    unfold catalog_key at 1. simpl. destruct (decide _) as [<-|Hne].
    + by rewrite lookup_insert_eq.
    + by rewrite lookup_insert_ne.
Qed.

(** X10.  A row of the master sheet that has not exactly five cells makes
    the run raise [ValueError] while the catalog is built, whatever the
    line items are. *)
Theorem catalog_needs_five_columns rows items r :
  r ∈ rows → length r ≠ 5%nat →
  process rows items = Raise ValueError.
Proof.
  intros Hin Hlen. unfold process.
  assert (∀ acc, load_master rows acc = Raise ValueError) as Hload.
  { induction Hin as [r rows|r x rows _ IH]; intros acc.
    - destruct r as [|? [|? [|? [|? [|? [|]]]]]]; done.
    - destruct x as [|? [|? [|? [|? [|? [|]]]]]]; try done. cbn [load_master]. by apply IH. }
  by rewrite Hload.
Qed.

End mapper_rows.

Section mapper_keys.
Import MapperAgent.
Local Open Scope list_scope.
Context `{Builtins}.

Lemma ascii_upper_lower c : ascii_upper (ascii_lower c) = ascii_upper c.
Proof.
  unfold ascii_upper, ascii_lower.
  destruct ((65 <=? c) && (c <=? 90))%N eqn:Hu; [|done].
  apply andb_true_iff in Hu as [H1%N.leb_le H2%N.leb_le].
  replace ((97 <=? c + 32) && (c + 32 <=? 122))%N with true
    by (symmetry; apply andb_true_iff; split; apply N.leb_le; lia).
  replace ((97 <=? c) && (c <=? 122))%N with false
    by (symmetry; apply andb_false_iff; left; apply N.leb_gt; lia).
  lia.
Qed.

Lemma ascii_upper_idem c : ascii_upper (ascii_upper c) = ascii_upper c.
Proof.
  unfold ascii_upper.
  destruct ((97 <=? c) && (c <=? 122))%N eqn:Hu; [|by rewrite Hu].
  apply andb_true_iff in Hu as [H1%N.leb_le H2%N.leb_le].
  replace ((97 <=? c - 32) && (c - 32 <=? 122))%N with false; [done|].
  symmetry. apply andb_false_iff. left. apply N.leb_gt. lia.
Qed.

Lemma is_ascii_lower c : is_ascii c = true → is_ascii (ascii_lower c) = true.
Proof.
  unfold is_ascii, ascii_lower. intros Hc%N.ltb_lt.
  destruct ((65 <=? c) && (c <=? 90))%N eqn:Hu; apply N.ltb_lt; [|done].
  apply andb_true_iff in Hu as [H1%N.leb_le H2%N.leb_le]. lia.
Qed.

Lemma is_ascii_upper c : is_ascii c = true → is_ascii (ascii_upper c) = true.
Proof.
  unfold is_ascii, ascii_upper. intros Hc%N.ltb_lt.
  destruct ((97 <=? c) && (c <=? 122))%N eqn:Hu; apply N.ltb_lt; [|done]. lia.
Qed.

Lemma forallb_fmap_ascii (f : N → N) s :
  (∀ c, is_ascii c = true → is_ascii (f c) = true) →
  forallb is_ascii s = true → forallb is_ascii (f <$> s) = true.
Proof.
  intros Hf. induction s as [|c s IH]; [done|].
  rewrite fmap_cons. cbn [forallb]. intros [Hc Hs]%andb_true_iff.
  rewrite (Hf _ Hc). by apply IH.
Qed.

Lemma upper_lower s : forallb is_ascii s = true → upper (lower s) = upper s.
Proof.
  intros Hs. unfold upper, lower. rewrite Hs.
  rewrite forallb_fmap_ascii by (done || apply is_ascii_lower).
  rewrite <- list_fmap_compose. apply list_fmap_ext. intros _ c _. apply ascii_upper_lower.
Qed.

Lemma upper_upper s : forallb is_ascii s = true → upper (upper s) = upper s.
Proof.
  intros Hs. unfold upper. rewrite Hs.
  rewrite forallb_fmap_ascii by (done || apply is_ascii_upper).
  rewrite <- list_fmap_compose. apply list_fmap_ext. intros _ c _. apply ascii_upper_idem.
Qed.

Lemma normalize_of_upper s t :
  upper s = upper t → (s = [] ↔ t = []) → _normalize_model s = _normalize_model t.
Proof.
  intros Hu Hnil. unfold _normalize_model.
  destruct s as [|a s], t as [|b t]; try done.
  - discriminate (proj1 Hnil eq_refl).
  - discriminate (proj2 Hnil eq_refl).
  - by rewrite Hu.
Qed.

(** X11.  Matching ignores the case of ASCII letters: an ASCII text, the
    same text in lower case and the same text in upper case normalize to
    the same key. *)
Theorem normalize_ignores_ascii_case s :
  forallb is_ascii s = true →
  _normalize_model (lower s) = _normalize_model s
  ∧ _normalize_model (upper s) = _normalize_model s.
Proof.
  intros Hs. split; apply normalize_of_upper.
  - by apply upper_lower.
  - unfold lower. rewrite Hs. by destruct s.
  - by apply upper_upper.
  - unfold upper. rewrite Hs. by destruct s.
Qed.

Lemma collapse_single_spaced s : ∀ b, single_spaced b (collapse_spaces b s) = true.
Proof.
  induction s as [|c s IH]; intros b; simpl; [done|].
  destruct (is_space c) eqn:Hc.
  - destruct b; [apply IH|]. simpl. by rewrite IH.
  - simpl. by rewrite Hc, IH.
Qed.

Lemma lstrip_spec s :
  ∃ w, s = w ++ lstrip s ∧ Forall (λ c, is_space c = true) w
       ∧ ∀ c, head (lstrip s) = Some c → is_space c = false.
Proof.
  induction s as [|c s (w & Hs & Hw & Hh)]; simpl.
  - exists []. done.
  - destruct (is_space c) eqn:Hc.
    + exists (c :: w). split; [simpl; by f_equal|]. split; [by constructor|done].
    + exists []. split; [done|]. split; [constructor|]. by intros ? [= <-].
Qed.

Lemma single_spaced_lstrip s b :
  single_spaced b s = true → single_spaced true (lstrip s) = true.
Proof.
  revert b. induction s as [|c s IH]; intros b; simpl; [done|].
  destruct (is_space c) eqn:Hc.
  - intros [_ Hs]%andb_true_iff. by eapply IH.
  - intros Hs. simpl. by rewrite Hc.
Qed.

Lemma single_spaced_prefix p q b :
  single_spaced b (p ++ q) = true → single_spaced b p = true.
Proof.
  revert b. induction p as [|c p IH]; intros b; simpl; [done|].
  destruct (is_space c).
  - intros [Hc Hs]%andb_true_iff. rewrite Hc. by eapply IH.
  - apply IH.
Qed.

Lemma rstrip_spec s :
  ∃ w, s = rstrip s ++ w ∧ Forall (λ c, is_space c = true) w
       ∧ ∀ c, last (rstrip s) = Some c → is_space c = false.
Proof.
  unfold rstrip. destruct (lstrip_spec (reverse s)) as (w & Hs & Hw & Hh).
  exists (reverse w). split; [|split].
  - rewrite <- reverse_app, <- Hs. by rewrite reverse_involutive.
  - by apply Forall_reverse.
  - intros c. rewrite last_reverse. apply Hh.
Qed.

Lemma strip_head s c : head (strip s) = Some c → is_space c = false.
Proof.
  unfold strip. destruct (lstrip_spec s) as (_ & _ & _ & Hh).
  destruct (rstrip_spec (lstrip s)) as (w & Hs & _ & _).
  intros Hc. apply Hh. rewrite Hs. destruct (rstrip (lstrip s)); [done|]. done.
Qed.

(** X12.  A normalized key is canonical in its whitespace: it neither
    starts nor ends with whitespace, and whitespace occurs inside it only
    as single spaces (U+0020), never two in a row and never as a tab or
    another whitespace character. *)
Theorem normalized_key_single_spaced text :
  single_spaced true (_normalize_model text) = true
  ∧ (∀ c, head (_normalize_model text) = Some c → is_space c = false)
  ∧ (∀ c, last (_normalize_model text) = Some c → is_space c = false).
Proof.
  unfold _normalize_model. destruct text as [|a text]; [done|].
  set (t := remove_paren_digits 0 _).
  unfold strip.
  destruct (rstrip_spec (lstrip (collapse_spaces false t))) as (w & Hs & _ & Hlast).
  split; [|split; [apply (strip_head (collapse_spaces false t))|exact Hlast]].
  apply (single_spaced_prefix _ w). rewrite <- Hs.
  eapply single_spaced_lstrip. apply collapse_single_spaced.
Qed.

End mapper_keys.

Section mapper_more_examples.
Import MapperAgent.
Local Open Scope list_scope.

Lemma every_item_mapped_witness :
  @process Sample.builtins Sample.master_sheet
    [ Sample.item_of "INV-1" 1 "Model No ABC-100 (73239920)" 94035000
        (VFloat 2) (VFloat 500) (VFloat 1000);
      Sample.item_of "INV-1" 2 "abc-100" 94035000 (VFloat 1) (VFloat 450) (VFloat 450);
      [ Sample.str "INV-2"; VInt 1; Sample.str "steel  bowl" ] ]
  = Ok ([ [ Sample.str "INV-1"; VInt 1; Sample.str "Model No ABC-100 (73239920)";
            VInt 94035000; VFloat 2; Sample.str "Pcs."; VFloat 500; VFloat 1000;
            Sample.str "ABC-100"; Sample.str "Chair, new"; Sample.str "SKU-2";
            VInt 94035000; VFloat 500; VStr [9989%N] ];
          [ Sample.str "INV-1"; VInt 2; Sample.str "abc-100";
            VInt 94035000; VFloat 1; Sample.str "Pcs."; VFloat 450; VFloat 450;
            Sample.str "ABC-100"; Sample.str "Chair, new"; Sample.str "SKU-2";
            VInt 94035000; VFloat 500; VStr [10060%N] ];
          [ Sample.str "INV-2"; VInt 1; Sample.str "steel  bowl";
            VNone; VNone; VNone; VNone; VNone;
            Sample.str "STEEL BOWL"; Sample.str "NOT FOUND"; Sample.str "NOT FOUND";
            Sample.str "NOT FOUND"; Sample.str "NOT FOUND"; VStr [10060%N] ] ],
        [ [ Sample.str "INV-2"; VInt 1; Sample.str "steel  bowl";
            VNone; VNone; VNone; VNone; VNone; Sample.str "STEEL BOWL" ] ])
  ∧ ∃ master_map,
      @load_master Sample.builtins Sample.master_sheet ∅ = Ok master_map
      ∧ [ [ Sample.str "INV-2"; VInt 1; Sample.str "steel  bowl";
            VNone; VNone; VNone; VNone; VNone; Sample.str "STEEL BOWL" ] ]
        = (λ r : row,
             ((λ j, default VNone (r !! j)) <$> seq 0 8)
             ++ [ VStr (@_normalize_model Sample.builtins
                          (@py_str Sample.builtins (default VNone (r !! 2%nat)))) ])
            <$> filter (λ r : row,
                          master_map !! @_normalize_model Sample.builtins
                                          (@py_str Sample.builtins (default VNone (r !! 2%nat)))
                          = None)
                  [ Sample.item_of "INV-1" 1 "Model No ABC-100 (73239920)" 94035000
                      (VFloat 2) (VFloat 500) (VFloat 1000);
                    Sample.item_of "INV-1" 2 "abc-100" 94035000
                      (VFloat 1) (VFloat 450) (VFloat 450);
                    [ Sample.str "INV-2"; VInt 1; Sample.str "steel  bowl" ] ].
Proof.
  match goal with |- ?run = Ok (?m, ?u) ∧ _ =>
    assert (run = Ok (m, u)) as Hrun by (vm_compute; reflexivity)
  end.
  split; [exact Hrun|].
  destruct (@every_item_mapped_once Sample.builtins _ _ _ _ Hrun)
    as (master_map & Hload & _ & Hun).
  exists master_map. split; [exact Hload | exact Hun].
Defined.

Lemma catalog_hit_witness :
  ∃ err, @process Sample.builtins Sample.master_without_rate Sample.items_sheet = Raise err.
Proof.
  assert (match @load_master Sample.builtins Sample.master_without_rate ∅ with
          | Ok _ => true
          | Raise _ => false
          end = true) as Hsome by (vm_compute; reflexivity).
  destruct (@load_master Sample.builtins Sample.master_without_rate ∅)
    as [master_map|] eqn:Hload; [|discriminate Hsome].
  assert (match master_map !! @normalized_key Sample.builtins
                    (Sample.item_of "INV-1" 1 "Model No ABC-100 (73239920)" 94035000
                       (VFloat 2) (VFloat 500) (VFloat 1000)) with
          | Some e => is_none (Rate e)
          | None => false
          end = true) as Hhit.
  { assert (Ok master_map = @load_master Sample.builtins Sample.master_without_rate ∅)
      as [= ->] by (by rewrite Hload).
    vm_compute. reflexivity. }
  destruct (master_map !! _) as [e|] eqn:Hkey; [|discriminate Hhit].
  apply (@catalog_hit_needs_both_rates Sample.builtins _ _ _ _ e Hload (list_elem_of_here _ _) Hkey).
  right. exists TypeError. destruct (Rate e); try discriminate Hhit. reflexivity.
Defined.

Lemma catalog_last_row_witness :
  Forall (λ r : row, length r = 5%nat) Sample.master_sheet
  ∧ ∃ master_map,
      @load_master Sample.builtins Sample.master_sheet ∅ = Ok master_map
      ∧ master_map !! lit "ABC-100"
        = Some {| ProductName := Sample.str "Chair, new"; SKU := Sample.str "SKU-2";
                  HSN := VInt 94035000; Rate := VFloat 500 |}.
Proof.
  assert (Forall (λ r : row, length r = 5%nat) Sample.master_sheet) as Hrows
    by (repeat constructor).
  split; [exact Hrows|].
  destruct (@catalog_last_row_wins Sample.builtins _ ∅ Hrows) as (master_map & Hload & Hkeys).
  exists master_map. split; [exact Hload|]. rewrite Hkeys. vm_compute. reflexivity.
Defined.

Lemma catalog_columns_witness :
  [Sample.str "ABC-100"; Sample.str "Chair"] ∈ [[Sample.str "ABC-100"; Sample.str "Chair"]]
  ∧ @process Sample.builtins [[Sample.str "ABC-100"; Sample.str "Chair"]] Sample.items_sheet
    = Raise ValueError.
Proof.
  assert ([Sample.str "ABC-100"; Sample.str "Chair"]
            ∈ [[Sample.str "ABC-100"; Sample.str "Chair"]]) as Hin by left.
  split; [exact Hin|].
  apply (@catalog_needs_five_columns Sample.builtins _ _ _ Hin). simpl. lia.
Defined.

Lemma normalize_case_witness :
  forallb is_ascii (lit "Model No abc-100") = true
  ∧ @_normalize_model Sample.builtins (@lower Sample.builtins (lit "Model No abc-100"))
    = @_normalize_model Sample.builtins (lit "Model No abc-100").
Proof.
  assert (forallb is_ascii (lit "Model No abc-100") = true) as Hascii by reflexivity.
  split; [exact Hascii|].
  exact (proj1 (@normalize_ignores_ascii_case Sample.builtins _ Hascii)).
Defined.

End mapper_more_examples.

(** ** Rate resolution: the cache and the rows written *)

Section fetcher_cache.
Import GSTFetcherAgent.
Local Open Scope string_scope.
Local Open Scope list_scope.
Context `{Builtins}.
Variable http_get : pystr → result (Z * list (list pystr)).

Abbreviation _fetch_gst_details := (GSTFetcherAgent._fetch_gst_details http_get).
Abbreviation fetch_rows := (GSTFetcherAgent.fetch_rows http_get).
Abbreviation process := (GSTFetcherAgent.process http_get).
Abbreviation run := (GSTFetcherAgent.run http_get).
Abbreviation request_failed := (GSTFetcherAgent.request_failed http_get).

(** A lookup adds to the cache at most; it changes and removes no entry. *)
Lemma fetch_cache_grows hsn st :
  hsn_cache st ⊆ hsn_cache (_fetch_gst_details hsn st).2.
Proof.
  unfold GSTFetcherAgent._fetch_gst_details.
  destruct (hsn_cache st !! hsn) as [data|] eqn:Hc; [done|].
  destruct (http_get _) as [[status_code rows]|e]; [|done].
  destruct (status_code =? 200)%Z; [|done].
  destruct (scan_rows hsn rows) as [gst_rate description].
  destruct (truthy gst_rate); [|done]. simpl.
  by apply insert_subseteq.
Qed.

Lemma seeded_load file : seeded (_load_hsn_cache file).
Proof.
  intros hsn [e He]. destruct file as [| |m]; simpl; try by eexists.
  destruct (m !! hsn) as [e'|] eqn:Hm.
  - exists e'. by apply lookup_union_Some_l.
  - exists e. by rewrite lookup_union_r.
Qed.

Lemma seeded_mono c1 c2 : c1 ⊆ c2 → seeded c1 → seeded c2.
Proof.
  intros Hsub Hs hsn Hf. destruct (Hs hsn Hf) as [e He].
  exists e. by eapply lookup_weaken.
Qed.

Lemma seeded_union m : seeded m → m ∪ HSN_FALLBACK = m.
Proof.
  intros Hseed. apply map_eq. intros k. rewrite lookup_union.
  destruct (m !! k) as [e|] eqn:Hm; [by destruct (HSN_FALLBACK !! k)|].
  destruct (HSN_FALLBACK !! k) as [e|] eqn:Hf; [|done].
  destruct (Hseed k ltac:(by eexists)) as [e' He']. congruence.
Qed.

Lemma search_url_not_fallback hsn : search_url hsn ≠ Fallback_Dictionary.
Proof. unfold search_url. vm_compute. discriminate. Qed.

Lemma fetch_source hsn st :
  seeded (hsn_cache st) →
  (_fetch_gst_details hsn st).1.2 ≠ Fallback_Dictionary
  ∧ live_source (_fetch_gst_details hsn st).1.2.
Proof.
  intros Hseed. unfold GSTFetcherAgent._fetch_gst_details.
  destruct (hsn_cache st !! hsn) as [data|] eqn:Hc.
  { simpl. split; [by vm_compute|by left]. }
  assert (HSN_FALLBACK !! hsn = None) as ->.
  { destruct (HSN_FALLBACK !! hsn) as [e|] eqn:Hf; [|done].
    destruct (Hseed hsn ltac:(by eexists)) as [e' He']. congruence. }
  assert (Not_Found ≠ Fallback_Dictionary) as Hnf by (by vm_compute).
  destruct (http_get _) as [[status_code rows]|e]; [|simpl; split; [done|by right; left]].
  destruct (status_code =? 200)%Z; [|simpl; split; [done|by right; left]].
  destruct (scan_rows hsn rows) as [gst_rate description].
  destruct (truthy gst_rate); [|simpl; split; [done|by right; left]].
  simpl. split; [apply search_url_not_fallback|]. right; right. by eexists.
Qed.

Lemma fetch_rows_cache lookup summary :
  ∀ st rows st',
    fetch_rows lookup summary st = Ok (rows, st') →
    seeded (hsn_cache st) →
    hsn_cache st ⊆ hsn_cache st'
    ∧ Forall (λ r : row, ∃ source, r !! 7%nat = Some (VStr source)
                                   ∧ source ≠ Fallback_Dictionary ∧ live_source source) rows.
Proof.
  induction summary as [|r summary IH]; intros st rows st'; simpl.
  - intros [= <- <-] _. split; [done|constructor].
  - destruct r as [|docno [|docdt rest]]; try discriminate.
    destruct (negb (truthy docno)); [by apply IH|].
    destruct (dict_get lookup docno) as [[|c hsn]|]; try by apply IH.
    pose proof (fetch_cache_grows (c :: hsn) st) as Hgrow.
    intros Hrun Hseed. pose proof (fetch_source (c :: hsn) st Hseed) as Hsrc.
    destruct (_fetch_gst_details (c :: hsn) st) as [[[gst_rate description] source] st1].
    simpl in Hgrow, Hsrc.
    apply bind_Ok in Hrun as [[cgst sgst] [_ Hrun]].
    apply bind_Ok in Hrun as [display [_ Hrun]].
    apply bind_Ok in Hrun as [[rows' st2] [Hrest [= <- <-]]].
    destruct (IH _ _ _ Hrest (seeded_mono _ _ Hgrow Hseed)) as [Hsub Hrows].
    split; [by etrans|]. constructor; [|done]. by exists source.
Qed.

Lemma run_cache file summary qr rows file' :
  run file summary qr = Ok (rows, file') →
  ∃ m, file' = Stored m
       ∧ _load_hsn_cache file ⊆ m
       ∧ Forall (λ r : row, ∃ source, r !! 7%nat = Some (VStr source)
                                      ∧ source ≠ Fallback_Dictionary ∧ live_source source) rows.
Proof.
  unfold GSTFetcherAgent.run, GSTFetcherAgent.process.
  intros [[rows' st] [[lookup [_ Hrows]]%bind_Ok [= <- <-]]]%bind_Ok.
  destruct (fetch_rows_cache _ _ _ _ _ Hrows (seeded_load file)) as [Hsub Hsrc].
  by eexists.
Qed.

(** X13.  The cache only grows.  A completed run writes a cache file that
    holds every entry of the file it loaded, unchanged, and an entry for
    every code of the fallback table; no entry is evicted or overwritten.
    A single lookup leaves every entry of the cache as it was. *)
Theorem cache_only_grows file summary qr rows file' :
  run file summary qr = Ok (rows, file') →
  ∃ m, file' = Stored m
       ∧ (∀ stored, file = Stored stored → stored ⊆ m)
       ∧ (∀ hsn, is_Some (HSN_FALLBACK !! hsn) → is_Some (m !! hsn))
       ∧ ∀ hsn st, hsn_cache st ⊆ hsn_cache (_fetch_gst_details hsn st).2.
Proof.
  intros Hrun.
  destruct (run_cache _ _ _ _ _ Hrun) as (m & -> & Hsub & _).
  exists m. split; [done|]. split; [|split; [|apply fetch_cache_grows]].
  - intros stored ->. etrans; [|exact Hsub]. apply map_union_subseteq_l.
  - apply (seeded_mono _ _ Hsub), seeded_load.
Qed.

(** X14.  Saving and loading the cache is a round trip: the file that a
    completed run writes is loaded by the next run as exactly the cache
    that the run ended with; merging the fallback table into it changes
    nothing. *)
Theorem saved_cache_reloads file summary qr rows file' :
  run file summary qr = Ok (rows, file') →
  ∃ st, process (initial file) summary qr = Ok (rows, st)
        ∧ file' = Stored (hsn_cache st)
        ∧ _load_hsn_cache file' = hsn_cache st
        ∧ initial file' = {| hsn_cache := hsn_cache st; requested := [] |}.
Proof.
  intros Hrun. destruct (run_cache _ _ _ _ _ Hrun) as (m & -> & Hsub & _).
  revert Hrun. unfold GSTFetcherAgent.run.
  intros [[rows' st] [Hp [= <- <-]]]%bind_Ok.
  exists st. split; [exact Hp|]. split; [done|].
  assert (_load_hsn_cache (Stored (hsn_cache st)) = hsn_cache st) as Hload.
  { simpl. apply seeded_union, (seeded_mono _ _ Hsub), seeded_load. }
  split; [exact Hload|]. unfold initial. by rewrite Hload.
Qed.

(** X15.  An answer of the lookup service is cached.  When the code is not
    in the cache and the service answers with status 200 and a row for the
    code whose rate is not 0, the call returns the rate and the description
    of that row with the URL as the source, after one request, and stores
    them under the code; a second call for the code returns the same rate
    and description with the source [Local Cache], requests nothing and
    leaves the cache as it is. *)
Theorem remote_answer_is_cached hsn st rows gst_rate description :
  hsn_cache st !! hsn = None →
  http_get (search_url hsn) = Ok (200%Z, rows) →
  scan_rows hsn rows = (gst_rate, description) →
  truthy gst_rate = true →
  let first := _fetch_gst_details hsn st in
  let second := _fetch_gst_details hsn first.2 in
  first.1 = (gst_rate, description, search_url hsn)
  ∧ requested first.2 = requested st ++ [search_url hsn]
  ∧ hsn_cache first.2 = <[hsn := mk_entry gst_rate description]> (hsn_cache st)
  ∧ second.1 = (gst_rate, description, Local_Cache)
  ∧ second.2 = first.2.
Proof.
  intros Hc Hget Hscan Ht.
  assert (_fetch_gst_details hsn st
          = ((gst_rate, description, search_url hsn),
             {| hsn_cache := <[hsn := mk_entry gst_rate description]> (hsn_cache st);
                requested := requested st ++ [search_url hsn] |})) as Hfirst.
  { unfold GSTFetcherAgent._fetch_gst_details. rewrite Hc, Hget. simpl.
    by rewrite Hscan, Ht. }
  cbv zeta. rewrite !Hfirst. cbn [fst snd hsn_cache requested].
  split; [done|]. split; [done|]. split; [done|].
  unfold GSTFetcherAgent._fetch_gst_details. cbn [hsn_cache].
  rewrite lookup_insert_eq. split; [|done].
  unfold get, mk_entry. by simplify_map_eq.
Qed.

(** X16.  The fallback tier never answers.  The cache is seeded with the
    fallback table when it is loaded and only grows, so a code of the
    fallback table is always found in the cache: no row that a run writes
    names the source [Fallback Dictionary]; the source is [Local Cache],
    [Not Found] or the URL of the request.  The same holds for every single
    lookup on a cache that holds the codes of the fallback table, and the
    cache holds them after it. *)
Theorem fallback_tier_never_answers file summary qr rows file' :
  run file summary qr = Ok (rows, file') →
  Forall (λ r : row, ∃ source, r !! 7%nat = Some (VStr source)
                               ∧ source ≠ Fallback_Dictionary ∧ live_source source) rows
  ∧ ∀ hsn st, seeded (hsn_cache st) →
      (_fetch_gst_details hsn st).1.2 ≠ Fallback_Dictionary
      ∧ seeded (hsn_cache (_fetch_gst_details hsn st).2).
Proof.
  intros Hrun. destruct (run_cache _ _ _ _ _ Hrun) as (m & _ & _ & Hrows).
  split; [exact Hrows|]. intros hsn st Hseed. split.
  - by apply fetch_source.
  - eapply seeded_mono; [apply fetch_cache_grows|done].
Qed.


Lemma desc_display_length description display d :
  desc_display description = Ok display → display = VStr d → (length d ≤ 83)%nat.
Proof.
  unfold desc_display. destruct (truthy description) eqn:Ht.
  - destruct description as [| | | |s]; try done.
    destruct (80 <? length s)%nat eqn:Hlen.
    + apply Nat.ltb_lt in Hlen. intros [= <-] [= <-].
      rewrite length_app, length_take.
      assert (length (lit "...") = 3%nat) as -> by reflexivity. lia.
    + apply Nat.ltb_ge in Hlen. intros [= <-] [= <-]. lia.
  - intros [= <-] ->. destruct d; [simpl; lia|done].
Qed.

Lemma fetch_rows_per_document lookup summary :
  ∀ st rows st',
    fetch_rows lookup summary st = Ok (rows, st') →
    Forall2 (rate_row_of lookup) (filter (λ s, has_hsn lookup s = true) summary) rows.
Proof.
  induction summary as [|r summary IH]; intros st rows st'; simpl.
  - intros [= <- <-]. constructor.
  - destruct r as [|docno [|docdt rest]]; try discriminate.
    rewrite filter_cons.
    assert (has_hsn lookup (docno :: docdt :: rest)
            = truthy docno && match dict_get lookup docno with
                              | Some (_ :: _) => true
                              | _ => false
                              end) as Hhas by done.
    case_decide as Hdec; rewrite Hhas in Hdec.
    2:{ destruct (truthy docno); [|by apply IH]. simpl in Hdec |- *.
        destruct (dict_get lookup docno) as [[|c hsn]|]; try by apply IH. done. }
    apply andb_true_iff in Hdec as [-> Hdec]. cbn [negb].
    destruct (dict_get lookup docno) as [[|c hsn]|] eqn:Hl; try done.
    destruct (_fetch_gst_details (c :: hsn) st) as [[[gst_rate description] source] st1].
    intros Hrun.
    apply bind_Ok in Hrun as [[cgst sgst] [_ Hrun]].
    apply bind_Ok in Hrun as [display [Hdisp Hrun]].
    apply bind_Ok in Hrun as [[rows' st2] [Hrest [= <- <-]]].
    constructor; [|by eapply IH].
    exists docno, docdt, (c :: hsn), display, gst_rate, cgst, sgst, source.
    split; [done|]. split; [done|]. split; [done|]. split; [done|].
    intros d. by apply (desc_display_length description).
Qed.


End fetcher_cache.

Section fetcher_more_examples.
Import GSTFetcherAgent.
Local Open Scope list_scope.

Lemma sample_run_completes :
  ∃ file', @run Sample.builtins Sample.http_get Absent Sample.summary_sheet Sample.qr_sheet
           = Ok (Sample.gst_sheet, file').
Proof.
  destruct (@run Sample.builtins Sample.http_get Absent Sample.summary_sheet Sample.qr_sheet)
    as [[rows file']|e] eqn:Hrun; [|vm_compute in Hrun; discriminate Hrun].
  assert (rows = Sample.gst_sheet) as ->.
  { assert (match @run Sample.builtins Sample.http_get Absent Sample.summary_sheet
                    Sample.qr_sheet with
            | Ok (rows, _) => rows
            | Raise _ => []
            end = Sample.gst_sheet) as Hrows by (vm_compute; reflexivity).
    by rewrite Hrun in Hrows. }
  by exists file'.
Defined.

Lemma cache_grows_witness :
  ∃ file' m,
    @run Sample.builtins Sample.http_get Absent Sample.summary_sheet Sample.qr_sheet
    = Ok (Sample.gst_sheet, file')
    ∧ file' = Stored m
    ∧ ∀ hsn, is_Some (HSN_FALLBACK !! hsn) → is_Some (m !! hsn).
Proof.
  destruct sample_run_completes as [file' Hrun].
  destruct (@cache_only_grows Sample.builtins _ _ _ _ _ _ Hrun) as (m & Hfile & _ & Hseed & _).
  exists file', m. split; [exact Hrun|]. split; [exact Hfile|exact Hseed].
Defined.

Lemma saved_cache_witness :
  ∃ file',
    @run Sample.builtins Sample.http_get Absent Sample.summary_sheet Sample.qr_sheet
    = Ok (Sample.gst_sheet, file')
    ∧ ∃ st, file' = Stored (hsn_cache st) ∧ _load_hsn_cache file' = hsn_cache st.
Proof.
  destruct sample_run_completes as [file' Hrun].
  destruct (@saved_cache_reloads Sample.builtins _ _ _ _ _ _ Hrun) as (st & _ & Hfile & Hload & _).
  exists file'. split; [exact Hrun|]. exists st. split; [exact Hfile|exact Hload].
Defined.

Lemma remote_answer_witness :
  hsn_cache (initial Absent) !! lit "73239920" = None
  ∧ (@_fetch_gst_details Sample.builtins Sample.http_get (lit "73239920") (initial Absent)).1
    = (VInt 12, VStr (lit "Steel utensils"), search_url (lit "73239920"))
  ∧ (@_fetch_gst_details Sample.builtins Sample.http_get (lit "73239920")
       (@_fetch_gst_details Sample.builtins Sample.http_get (lit "73239920") (initial Absent)).2).1
    = (VInt 12, VStr (lit "Steel utensils"), Local_Cache).
Proof.
  assert (hsn_cache (initial Absent) !! lit "73239920" = None) as Hc
    by (vm_compute; reflexivity).
  split; [exact Hc|].
  destruct (@remote_answer_is_cached Sample.builtins Sample.http_get (lit "73239920")
              (initial Absent) _ (VInt 12) (VStr (lit "Steel utensils")) Hc eq_refl)
    as (H1 & _ & _ & H4 & _).
  { vm_compute. reflexivity. }
  { reflexivity. }
  split; [exact H1|exact H4].
Defined.

Lemma fallback_tier_witness :
  ∃ file',
    @run Sample.builtins Sample.http_get Absent Sample.summary_sheet Sample.qr_sheet
    = Ok (Sample.gst_sheet, file')
    ∧ Forall (λ r : row, ∃ source, r !! 7%nat = Some (VStr source)
                                   ∧ source ≠ Fallback_Dictionary ∧ live_source source)
        Sample.gst_sheet.
Proof.
  destruct sample_run_completes as [file' Hrun].
  exists file'. split; [exact Hrun|].
  exact (proj1 (@fallback_tier_never_answers Sample.builtins _ _ _ _ _ _ Hrun)).
Defined.



End fetcher_more_examples.

(** ** Reconciliation: the declared total, the line totals and the category
    column *)

Section reviewer_more.
Import ReviewerAgent.
Local Open Scope string_scope.
Local Open Scope list_scope.
Context `{Builtins}.

Lemma find_strong_bound hs : ∀ i j, find_strong i hs = Some j →
  (i ≤ j < i + length hs)%nat
  ∧ ∃ h, hs !! (j - i)%nat = Some h ∧ h ≠ [] ∧ contains (lit "item") h = false.
Proof.
  induction hs as [|h hs IH]; intros i j; simpl; [done|].
  assert (find_strong (S i) hs = Some j →
          (i ≤ j < i + S (length hs))%nat
          ∧ ∃ h0, (h :: hs) !! (j - i)%nat = Some h0 ∧ h0 ≠ []
                  ∧ contains (lit "item") h0 = false) as Hrec.
  { intros [Hb (h0 & Hh0 & Hne)]%IH. split; [lia|]. exists h0. split; [|done].
    replace (j - i)%nat with (S (j - S i)) by lia. done. }
  destruct h as [|c h]; [exact Hrec|]. cbn [truthy_str negb].
  destruct (contains (lit "item") (c :: h)) eqn:Hitem; [exact Hrec|]. cbn [orb].
  destruct (_ || _); [exact Hrec|].
  destruct (strong_match (c :: h)); [|exact Hrec].
  intros [= <-]. split; [lia|]. exists (c :: h). rewrite Nat.sub_diag. done.
Qed.

Lemma find_loose_bound hs : ∀ i j, find_loose i hs = Some j →
  (i ≤ j < i + length hs)%nat
  ∧ ∃ h, hs !! (j - i)%nat = Some h ∧ h ≠ [] ∧ contains (lit "item") h = false.
Proof.
  induction hs as [|h hs IH]; intros i j; simpl; [done|].
  assert (find_loose (S i) hs = Some j →
          (i ≤ j < i + S (length hs))%nat
          ∧ ∃ h0, (h :: hs) !! (j - i)%nat = Some h0 ∧ h0 ≠ []
                  ∧ contains (lit "item") h0 = false) as Hrec.
  { intros [Hb (h0 & Hh0 & Hne)]%IH. split; [lia|]. exists h0. split; [|done].
    replace (j - i)%nat with (S (j - S i)) by lia. done. }
  destruct h as [|c h]; [exact Hrec|]. cbn [truthy_str negb orb].
  destruct (contains (lit "item") (c :: h)) eqn:Hitem; [exact Hrec|].
  assert (Some i = Some j →
          (i ≤ j < i + S (length hs))%nat
          ∧ ∃ h0, ((c :: h) :: hs) !! (j - i)%nat = Some h0 ∧ h0 ≠ []
                  ∧ contains (lit "item") h0 = false) as Hhere.
  { intros [= <-]. split; [lia|]. exists (c :: h). rewrite Nat.sub_diag. done. }
  destruct (_ && _); [exact Hhere|].
  destruct (_ && _); [exact Hhere|exact Hrec].
Qed.

(** X19.  The column that [_find_totinv_column] returns lies inside the
    header row, so that reading it in a row of the width of the header
    cannot raise.  It is the twelfth column of a header of at least twelve
    cells, or a column whose header cell is not empty and does not hold
    the word item. *)
Theorem totinv_column_in_header header i :
  _find_totinv_column header = Some i →
  (i < length header)%nat
  ∧ ((i = 11%nat ∧ (12 ≤ length header)%nat)
     ∨ ∃ h, header !! i = Some h ∧ header_norm h ≠ []
            ∧ contains (lit "item") (header_norm h) = false).
Proof.
  unfold _find_totinv_column.
  assert (∀ j, (∃ h, (header_norm <$> header) !! (j - 0)%nat = Some h ∧ h ≠ []
                     ∧ contains (lit "item") h = false) →
               ∃ h, header !! j = Some h ∧ header_norm h ≠ []
                    ∧ contains (lit "item") (header_norm h) = false) as Hcell.
  { intros j (h & Hh & Hne). rewrite Nat.sub_0_r, list_lookup_fmap in Hh.
    destruct (header !! j) as [v|]; [|done]. injection Hh as <-. by exists v. }
  destruct (find_strong 0 _) as [j|] eqn:Hs.
  { intros [= <-]. apply find_strong_bound in Hs as [Hb Hh].
    rewrite length_fmap in Hb. split; [lia|]. right. by apply Hcell. }
  destruct (find_loose 0 _) as [j|] eqn:Hl.
  { intros [= <-]. apply find_loose_bound in Hl as [Hb Hh].
    rewrite length_fmap in Hb. split; [lia|]. right. by apply Hcell. }
  rewrite length_fmap. destruct (12 <=? length header)%nat eqn:Hlen; [|done].
  apply Nat.leb_le in Hlen. intros [= <-]. split; [lia|]. left. done.
Qed.

(** X20.  [_to_float] raises in one case only: on an [int] that is beyond
    the range of [float], where the conversion is outside the [try] and
    raises [OverflowError].  On [None], a [bool], a [float] and every text
    it returns. *)
Theorem to_float_raises_only_on_overflow val e :
  _to_float val = Raise e →
  ∃ z, val = VInt z ∧ e = OverflowError ∧ float_of_Z z = Raise OverflowError.
Proof.
  destruct val as [|b|z|f|s]; simpl; try done.
  - unfold float_of_Z. destruct (is_infinity _) eqn:Hinf; [|done].
    intros [= <-]. exists z. unfold float_of_Z. by rewrite Hinf.
  - destruct (replace _ _ _); [done|]. by destruct (float_of_str _).
Qed.

Lemma py_eqb_str_r k d : py_eqb k (VStr d) = true → k = VStr d.
Proof.
  destruct k; simpl; try done. unfold str_eqb. intros ?%bool_decide_eq_true. by subst.
Qed.

Lemma py_eqb_str_l k d : py_eqb (VStr d) k = true → k = VStr d.
Proof.
  destruct k; simpl; try done. unfold str_eqb. intros ?%bool_decide_eq_true. by subst.
Qed.

Lemma py_eqb_str_refl d : py_eqb (VStr d) (VStr d) = true.
Proof. simpl. unfold str_eqb. by apply bool_decide_eq_true. Qed.

Lemma add_total_get totals docno x d :
  dict_get (add_total totals docno x) (VStr d)
  = if py_eqb docno (VStr d) then add_amount (dict_get totals (VStr d)) x
    else dict_get totals (VStr d).
Proof.
  induction totals as [|[k t] rest IH]; simpl.
  - destruct (py_eqb docno (VStr d)); [|done]. by destruct x.
  - destruct (py_eqb k docno) eqn:Hk; simpl.
    + destruct (py_eqb k (VStr d)) eqn:Hkd.
      * apply py_eqb_str_r in Hkd as ->. apply py_eqb_str_l in Hk as ->.
        rewrite py_eqb_str_refl. by destruct x.
      * destruct (py_eqb docno (VStr d)) eqn:Hd; [|done].
        apply py_eqb_str_r in Hd as ->. congruence.
    + destruct (py_eqb k (VStr d)) eqn:Hkd; [|exact IH].
      apply py_eqb_str_r in Hkd as ->.
      destruct (py_eqb docno (VStr d)) eqn:Hd; [|done].
      apply py_eqb_str_r in Hd as ->. by rewrite py_eqb_str_refl in Hk.
Qed.

(** X21.  The taxable total of a document is the sum over its own rows of
    [Line_Items], in the order of the sheet and starting from 0.0, of the
    stored amount where there is one and of the computed amount otherwise
    (nothing is added for a row that has neither); rows of other documents
    in between do not change it.  This is stated for documents whose number
    is a text. *)
Theorem line_totals_sum_per_document items totals errors totals' d :
  line_item_check items totals = Ok (errors, totals') →
  dict_get totals' (VStr d) = doc_total d (dict_get totals (VStr d)) items.
Proof.
  revert totals errors totals'.
  induction items as [|r items IH]; intros totals errors totals'; simpl.
  { by intros [= _ <-]. }
  destruct r as [|docno [|sno [|desc [|hsn [|qty [|unit [|rate [|amount extra]]]]]]]];
    try discriminate.
  destruct (truthy docno) eqn:Hd; simpl.
  - intros [[errs totals1] [Hrest [= _ <-]]]%bind_Ok.
    rewrite (IH _ _ _ Hrest), add_total_get. f_equal.
    destruct docno as [| | | |s]; try done. simpl in Hd |- *. rewrite Hd. simpl.
    by destruct (str_eqb s d).
  - intros Hrest. rewrite (IH _ _ _ Hrest). f_equal.
    destruct docno as [| | | |s]; try done. simpl in Hd |- *. by rewrite Hd.
Qed.

Lemma add_total_distinct totals docno x :
  distinct_keys (fst <$> totals) → distinct_keys (fst <$> add_total totals docno x).
Proof.
  induction totals as [|[k t] rest IH]; simpl; [done|].
  intros [Hk Hrest]. destruct (py_eqb k docno) eqn:Hkd; simpl; [done|].
  split; [|by apply IH].
  clear IH Hrest. induction rest as [|[k' t'] rest IH]; simpl in *.
  - by constructor.
  - apply Forall_cons in Hk as [Hk' Hk].
    destruct (py_eqb k' docno); simpl; constructor; auto.
Qed.

Lemma line_totals_distinct items :
  ∀ totals errors totals',
    line_item_check items totals = Ok (errors, totals') →
    distinct_keys (fst <$> totals) → distinct_keys (fst <$> totals').
Proof.
  induction items as [|r items IH]; intros totals errors totals'; simpl.
  { by intros [= _ <-]. }
  destruct r as [|docno [|sno [|desc [|hsn [|qty [|unit [|rate [|amount extra]]]]]]]];
    try discriminate.
  destruct (negb (truthy docno)); [apply IH|].
  intros [[errs totals1] [Hrest [= _ <-]]]%bind_Ok Hd.
  eapply IH; [exact Hrest|]. by apply add_total_distinct.
Qed.

Lemma add_total_length totals docno x :
  (length (add_total totals docno x) ≤ S (length totals))%nat.
Proof.
  induction totals as [|[k t] rest IH]; simpl; [lia|].
  destruct (py_eqb k docno); simpl; lia.
Qed.

Lemma line_totals_length items :
  ∀ totals errors totals',
    line_item_check items totals = Ok (errors, totals') →
    (length totals' ≤ length totals + length items)%nat.
Proof.
  induction items as [|r items IH]; intros totals errors totals'; simpl.
  { intros [= _ <-]. lia. }
  destruct r as [|docno [|sno [|desc [|hsn [|qty [|unit [|rate [|amount extra]]]]]]]];
    try discriminate.
  destruct (negb (truthy docno)).
  - intros Hrest. apply IH in Hrest. lia.
  - intros [[errs totals1] [Hrest [= _ <-]]]%bind_Ok. apply IH in Hrest.
    pose proof (add_total_length totals docno
                  (match stored_amount amount with
                   | Some a => Some a
                   | None => computed_amount qty rate
                   end)). lia.
Qed.

Lemma compare_keys gl sl totals :
  ((λ r : row, default VNone (head r)) <$> compare gl sl totals)
    `sublist_of` (fst <$> totals).
Proof.
  induction totals as [|[docno taxable] rest IH]; simpl; [done|].
  rewrite fmap_app. unfold compare_one.
  destruct (dict_get gl docno) as [info|]; [|by apply sublist_cons].
  destruct (mjoin (dict_get sl docno)) as [q|]; [|by apply sublist_cons].
  destruct (CGST info), (SGST info); simpl;
    by (apply sublist_skip || apply sublist_cons).
Qed.

Lemma distinct_keys_sublist ks ks' :
  ks' `sublist_of` ks → distinct_keys ks → distinct_keys ks'.
Proof.
  induction 1 as [|k l1 l2 Hsub IH|k l1 l2 Hsub IH]; simpl; [done| |].
  - intros [Hk Hrest]. split; [|by apply IH].
    apply Forall_forall. intros k' Hk'. rewrite Forall_forall in Hk.
    apply Hk. by eapply elem_of_sublist.
  - intros [_ Hrest]. by apply IH.
Qed.

(** X22.  [Review_Report] has at most one row for a document number: the
    document numbers of its rows are pairwise different under [==], and it
    has no more rows than [Line_Items]. *)
Theorem one_review_row_per_document items header summary gst review errors :
  process items header summary gst = Ok (review, errors) →
  distinct_keys ((λ r : row, default VNone (head r)) <$> review)
  ∧ (length review ≤ length items)%nat.
Proof.
  unfold process.
  intros [[errs line_totals] [Hitems [gl [Hgst [sl [Hsum [= <- <-]]]%bind_Ok]]%bind_Ok]]%bind_Ok.
  pose proof (compare_keys gl sl line_totals) as Hsub.
  split.
  - eapply distinct_keys_sublist; [exact Hsub|].
    by eapply (line_totals_distinct _ [] _ _ Hitems).
  - apply sublist_length in Hsub. rewrite !length_fmap in Hsub.
    apply line_totals_length in Hitems. simpl in Hitems. lia.
Qed.

(** *** The category column *)

Lemma index_of_take x hs n i :
  index_of x (take n hs) = None → index_of x hs = Some i → (n ≤ i)%nat.
Proof.
  revert n i. induction hs as [|h hs IH]; intros n i; [done|].
  destruct n as [|n]; [lia|]. simpl.
  destruct (py_eqb h x); [done|].
  destruct (index_of x (take n hs)) as [j|] eqn:Ht; [done|]. intros _.
  destruct (index_of x hs) as [j|] eqn:Hi; [|done]. intros [= <-].
  specialize (IH n j Ht eq_refl). lia.
Qed.

Lemma index_of_snoc x hs :
  py_eqb x x = true → index_of x hs = None → index_of x (hs ++ [x]) = Some (length hs).
Proof.
  intros Hx. induction hs as [|h hs IH]; simpl; [by rewrite Hx|].
  destruct (py_eqb h x); [done|].
  destruct (index_of x hs); [done|]. intros _. by rewrite IH.
Qed.

Lemma first8_write_cell (r : row) col v :
  (8 ≤ col)%nat →
  MapperAgent.first8 (write_cell r col v) = MapperAgent.first8 r.
Proof.
  intros Hcol. unfold write_cell. destruct (is_none v); [done|].
  unfold MapperAgent.first8, row in *. cbv zeta.
  destruct (col <? length r)%nat eqn:Hlt.
  - apply Nat.ltb_lt in Hlt. by rewrite take_insert_ge by lia.
  - apply Nat.ltb_ge in Hlt.
    destruct (decide (8 ≤ length r)%nat) as [Hr|Hr].
    + rewrite take_app_le by lia. done.
    + rewrite take_app_ge by lia.
      rewrite take_app_le by (rewrite length_replicate; lia).
      rewrite take_replicate, Nat.min_l by lia.
      rewrite (take_ge r) by lia.
      rewrite !length_app, length_replicate.
      replace (8 - (length r + (8 - length r)))%nat with 0%nat by lia.
      simpl. by rewrite app_nil_r.
Qed.

Lemma take8_write_cell (r : row) col v :
  (8 ≤ col)%nat → (8 ≤ length r)%nat →
  take 8 (write_cell r col v) = take 8 r ∧ (8 ≤ length (write_cell r col v))%nat.
Proof.
  intros Hcol Hr. unfold write_cell, row in *. destruct (is_none v); [done|].
  destruct (col <? length r)%nat eqn:Hlt.
  - rewrite take_insert_ge by lia. by rewrite length_insert.
  - rewrite take_app_le by lia. rewrite length_app. split; [done|lia].
Qed.

Lemma fill_categories_rows gl col items items' :
  fill_categories gl col items = Ok items' →
  Forall2 (λ r r' : row, r' = r ∨ ∃ v, r' = write_cell r col v) items items'.
Proof.
  revert items'. induction items as [|r items IH]; intros items'; simpl.
  - intros [= <-]. constructor.
  - destruct r as [|docno cells]; [done|].
    intros [rest' [Hrest [= <-]]]%bind_Ok.
    constructor; [|by apply IH].
    destruct (truthy docno); [|by left].
    destruct (dict_get gl docno); [right; by eexists|by left].
Qed.

Lemma map_item_first8 master_map (r r' : row) :
  MapperAgent.first8 r' = MapperAgent.first8 r →
  MapperAgent.map_item master_map r' = MapperAgent.map_item master_map r.
Proof. unfold MapperAgent.map_item. by intros ->. Qed.

Lemma line_item_check_take8 items items' :
  Forall2 (λ r r' : row, take 8 r' = take 8 r ∧ (8 ≤ length r)%nat ∧ (8 ≤ length r')%nat)
    items items' →
  ∀ totals, line_item_check items' totals = line_item_check items totals.
Proof.
  induction 1 as [|r r' items items' (Ht & Hr & Hr') _ IH]; intros totals; [done|].
  do 8 (destruct r as [|? r]; [simpl in Hr; lia|]).
  do 8 (destruct r' as [|? r']; [simpl in Hr'; lia|]).
  simpl in Ht. injection Ht as -> -> -> -> -> -> -> ->.
  simpl. destruct (negb _); [apply IH|]. by rewrite IH.
Qed.

Lemma fill_categories_outside gl col items filled :
  (8 ≤ col)%nat →
  fill_categories gl col items = Ok filled →
  MapperAgent.first8 <$> filled = MapperAgent.first8 <$> items
  ∧ (∀ master, MapperAgent.process master filled = MapperAgent.process master items)
  ∧ (Forall (λ r : row, (8 ≤ length r)%nat) items →
     ∀ totals, line_item_check filled totals = line_item_check items totals).
Proof.
  intros Hcol Hfill%fill_categories_rows. split; [|split].
  - induction Hfill as [|r r' items items' Hr _ IH]; [done|].
    rewrite !fmap_cons, IH. f_equal.
    destruct Hr as [->|[v ->]]; [done|by apply first8_write_cell].
  - intros master. unfold MapperAgent.process.
    destruct (MapperAgent.load_master master ∅) as [master_map|e]; [|done]. simpl.
    induction Hfill as [|r r' items items' Hr _ IH]; [done|].
    simpl. rewrite IH. f_equal.
    apply map_item_first8. destruct Hr as [->|[v ->]]; [done|by apply first8_write_cell].
  - intros Hitems. apply line_item_check_take8.
    induction Hfill as [|r r' items items' Hr _ IH]; [constructor|].
    apply Forall_cons in Hitems as [Hr8 Hitems]. constructor; [|by apply IH].
    destruct Hr as [->|[v ->]]; [done|].
    destruct (take8_write_cell r col v Hcol Hr8). done.
Qed.

(** X23.  The category column does not disturb the other stages.  When
    the header of [Line_Items] has at least eight cells and none of the
    first eight is [Item Category], step 5 leaves the first eight cells of
    the header and of every row as they were: catalog matching gives the
    same sheets on the rows it saved as on the rows it read, and so does
    the line check when the rows have their eight cells. *)
Theorem category_column_outside_line_items gl headers items headers' items' :
  (8 ≤ length headers)%nat →
  index_of Item_Category (take 8 headers) = None →
  add_item_category gl headers items = Ok (headers', items') →
  take 8 headers' = take 8 headers
  ∧ MapperAgent.first8 <$> items' = MapperAgent.first8 <$> items
  ∧ (∀ master, MapperAgent.process master items' = MapperAgent.process master items)
  ∧ (Forall (λ r : row, (8 ≤ length r)%nat) items →
     ∀ totals, line_item_check items' totals = line_item_check items totals).
Proof.
  intros Hlen Htake. unfold add_item_category.
  destruct (index_of Item_Category headers) as [i|] eqn:Hi.
  - pose proof (index_of_take _ _ _ _ Htake Hi) as Hcol.
    intros [filled [Hfill [= <- <-]]]%bind_Ok. split; [done|].
    by apply (fill_categories_outside gl i).
  - intros [filled [Hfill [= <- <-]]]%bind_Ok. split; [by rewrite take_app_le|].
    by apply (fill_categories_outside gl (length headers)).
Qed.

Lemma write_cell_twice (r : row) col v :
  write_cell (write_cell r col v) col v = write_cell r col v.
Proof.
  unfold write_cell, row in *. destruct (is_none v) eqn:Hv; [done|].
  destruct (col <? length r)%nat eqn:Hlt.
  - rewrite length_insert, Hlt. apply list_insert_insert_eq.
  - apply Nat.ltb_ge in Hlt.
    assert (length (r ++ replicate (col - length r) VNone ++ [v]) = S col) as Hlen.
    { rewrite !length_app, length_replicate. simpl. lia. }
    rewrite Hlen. replace (col <? S col)%nat with true by (symmetry; apply Nat.ltb_lt; lia).
    apply list_insert_id.
    rewrite lookup_app_r by lia. rewrite lookup_app_r by (rewrite length_replicate; lia).
    rewrite length_replicate. replace (col - length r - (col - length r))%nat with 0%nat by lia.
    done.
Qed.

Lemma write_cell_head (r : row) col v docno :
  (0 < col)%nat → head r = Some docno → head (write_cell r col v) = Some docno.
Proof.
  intros Hcol. unfold write_cell, row in *. destruct (is_none v); [done|].
  destruct r as [|d r]; [done|]. intros [= ->].
  destruct (col <? length (docno :: r))%nat.
  - destruct col; [lia|done].
  - done.
Qed.

Lemma fill_categories_twice gl col items items' :
  (0 < col)%nat →
  fill_categories gl col items = Ok items' →
  fill_categories gl col items' = Ok items'.
Proof.
  intros Hcol. revert items'. induction items as [|r items IH]; intros items'; simpl.
  - by intros [= <-].
  - destruct r as [|docno cells] eqn:Hr; [done|].
    intros [rest' [Hrest [= <-]]]%bind_Ok. specialize (IH _ Hrest).
    destruct (truthy docno) eqn:Hd.
    + destruct (dict_get gl docno) as [info|] eqn:Hg.
      * pose proof (write_cell_head (docno :: cells) col (Description info) docno Hcol eq_refl)
          as Hhead.
        pose proof (write_cell_twice (docno :: cells) col (Description info)) as Htwice.
        destruct (write_cell (docno :: cells) col (Description info)) as [|d' cells'] eqn:Hw;
          [done|].
        injection Hhead as ->. cbn [fill_categories]. rewrite Hd, Hg, IH. simpl.
        by rewrite Htwice.
      * cbn [fill_categories]. by rewrite Hd, Hg, IH.
    + cbn [fill_categories]. by rewrite Hd, IH.
Qed.

(** X24.  Step 5 is idempotent: run again on the header and the rows that
    it saved, with the same rates, it saves them unchanged; the header
    gets no second category column.  (The first header cell is not
    [Item Category]: the first column holds the document numbers.) *)
Theorem category_column_idempotent gl headers items headers' items' :
  headers ≠ [] →
  index_of Item_Category headers ≠ Some 0%nat →
  add_item_category gl headers items = Ok (headers', items') →
  add_item_category gl headers' items' = Ok (headers', items').
Proof.
  intros Hne Hfirst. unfold add_item_category.
  destruct (index_of Item_Category headers) as [i|] eqn:Hi.
  - assert (0 < i)%nat as Hcol by (destruct i; [by destruct Hfirst|lia]).
    intros [filled [Hfill [= <- <-]]]%bind_Ok. rewrite Hi.
    by rewrite (fill_categories_twice _ _ _ _ Hcol Hfill).
  - assert (0 < length headers)%nat as Hcol by (destruct headers; [done|simpl; lia]).
    intros [filled [Hfill [= <- <-]]]%bind_Ok.
    rewrite index_of_snoc by done.
    by rewrite (fill_categories_twice _ _ _ _ Hcol Hfill).
Qed.

End reviewer_more.

(** ** The stages in sequence *)

Section pipeline.
Local Open Scope string_scope.
Local Open Scope list_scope.
Context `{Builtins}.
Variable re_search : pystr → bool → pystr → option (list (option pystr)).
Variable qr_data : pystr → result (gmap string value).
Variable json_dumps : gmap string value → pystr.
Variable line_items : pystr → list (gmap string value).
Variable http_get : pystr → result (Z * list (list pystr)).

Lemma to_float_returns cell :
  (∀ z, cell = VInt z → ∃ f, float_of_Z z = Ok f) → ∃ q, ReviewerAgent._to_float cell = Ok q.
Proof.
  intros Hcell. destruct cell as [|b|z|f|s]; simpl; try by eexists.
  - destruct (Hcell z eq_refl) as [f ->]. by eexists.
  - destruct (replace _ _ _); [by eexists|]. destruct (float_of_str _); by eexists.
Qed.

Lemma summary_lookup_returns summary :
  Forall (λ r : list value, length r = 18%nat ∧ ReviewerAgent.total_readable r) summary →
  ∀ acc, ∃ sl, ReviewerAgent.summary_lookup (Some 11%nat) summary acc = Ok sl.
Proof.
  induction 1 as [|r summary [Hlen Hr] _ IH]; intros acc; [by eexists|].
  destruct r as [|docno [|c1 [|c2 [|c3 [|c4 [|c5 [|c6 [|c7 [|c8 [|c9 [|c10 [|total r]]]]]]]]]]]];
    try done.
  cbn [ReviewerAgent.summary_lookup].
  destruct (negb (truthy docno)); [apply IH|].
  destruct (to_float_returns total) as [q Hq].
  { intros z ->. by apply Hr. }
  cbn. rewrite Hq. apply IH.
Qed.

(** X25.  The later stages accept what the ingestion writes.  On the
    workbook that a run of the ingestion leaves when it started from the
    new workbook of [_init_excel], rate resolution completes, for every
    lookup service and every cache file that the resolver itself left
    behind, and on its rows the reconciliation (steps 1 to 4) completes
    too, provided that no declared total is an integer beyond the range of
    [float]: the sheets have the widths and the cells that the unpacking
    and the conversions of the later stages need. *)
Theorem later_stages_accept_ingested_workbook text wb' file :
  LoggerAgent.process re_search qr_data json_dumps line_items text
    (LoggerAgent._init_excel None) = Ok wb' →
  GSTFetcherAgent.reachable file →
  Forall ReviewerAgent.total_readable (LoggerAgent.Invoice_Summary wb') →
  ∃ gst file' review errors,
    GSTFetcherAgent.run http_get file (LoggerAgent.Invoice_Summary wb') (LoggerAgent.QR_Meta wb')
    = Ok (gst, file')
    ∧ ReviewerAgent.process (LoggerAgent.Line_Items wb') LoggerAgent.Invoice_Summary_header
        (LoggerAgent.Invoice_Summary wb') gst
      = Ok (review, errors).
Proof.
  unfold LoggerAgent.process. intros [K [_ Hrun]]%bind_Ok Hreach Htotals.
  destruct (ingest_logged _ _ _ _ _ _ _ _ Hrun) as (ps & -> & _ & _ & _).
  destruct (log_all_sheets ps (LoggerAgent._init_excel None)) as (Hsummary & Hitems & Hqr).
  destruct (LoggerAgent.log_all ps (LoggerAgent._init_excel None)) as [summary items qr].
  simpl in *.
  assert (Forall (λ r : list value, length r = 18%nat) summary) as Hs18.
  { rewrite Hsummary. apply Forall_fmap, Forall_forall. by intros p _. }
  assert (Forall (λ r : list value, length r = 11%nat) qr) as Hq11.
  { rewrite Hqr. apply Forall_forall. intros r (p & Hr & _)%list_elem_of_bind.
    destruct (LoggerAgent.nonempty p.2); [|by apply elem_of_nil in Hr].
    by apply list_elem_of_singleton in Hr as ->. }
  assert (Forall (λ r : list value, (8 ≤ length r)%nat) items) as Hi8.
  { rewrite Hitems. apply Forall_forall. intros r (p & Hr & _)%list_elem_of_bind.
    apply list_elem_of_fmap in Hr as (item & -> & _). simpl. lia. }
  destruct (run_returns http_get file summary qr) as (gst & file' & Hgst).
  { by apply reachable_well_formed. }
  { eapply Forall_impl; [exact Hs18|]. simpl. intros r ->. lia. }
  { done. }
  destruct (run_well_formed _ _ _ _ _ _ (reachable_well_formed _ Hreach) Hgst) as [Hok _].
  destruct (summary_lookup_returns summary) with (acc := @nil (value * option float))
    as [sl Hsl].
  { apply Forall_forall. intros r Hr. rewrite Forall_forall in Hs18, Htotals. auto. }
  destruct (review_returns items LoggerAgent.Invoice_Summary_header summary gst sl Hi8 Hok)
    as (review & errors & Hreview).
  { assert (ReviewerAgent._find_totinv_column LoggerAgent.Invoice_Summary_header = Some 11%nat)
      as -> by (vm_compute; reflexivity). exact Hsl. }
  by exists gst, file', review, errors.
Qed.

(** X26.  Catalog matching accepts what the ingestion writes: on rows of
    [Line_Items] with floats for their rates, as the parser of
    [_parse_invoice] gives them, and a master sheet whose rows have five
    cells and whose rates [float] converts, [process] completes. *)
Theorem mapper_accepts_parsed_items master items :
  Forall (λ r : list value, length r = 5%nat
                            ∧ ∃ f, py_float (default VNone (r !! 4%nat)) = Ok f) master →
  Forall LoggerAgent.parsed_row items →
  ∃ mapped unmapped, MapperAgent.process master items = Ok (mapped, unmapped).
Proof.
  intros Hmaster Hitems. unfold MapperAgent.process.
  assert (∀ acc,
            (∀ k e, acc !! k = Some e → ∃ f, py_float (MapperAgent.Rate e) = Ok f) →
            ∃ master_map,
              MapperAgent.load_master master acc = Ok master_map
              ∧ ∀ k e, master_map !! k = Some e → ∃ f, py_float (MapperAgent.Rate e) = Ok f)
    as Hload.
  { induction Hmaster as [|r master [Hlen [f Hf]] _ IH]; intros acc Hacc; [by exists acc|].
    destruct r as [|model_no [|prod_name [|sku [|hsn [|rate [|]]]]]]; try done.
    cbn [MapperAgent.load_master]. apply IH.
    intros k e [[_ <-]|[_ He]]%lookup_insert_Some; [by exists f|by eapply Hacc]. }
  destruct (Hload ∅) as (master_map & -> & Hrates); [by intros k e ?%lookup_empty_Some|].
  cbn [bind]. clear Hload Hmaster.
  induction Hitems as [|r items Hr _ IH]; [by eexists _, _|].
  destruct Hr as (docno & sno & desc & hsn & q & unit & rate & amount & -> & _).
  destruct IH as (ms & us & IH). cbn [MapperAgent.map_items].
  unfold MapperAgent.map_item. cbn [MapperAgent.first8 take length app replicate Nat.sub].
  destruct (master_map !! _) as [e|] eqn:Hkey.
  - destruct (Hrates _ _ Hkey) as [f ->]. cbn [py_float bind]. rewrite IH. by eexists _, _.
  - cbn [bind]. rewrite IH. by eexists _, _.
Qed.

End pipeline.

Section reviewer_more_examples.
Import ReviewerAgent.
Local Open Scope list_scope.

Lemma totinv_column_witness :
  @_find_totinv_column Sample.builtins LoggerAgent.Invoice_Summary_header = Some 11%nat
  ∧ (11 < length LoggerAgent.Invoice_Summary_header)%nat.
Proof.
  assert (@_find_totinv_column Sample.builtins LoggerAgent.Invoice_Summary_header
          = Some 11%nat) as Hcol by (vm_compute; reflexivity).
  split; [exact Hcol|].
  exact (proj1 (@totinv_column_in_header Sample.builtins _ _ Hcol)).
Defined.

Lemma to_float_overflow_witness :
  @_to_float Sample.builtins (VInt (2 ^ 1024)) = Raise OverflowError
  ∧ ∃ z, VInt (2 ^ 1024) = VInt z ∧ float_of_Z z = Raise OverflowError.
Proof.
  assert (@_to_float Sample.builtins (VInt (2 ^ 1024)) = Raise OverflowError) as Hraise
    by (vm_compute; reflexivity).
  split; [exact Hraise|].
  destruct (@to_float_raises_only_on_overflow Sample.builtins _ _ Hraise)
    as (z & Hz & _ & Hover).
  exists z. split; [exact Hz|exact Hover].
Defined.

Lemma line_totals_witness :
  ∃ errors totals,
    @line_item_check Sample.builtins Sample.items_sheet [] = Ok (errors, totals)
    ∧ dict_get totals (VStr (lit "INV-2")) = Some 299.5%float.
Proof.
  assert (match @line_item_check Sample.builtins Sample.items_sheet [] with
          | Ok _ => true
          | Raise _ => false
          end = true) as Hsome by (vm_compute; reflexivity).
  destruct (@line_item_check Sample.builtins Sample.items_sheet []) as [[errors totals]|]
    eqn:Hcheck; [|discriminate Hsome].
  exists errors, totals. split; [reflexivity|].
  rewrite (@line_totals_sum_per_document Sample.builtins _ _ _ _ (lit "INV-2") Hcheck).
  vm_compute. reflexivity.
Defined.

Lemma one_review_row_witness :
  Sample.review Sample.items_sheet = Ok (Sample.review_sheet, Sample.error_sheet)
  ∧ distinct_keys ((λ r : row, default VNone (head r)) <$> Sample.review_sheet).
Proof.
  assert (Sample.review Sample.items_sheet = Ok (Sample.review_sheet, Sample.error_sheet))
    as Hrun by (vm_compute; reflexivity).
  split; [exact Hrun|].
  exact (proj1 (@one_review_row_per_document Sample.builtins _ _ _ _ _ _ Hrun)).
Defined.

(** [gst_lookup] of the sample: one entry, for the first document *)
Lemma category_column_witness :
  ∃ gl headers' items',
    add_item_category gl LoggerAgent.Line_Items_header Sample.items_sheet
    = Ok (headers', items')
    ∧ take 8 headers' = take 8 LoggerAgent.Line_Items_header
    ∧ MapperAgent.first8 <$> items' = MapperAgent.first8 <$> Sample.items_sheet.
Proof.
  pose (gl := [(Sample.str "INV-1",
                {| HSN := Sample.str "94035000"; Description := Sample.str "Wooden furniture";
                   Source := VNone; GST := None; CGST := None; SGST := None |})]).
  assert (match add_item_category gl LoggerAgent.Line_Items_header Sample.items_sheet with
          | Ok _ => true
          | Raise _ => false
          end = true) as Hsome by (vm_compute; reflexivity).
  destruct (add_item_category gl LoggerAgent.Line_Items_header Sample.items_sheet)
    as [[headers' items']|] eqn:Hfill; [|discriminate Hsome].
  exists gl, headers', items'.
  assert (8 ≤ length LoggerAgent.Line_Items_header)%nat as Hlen by (vm_compute; lia).
  assert (index_of Item_Category (take 8 LoggerAgent.Line_Items_header) = None) as Hnone
    by (vm_compute; reflexivity).
  destruct (@category_column_outside_line_items Sample.builtins gl _ _ _ _ Hlen Hnone Hfill)
    as (Hh & Hf & _).
  split; [exact Hfill|]. split; [exact Hh|exact Hf].
Defined.

Lemma category_idempotent_witness :
  ∃ gl headers' items',
    add_item_category gl LoggerAgent.Line_Items_header Sample.items_sheet
    = Ok (headers', items')
    ∧ add_item_category gl headers' items' = Ok (headers', items').
Proof.
  pose (gl := [(Sample.str "INV-1",
                {| HSN := Sample.str "94035000"; Description := Sample.str "Wooden furniture";
                   Source := VNone; GST := None; CGST := None; SGST := None |})]).
  assert (match add_item_category gl LoggerAgent.Line_Items_header Sample.items_sheet with
          | Ok _ => true
          | Raise _ => false
          end = true) as Hsome by (vm_compute; reflexivity).
  destruct (add_item_category gl LoggerAgent.Line_Items_header Sample.items_sheet)
    as [[headers' items']|] eqn:Hfill; [|discriminate Hsome].
  exists gl, headers', items'. split; [exact Hfill|].
  apply (@category_column_idempotent gl LoggerAgent.Line_Items_header Sample.items_sheet);
    [discriminate|vm_compute; discriminate|exact Hfill].
Defined.

Lemma later_stages_witness :
  Sample.ingest_text Sample.text (LoggerAgent._init_excel None) = Ok Sample.ingested
  ∧ ∃ gst file' review errors,
      @GSTFetcherAgent.run Sample.builtins Sample.http_get GSTFetcherAgent.Absent
        (LoggerAgent.Invoice_Summary Sample.ingested) (LoggerAgent.QR_Meta Sample.ingested)
      = Ok (gst, file')
      ∧ @process Sample.builtins (LoggerAgent.Line_Items Sample.ingested)
          LoggerAgent.Invoice_Summary_header (LoggerAgent.Invoice_Summary Sample.ingested) gst
        = Ok (review, errors).
Proof.
  assert (Sample.ingest_text Sample.text (LoggerAgent._init_excel None) = Ok Sample.ingested)
    as Hrun by (vm_compute; reflexivity).
  split; [exact Hrun|].
  apply (@later_stages_accept_ingested_workbook Sample.builtins Sample.re_search Sample.qr_data
           Sample.json_dumps Sample.line_items Sample.http_get _ _ GSTFetcherAgent.Absent Hrun
           (@GSTFetcherAgent.reachable_absent Sample.builtins)).
  repeat constructor. intros z Hz. vm_compute in Hz. discriminate Hz.
Defined.

Lemma mapper_accepts_witness :
  Forall LoggerAgent.parsed_row (LoggerAgent.Line_Items Sample.ingested_invoice)
  ∧ ∃ mapped unmapped,
      @MapperAgent.process Sample.builtins Sample.master_sheet
        (LoggerAgent.Line_Items Sample.ingested_invoice)
      = Ok (mapped, unmapped).
Proof.
  assert (Forall LoggerAgent.parsed_row (LoggerAgent.Line_Items Sample.ingested_invoice))
    as Hrows.
  { repeat constructor; by eexists _, _, _, _, _, _, _, _. }
  split; [exact Hrows|].
  apply (@mapper_accepts_parsed_items Sample.builtins); [|exact Hrows].
  repeat constructor; by eexists.
Defined.

End reviewer_more_examples.

(** ** Validation flags and segmentation *)

Section validation_flags.
Import LoggerAgent ValidationAgent.
Local Open Scope string_scope.
Local Open Scope list_scope.

Lemma linebreak_is_space c : is_linebreak c = true → is_space c = true.
Proof.
  unfold is_linebreak, is_space.
  rewrite !orb_true_iff, !andb_true_iff, !N.leb_le, !N.eqb_eq. lia.
Qed.

Lemma splitlines_from_newline q :
  (∃ c, last q = Some c ∧ is_linebreak c = false) →
  ∀ cur cr rest,
    splitlines_from cur cr (q ++ 10%N :: rest)
    = splitlines_from cur cr q ++ splitlines_from [] false rest.
Proof.
  induction q as [|c q IH]; intros (c0 & Hlast & Hc0) cur cr rest; [done|].
  destruct q as [|c' q].
  - injection Hlast as ->. simpl.
    assert ((c0 =? 10)%N = false) as Hne.
    { apply N.eqb_neq. intros ->. done. }
    rewrite Hne, andb_false_r, Hc0. done.
  - rewrite last_cons_cons in Hlast.
    assert (∀ cur cr, splitlines_from cur cr ((c' :: q) ++ 10%N :: rest)
                      = splitlines_from cur cr (c' :: q) ++ splitlines_from [] false rest)
      as IH' by (intros; apply IH; by exists c0).
    change ((c :: c' :: q) ++ 10%N :: rest) with (c :: ((c' :: q) ++ 10%N :: rest)).
    cbn [splitlines_from].
    destruct (cr && (c =? 10)%N); [apply IH'|].
    destruct (is_linebreak c); [by rewrite IH'|apply IH'].
Qed.

Lemma split_lines_first pre :
  Forall (λ l, is_validation_line l = false) pre →
  ∀ current line rest,
    is_validation_line line = true →
    split_lines current (pre ++ line :: rest)
    = join [10%N] (current ++ pre ++ [line]) :: split_lines [] rest.
Proof.
  induction 1 as [|l pre Hl _ IH]; intros current line rest Hline; simpl.
  - by rewrite Hline.
  - rewrite Hl, IH by done. by rewrite <- app_assoc.
Qed.

Lemma strip_last s c : last (strip s) = Some c → is_linebreak c = false.
Proof.
  unfold strip. destruct (rstrip_spec (lstrip s)) as (_ & _ & _ & Hlast).
  intros Hc%Hlast. destruct (is_linebreak c) eqn:Hb; [|done].
  apply linebreak_is_space in Hb. congruence.
Qed.

Lemma page_lines_split page flag rest :
  Forall (λ c, is_linebreak c = false) flag →
  splitlines (insert_flag_to_page page flag ++ rest)
  = page_lines page ++ [[]; flag] ++ splitlines rest.
Proof.
  intros Hflag. unfold insert_flag_to_page, page_lines, splitlines.
  rewrite <- !app_assoc.
  pose proof (strip_last page) as Hlast.
  destruct (strip page) as [|c q] eqn:Hq.
  - simpl. by rewrite splitlines_from_line.
  - assert (strip page ≠ []) as Hne by (by rewrite Hq).
    rewrite <- Hq in *. clear Hq.
    change ([10%N; 10%N] ++ flag ++ [10%N] ++ rest)
      with (10%N :: (10%N :: flag ++ 10%N :: rest)).
    rewrite splitlines_from_newline.
    + f_equal. simpl. by rewrite splitlines_from_line.
    + destruct (last (strip page)) as [c0|] eqn:Hc0.
      * exists c0. split; [done|]. by apply Hlast.
      * by apply last_None in Hc0.
Qed.

Lemma startswith_app p t : startswith p (p ++ t) = true.
Proof. induction p as [|a p IH]; [done|]. simpl. by rewrite N.eqb_refl. Qed.

Lemma validation_prefix_line body :
  is_validation_line (lit "VALIDATION:" ++ body ++ [41%N]) = true.
Proof.
  unfold is_validation_line.
  assert (strip (lit "VALIDATION:" ++ body ++ [41%N]) = lit "VALIDATION:" ++ body ++ [41%N])
    as ->; [|apply startswith_app].
  unfold strip.
  assert (lstrip (lit "VALIDATION:" ++ body ++ [41%N]) = lit "VALIDATION:" ++ body ++ [41%N])
    as -> by done.
  unfold rstrip. rewrite app_assoc, reverse_app.
  change (reverse [41%N]) with [41%N].
  change (lstrip ([41%N] ++ reverse (lit "VALIDATION:" ++ body)))
    with (41%N :: reverse (lit "VALIDATION:" ++ body)).
  by rewrite reverse_cons, reverse_involutive.
Qed.

Lemma lit_one_line (s : string) :
  forallb (λ c, negb (is_linebreak c)) (lit s) = true →
  Forall (λ c, is_linebreak c = false) (lit s).
Proof.
  intros Hs. apply Forall_forall. intros c Hc%list_elem_of_In.
  rewrite forallb_forall in Hs. by apply negb_true_iff, Hs.
Qed.

(** X27.  Whatever the validator returned for the document number, the
    total, the mismatches or the message, each of the three flags of
    [append_validation] is a line that [_split_invoices] takes for the end of
    an invoice; a flag is one line when the inserted fields have no line
    break. *)
Theorem flags_are_validation_lines docno totinv mismatch_info message :
  (is_validation_line (valid_flag docno totinv) = true
   ∧ is_validation_line (mismatch_flag docno mismatch_info) = true
   ∧ is_validation_line (error_flag message) = true)
  ∧ (Forall (λ c, is_linebreak c = false) (docno ++ totinv ++ mismatch_info ++ message) →
     Forall (Forall (λ c, is_linebreak c = false))
       [ valid_flag docno totinv; mismatch_flag docno mismatch_info; error_flag message ]).
Proof.
  split.
  - assert (valid_flag docno totinv
            = lit "VALIDATION:"
              ++ (lit " VALID " ++ [9989%N] ++ lit " (DocNo: " ++ docno
                  ++ lit ", TotInvVal: " ++ totinv) ++ [41%N]) as ->
      by (unfold valid_flag; rewrite <- ?app_assoc; reflexivity).
    assert (mismatch_flag docno mismatch_info
            = lit "VALIDATION:"
              ++ (lit " NOT VALID " ++ [10060%N] ++ lit " (DocNo: " ++ docno
                  ++ lit " - " ++ mismatch_info) ++ [41%N]) as ->
      by (unfold mismatch_flag; rewrite <- ?app_assoc; reflexivity).
    assert (error_flag message
            = lit "VALIDATION:"
              ++ (lit " ERROR " ++ [9888%N; 65039%N] ++ lit " (" ++ message) ++ [41%N]) as ->
      by (unfold error_flag; rewrite <- ?app_assoc; reflexivity).
    repeat split; apply validation_prefix_line.
  - rewrite !Forall_app. intros (Hd & Ht & Hm & He).
    repeat constructor; unfold valid_flag, mismatch_flag, error_flag;
      rewrite !Forall_app; repeat split; try done;
      try (apply lit_one_line; reflexivity); by repeat constructor.
Qed.

(** X28.  A page that got its flag from [insert_flag_to_page] is one block
    for [_split_invoices] when none of its own lines begins with the
    marker and the flag is one marker line: the block is the stripped
    page, an empty line and the flag, and the text after it is split on its
    own. *)
Theorem inserted_flag_ends_block page flag rest :
  Forall (λ c, is_linebreak c = false) flag →
  is_validation_line flag = true →
  Forall (λ l, is_validation_line l = false) (page_lines page) →
  _split_invoices (insert_flag_to_page page flag ++ rest)
  = join [10%N] (page_lines page ++ [[]; flag]) :: _split_invoices rest.
Proof.
  intros Hone Hflag Hpage. unfold _split_invoices.
  rewrite page_lines_split by done.
  change (page_lines page ++ [[]; flag] ++ splitlines rest)
    with (page_lines page ++ [[]] ++ flag :: splitlines rest).
  rewrite app_assoc.
  rewrite (split_lines_first (page_lines page ++ [[]])); [|
    apply Forall_app; split; [done|by repeat constructor] | done].
  simpl. by rewrite <- app_assoc.
Qed.

End validation_flags.

Section validation_more_examples.
Import LoggerAgent ValidationAgent.
Local Open Scope string_scope.
Local Open Scope list_scope.

Lemma flags_witness :
  Forall (λ c, is_linebreak c = false)
    (lit "INV-1" ++ lit "1180.0" ++ lit "DocNo mismatch" ++ lit "Incomplete invoice data")
  ∧ Forall (Forall (λ c, is_linebreak c = false))
      [ valid_flag (lit "INV-1") (lit "1180.0");
        mismatch_flag (lit "INV-1") (lit "DocNo mismatch");
        error_flag (lit "Incomplete invoice data") ].
Proof.
  assert (Forall (λ c, is_linebreak c = false)
            (lit "INV-1" ++ lit "1180.0" ++ lit "DocNo mismatch"
             ++ lit "Incomplete invoice data")) as Hfields.
  { apply Forall_forall. intros c Hc%list_elem_of_In.
    assert (forallb (λ c, negb (is_linebreak c))
              (lit "INV-1" ++ lit "1180.0" ++ lit "DocNo mismatch"
               ++ lit "Incomplete invoice data") = true) as Hb by (vm_compute; reflexivity).
    rewrite forallb_forall in Hb. by apply negb_true_iff, Hb. }
  split; [exact Hfields|].
  exact (proj2 (flags_are_validation_lines (lit "INV-1") (lit "1180.0")
                  (lit "DocNo mismatch") (lit "Incomplete invoice data")) Hfields).
Defined.

Lemma inserted_flag_witness :
  _split_invoices
    (insert_flag_to_page (Sample.lines ["  # Page 5"; "Tax Invoice"; "Total 1180.00"; ""])
       (valid_flag (lit "INV-1") (lit "1180.0"))
     ++ Sample.lines ["# Page 6"; ""])
  = [ Sample.lines ["# Page 5"; "Tax Invoice"; "Total 1180.00"; ""; "VALIDATION: VALID "]
      ++ [9989%N] ++ lit " (DocNo: INV-1, TotInvVal: 1180.0)" ].
Proof.
  rewrite (inserted_flag_ends_block _ _ _).
  - vm_compute. reflexivity.
  - apply Forall_forall. intros c Hc%list_elem_of_In.
    assert (forallb (λ c, negb (is_linebreak c))
              (valid_flag (lit "INV-1") (lit "1180.0")) = true) as Hb
      by (vm_compute; reflexivity).
    rewrite forallb_forall in Hb. by apply negb_true_iff, Hb.
  - vm_compute. reflexivity.
  - apply Forall_forall. intros l Hl%list_elem_of_In.
    assert (forallb (λ l, negb (is_validation_line l))
              (page_lines (Sample.lines ["  # Page 5"; "Tax Invoice"; "Total 1180.00"; ""]))
            = true) as Hb by (vm_compute; reflexivity).
    rewrite forallb_forall in Hb. by apply negb_true_iff, Hb.
Defined.

End validation_more_examples.
